(** * massBindingTarget: plot discovery and binding-list aggregation

    A shallow embedding of [main.go] (the command [massBindingTarget]) and
    the properties of its specification.

    The program is a single Go file.  Everything it reaches outside that
    file (the file system, the plot header parsers, the binding-target
    derivations, the keystore, the interrupt channel, JSON encoding) is
    gathered in one record [Env]; the Go functions become Rocq functions
    over [Env] that thread an explicit run state (number of polls of the
    interrupt channel, log of observable actions). *)

From Stdlib Require Import Bool Arith ZArith NArith List Ascii String Lia.
From Stdlib Require Import DecimalString.
Import ListNotations.

Local Open Scope string_scope.

(* ================================================================== *)
(** * Go's package [unicode/utf8] *)
(* ================================================================== *)

(** A Go string is a sequence of bytes; a file name may be any such
    sequence.  [strings.ToUpper] reads it as UTF-8, with the decoder and
    the encoder of this package.  Runes are numbers. *)

Module UTF8.

Definition RuneError : N := 0xFFFD.
Definition RuneSelf : N := 0x80.
Definition MaxRune : N := 0x10FFFF.

(** [s[i]], read only below [len(s)]. *)
Definition byteAt (i : nat) (s : string) : N :=
  match String.get i s with
  | Some c => N_of_ascii c
  | None => 0%N
  end.

(** The table [first]: what a first byte announces.  [AS] is an ASCII
    byte, [XX] a byte that starts no sequence, [Seq size lo hi] the
    first byte of a sequence of [size] bytes whose second byte lies in
    [lo..hi]. *)
Inductive Lead : Type :=
| AS
| XX
| Seq (size : nat) (lo hi : N).

Definition first (b : N) : Lead :=
  (if b <? 0x80 then AS
   else if b <? 0xC2 then XX
   else if b <? 0xE0 then Seq 2 0x80 0xBF
   else if b =? 0xE0 then Seq 3 0xA0 0xBF
   else if b <? 0xED then Seq 3 0x80 0xBF
   else if b =? 0xED then Seq 3 0x80 0x9F
   else if b <? 0xF0 then Seq 3 0x80 0xBF
   else if b =? 0xF0 then Seq 4 0x90 0xBF
   else if b <? 0xF4 then Seq 4 0x80 0xBF
   else if b =? 0xF4 then Seq 4 0x80 0x8F
   else XX)%N.

(** [utf8.DecodeRuneInString]: the first rune of [s] and its width in
    bytes; a byte that starts no well-formed sequence is [RuneError] of
    width 1.  The [range] loop over a string decodes the same way. *)
Definition DecodeRuneInString (s : string) : N * nat :=
  let n := String.length s in
  if (n <? 1)%nat then (RuneError, 0%nat) else
  let s0 := byteAt 0 s in
  match first s0 with
  | AS => (s0, 1%nat)
  | XX => (RuneError, 1%nat)
  | Seq sz lo hi =>
      if (n <? sz)%nat then (RuneError, 1%nat) else
      let s1 := byteAt 1 s in
      if ((s1 <? lo) || (hi <? s1))%N then (RuneError, 1%nat) else
      if (sz <=? 2)%nat then
        (N.lor (N.shiftl (N.land s0 0x1F) 6) (N.land s1 0x3F), 2%nat)
      else
      let s2 := byteAt 2 s in
      if ((s2 <? 0x80) || (0xBF <? s2))%N then (RuneError, 1%nat) else
      if (sz <=? 3)%nat then
        (N.lor (N.lor (N.shiftl (N.land s0 0x0F) 12)
                      (N.shiftl (N.land s1 0x3F) 6))
               (N.land s2 0x3F), 3%nat)
      else
      let s3 := byteAt 3 s in
      if ((s3 <? 0x80) || (0xBF <? s3))%N then (RuneError, 1%nat) else
        (N.lor (N.lor (N.lor (N.shiftl (N.land s0 0x07) 18)
                             (N.shiftl (N.land s1 0x3F) 12))
                      (N.shiftl (N.land s2 0x3F) 6))
               (N.land s3 0x3F), 4%nat)
  end.

(** The conversion [byte(x)] keeps the low eight bits. *)
Definition byte (x : N) : ascii := ascii_of_N (x mod 256).

Definition bytes (l : list N) : string :=
  fold_right (fun x s => String (byte x) s) "" l.

(** [utf8.AppendRune], as [strings.Builder.WriteRune] uses it: a
    surrogate or a number above [MaxRune] is written as [RuneError]. *)
Definition EncodeRune (r : N) : string :=
  (if r <=? 0x7F then bytes [r]
   else if r <=? 0x7FF then
     bytes [N.lor 0xC0 (N.shiftr r 6); N.lor 0x80 (N.land r 0x3F)]
   else if (MaxRune <? r) || ((0xD800 <=? r) && (r <=? 0xDFFF)) then
     bytes [0xEF; 0xBF; 0xBD]
   else if r <=? 0xFFFF then
     bytes [N.lor 0xE0 (N.shiftr r 12);
            N.lor 0x80 (N.land (N.shiftr r 6) 0x3F);
            N.lor 0x80 (N.land r 0x3F)]
   else
     bytes [N.lor 0xF0 (N.shiftr r 18);
            N.lor 0x80 (N.land (N.shiftr r 12) 0x3F);
            N.lor 0x80 (N.land (N.shiftr r 6) 0x3F);
            N.lor 0x80 (N.land r 0x3F)])%N.

End UTF8.

(* ================================================================== *)
(** * Strings as Go uses them *)
(* ================================================================== *)

Module GoString.
Import UTF8.

(** [all p s]: every byte of [s] satisfies [p]. *)
Fixpoint all (p : ascii -> bool) (s : string) : bool :=
  match s with
  | EmptyString => true
  | String c s' => p c && all p s'
  end.

Fixpoint map (f : ascii -> ascii) (s : string) : string :=
  match s with
  | EmptyString => EmptyString
  | String c s' => String (f c) (map f s')
  end.

Definition between (lo hi c : ascii) : bool :=
  (N_of_ascii lo <=? N_of_ascii c)%N && (N_of_ascii c <=? N_of_ascii hi)%N.

(** [s[:n]] and [s[n:]]. *)
Fixpoint take (n : nat) (s : string) : string :=
  match n, s with
  | S n', String c s' => String c (take n' s')
  | _, _ => ""
  end.

Fixpoint drop (n : nat) (s : string) : string :=
  match n, s with
  | S n', String _ s' => drop n' s'
  | _, _ => s
  end.

(** [strings.Map(mapping, s)], for a mapping that drops no rune.  The
    loop goes over the runes of [s].  Up to the first rune that the
    mapping changes, or the first byte that is not UTF-8, the bytes of
    [s] are kept as they are; from there on ([changed]) every rune is
    written anew, a malformed byte as [RuneError].  Each turn takes at
    least one byte, so [len(s)] turns are enough. *)
Fixpoint mapLoop (fuel : nat) (mapping : N -> N) (changed : bool)
    (s : string) : string :=
  match fuel with
  | O => ""
  | S fuel' =>
      if (String.length s =? 0)%nat then "" else
      let (c, width) := DecodeRuneInString s in
      let r := mapping c in
      if negb changed && (r =? c)%N
         && (negb (c =? RuneError)%N || negb (width =? 1)%nat)
      then take width s ++ mapLoop fuel' mapping false (drop width s)
      else EncodeRune r ++ mapLoop fuel' mapping true (drop width s)
  end.

Definition Map (mapping : N -> N) (s : string) : string :=
  mapLoop (String.length s) mapping false s.

(** [c -= 'a' - 'A'] on a lower-case ASCII letter. *)
Definition upperByte (c : ascii) : ascii :=
  if between "a" "z" c then ascii_of_N (N_of_ascii c - 32) else c.

(** [unicode.ToUpper]: ASCII is mapped by arithmetic, any other rune
    through the table of case ranges of Go's package [unicode]. *)
Definition unicode_ToUpper (caseRanges : N -> N) (r : N) : N :=
  (if r <=? 0x7F then
     if (0x61 <=? r) && (r <=? 0x7A) then r - 32 else r
   else caseRanges r)%N.

(** The table of case ranges is data of Go's standard library.  Two of
    its entries send a letter outside ASCII to an ASCII letter: the
    long s (U+017F) to [S] and the dotless i (U+0131) to [I]; every
    other rune above 0x7F has its upper case above 0x7F.  These two
    entries are what a pattern of ASCII characters can see of the
    table: the other runes are kept here as they are, and the
    classifiers decide alike under every table that has the two
    entries ([classification_ignores_other_cases] below). *)
Definition caseRanges (r : N) : N :=
  (if r =? 0x17F then 0x53 else if r =? 0x131 then 0x49 else r)%N.

Definition isASCII (s : string) : bool :=
  all (fun c => (N_of_ascii c <? RuneSelf)%N) s.

Definition hasLower (s : string) : bool :=
  negb (all (fun c => negb (between "a" "z" c)) s).

(** [strings.ToUpper]: byte by byte on a string of ASCII bytes (which
    is returned as it is when it has no lower-case letter), and
    [Map(unicode.ToUpper, s)] on any other. *)
Definition ToUpperWith (table : N -> N) (s : string) : string :=
  if isASCII s then
    if hasLower s then map upperByte s else s
  else Map (unicode_ToUpper table) s.

Definition ToUpper (s : string) : string := ToUpperWith caseRanges s.

(** [strings.HasSuffix(s, suffix)]:
    [len(s) >= len(suffix) && s[len(s)-len(suffix):] == suffix]. *)
Definition HasSuffix (s suffix : string) : bool :=
  (String.length suffix <=? String.length s)%nat &&
  String.eqb
    (substring (String.length s - String.length suffix)
               (String.length suffix) s)
    suffix.

End GoString.

(* ================================================================== *)
(** * The fragment of Go's regexp syntax used by the two patterns *)
(* ================================================================== *)

Module Regexp.

(** Abstract syntax.  [NoMatch] only arises from derivatives. *)
Inductive regex : Type :=
| NoMatch : regex
| EmptyMatch : regex
| Literal : ascii -> regex
| CharClass : list (ascii * ascii) -> regex   (* [lo-hi ...] *)
| Concat : regex -> regex -> regex
| Alternate : regex -> regex -> regex
| Star : regex -> regex.

(** [r{n}] *)
Fixpoint Repeat (n : nat) (r : regex) : regex :=
  match n with
  | O => EmptyMatch
  | S n' => Concat r (Repeat n' r)
  end.

(** [r+] *)
Definition Plus (r : regex) : regex := Concat r (Star r).

(** [\d] is the ASCII class [0-9] in Go. *)
Definition digit : regex := CharClass [("0", "9")]%char.

Fixpoint Literals (s : string) : regex :=
  match s with
  | EmptyString => EmptyMatch
  | String c s' => Concat (Literal c) (Literals s')
  end.

Definition inClass (rs : list (ascii * ascii)) (c : ascii) : bool :=
  existsb (fun r => GoString.between (fst r) (snd r) c) rs.

Fixpoint nullable (r : regex) : bool :=
  match r with
  | NoMatch => false
  | EmptyMatch => true
  | Literal _ => false
  | CharClass _ => false
  | Concat a b => nullable a && nullable b
  | Alternate a b => nullable a || nullable b
  | Star _ => true
  end.

Fixpoint deriv (c : ascii) (r : regex) : regex :=
  match r with
  | NoMatch => NoMatch
  | EmptyMatch => NoMatch
  | Literal d => if Ascii.eqb c d then EmptyMatch else NoMatch
  | CharClass rs => if inClass rs c then EmptyMatch else NoMatch
  | Concat a b =>
      if nullable a
      then Alternate (Concat (deriv c a) b) (deriv c b)
      else Concat (deriv c a) b
  | Alternate a b => Alternate (deriv c a) (deriv c b)
  | Star a => Concat (deriv c a) (Star a)
  end.

(** Whole-string match of [r]. *)
Fixpoint fullMatch (r : regex) (s : string) : bool :=
  match s with
  | EmptyString => nullable r
  | String c s' => fullMatch (deriv c r) s'
  end.

(** A compiled pattern [^r$].  Without flags, Go's [^] and [$] are
    beginning and end of text, so [MatchString] (which searches for a
    match anywhere) succeeds exactly when the whole text matches [r]. *)
Record Regexp : Type := Anchored { body : regex }.

Definition MatchString (re : Regexp) (s : string) : bool :=
  fullMatch (body re) s.

(** ** The language of a regex, as a specification of [fullMatch] *)

Inductive star (L : string -> Prop) : string -> Prop :=
| star_nil : star L ""
| star_app : forall s1 s2, L s1 -> star L s2 -> star L (s1 ++ s2).

Fixpoint lang (r : regex) (s : string) : Prop :=
  match r with
  | NoMatch => False
  | EmptyMatch => s = ""
  | Literal c => s = String c ""
  | CharClass rs => exists c, s = String c "" /\ inClass rs c = true
  | Concat a b => exists s1 s2, s = s1 ++ s2 /\ lang a s1 /\ lang b s2
  | Alternate a b => lang a s \/ lang b s
  | Star a => star (lang a) s
  end.

End Regexp.

(* ================================================================== *)
(** * The filename classifiers *)
(* ================================================================== *)

Import GoString Regexp.

(** [`^\d+_[A-F0-9]{66}_\d{2}\.MASSDB$`] *)
Definition regStrV1 : Regexp :=
  Anchored
    (Concat (Plus digit)
    (Concat (Literal "_")
    (Concat (Repeat 66 (CharClass [("A", "F"); ("0", "9")]%char))
    (Concat (Literal "_")
    (Concat (Repeat 2 digit)
            (Literals ".MASSDB")))))).

Definition suffixV1 : string := ".MASSDB".

(** [`^PLOT-K\d{2}-\d{4}(-\d{2}){4}-[A-F0-9]{64}\.PLOT$`] *)
Definition regStrV2 : Regexp :=
  Anchored
    (Concat (Literals "PLOT-K")
    (Concat (Repeat 2 digit)
    (Concat (Literal "-")
    (Concat (Repeat 4 digit)
    (Concat (Repeat 4 (Concat (Literal "-") (Repeat 2 digit)))
    (Concat (Literal "-")
    (Concat (Repeat 64 (CharClass [("A", "F"); ("0", "9")]%char))
            (Literals ".PLOT")))))))).

Definition suffixV2 : string := ".PLOT".

(** The test of lines 212 and 301: when it holds the loop [continue]s
    without touching the file. *)
Definition skipName (suffixB : string) (regExpB : Regexp)
    (fileName : string) : bool :=
  negb (HasSuffix (ToUpper fileName) suffixB)
  || negb (MatchString regExpB (ToUpper fileName)).

(** The classifier: the file goes on to the header parser. *)
Definition nameMatches (suffixB : string) (regExpB : Regexp)
    (fileName : string) : bool :=
  negb (skipName suffixB regExpB fileName).

Definition nameMatchesV1 : string -> bool := nameMatches suffixV1 regStrV1.
Definition nameMatchesV2 : string -> bool := nameMatches suffixV2 regStrV2.


(* ================================================================== *)
(** * Go values and the packages [main.go] imports *)
(* ================================================================== *)

(** Go's [error] values, as far as the program tells them apart:
    [os.IsNotExist] singles out one kind. *)
Inductive error : Type :=
| ErrNotExist : string -> error        (* "no such file or directory" *)
| errorString : string -> error.       (* errors.New and all others *)

(** A Go result pair [(v, err)], of which [v] is meaningful only when
    [err == nil]. *)
Inductive result (T : Type) : Type :=
| ok : T -> result T
| fail : error -> result T.
Arguments ok {T} _.
Arguments fail {T} _.

Definition errOf {T : Type} (r : result T) : option error :=
  match r with ok _ => None | fail e => Some e end.

Definition os_IsNotExist (err : option error) : bool :=
  match err with
  | Some (ErrNotExist _) => true
  | _ => false
  end.

Definition two64 : Z := 2 ^ 64.
Definition uint64 (z : Z) : Z := z mod two64.
Definition uint8 (z : Z) : Z := z mod 256.
Definition len {A : Type} (l : list A) : Z := Z.of_nat (List.length l).

(** The largest [int]: no Go slice is longer. *)
Definition maxInt : Z := 2 ^ 63 - 1.

Record FileInfo : Type := { IsDir : bool }.

(** [massutil.MassDBInfoV1] and [massutil.MassDBInfoV2], the fields read
    by the program. *)
Record MassDBInfoV1 : Type :=
  { PublicKey : string; BitLength : Z; Plotted : bool }.

Record MassDBInfoV2 : Type :=
  { PlotID : string; K : Z; PoolPublicKey : string; FarmerPublicKey : string }.

(** Modelled from the spec: the constants [poc.ProofTypeDefault] and
    [poc.ProofTypeChia] of package [poc], which the spec gives as the
    two-valued enumeration [formatType: enum{Default, ChiaCompatible}]. *)
Inductive ProofType : Type := ProofTypeDefault | ProofTypeChia.

(** [massutil.BindingPlot]; [Type_] is the Go field [Type]. *)
Record BindingPlot : Type :=
  { Target : string; Type_ : ProofType; Size : Z }.

(** [massutil.BindingList] *)
Record BindingList : Type :=
  { Plots : list BindingPlot;
    TotalCount : Z;
    DefaultCount : Z;
    ChiaCount : Z }.

(** [chiawallet.Keystore]: the two lookups the program uses. *)
Record Keystore : Type :=
  { GetPoolPrivateKey : string -> result string;
    GetFarmerPrivateKey : string -> result string }.

Inductive Level : Type := INFO | WARN | ERROR.

(** What a run does to the outside, in order. *)
Inductive Event : Type :=
| EvShowHelp : Event
| EvStat : string -> Event
| EvReadDir : string -> Event
| EvReadHeader : string -> Event          (* NewMassDBInfoV?FromFile *)
| EvLoadKeystore : string -> Event
| EvLog : Level -> string -> Event        (* logging.CPrint *)
| EvPrint : string -> Event               (* text on standard output *)
| EvWriteFile : string -> string -> Event
| EvFatal : error -> Event.               (* log.Fatal *)

(** Everything outside [main.go].  The file system does not change
    while the program runs; [interruptCh n] tells whether the [n]-th
    non-blocking receive on the interrupt channel (counted from 0 over
    the whole run) finds a signal. *)
Record Env : Type :=
  { ShowAppHelp : option error;
    filepath_Abs : string -> result string;
    filepath_Join : string -> string -> string;
    os_Stat : string -> result FileInfo;
    ioutil_ReadDir : string -> result (list string);  (* entry names *)
    NewMassDBInfoV1FromFile : string -> result MassDBInfoV1;
    GetMassDBBindingTarget : string -> Z -> result string;
    NewMassDBInfoV2FromFile : string -> result MassDBInfoV2;
    GetChiaPlotBindingTarget : string -> Z -> result string;
    NewKeystoreFromFile : string -> result Keystore;
    interruptCh : nat -> bool;
    json_MarshalIndent : BindingList -> result string;
    ioutil_WriteFile : string -> string -> option error }.

(* ================================================================== *)
(** * The run monad *)
(* ================================================================== *)

Record RunState : Type :=
  { polls : nat;                 (* receives attempted so far *)
    events : list Event }.       (* oldest first *)

Definition initial : RunState := {| polls := 0; events := [] |}.

Definition M (A : Type) : Type := RunState -> A * RunState.

Definition ret {A : Type} (a : A) : M A := fun st => (a, st).

Definition bind {A B : Type} (m : M A) (k : A -> M B) : M B :=
  fun st => let (a, st') := m st in k a st'.

Declare Scope run_scope.
Delimit Scope run_scope with run.
Notation "x <- m ;; k" := (bind m (fun x => k))
  (at level 61, m at next level, right associativity) : run_scope.
Notation "m ;;; k" := (bind m (fun _ => k))
  (at level 61, right associativity) : run_scope.
Local Open Scope run_scope.

(** The run state after one more event, and after one more receive
    attempt. *)
Definition logged (e : Event) (st : RunState) : RunState :=
  {| polls := polls st; events := events st ++ [e] |}.

Definition polled (st : RunState) : RunState :=
  {| polls := S (polls st); events := events st |}.

Definition emit (e : Event) : M unit := fun st => (tt, logged e st).

Definition CPrint (l : Level) (msg : string) : M unit := emit (EvLog l msg).

(** What [fmt.Println] adds to its argument, and what [%d] becomes in
    [fmt.Printf]: the decimal digits of an unsigned number. *)
Definition newline : string := String "010" "".

Definition formatUint (n : Z) : string :=
  NilZero.string_of_uint (N.to_uint (Z.to_N n)).

(** [select { case <-interruptCh: ... default: }] *)
Definition poll (env : Env) : M bool :=
  fun st => (interruptCh env (polls st), polled st).

Definition Stat (env : Env) (path : string) : M (result FileInfo) :=
  emit (EvStat path) ;;; ret (os_Stat env path).

Definition ReadDir (env : Env) (dir : string) : M (result (list string)) :=
  emit (EvReadDir dir) ;;; ret (ioutil_ReadDir env dir).

Definition ReadHeaderV1 (env : Env) (path : string)
    : M (result MassDBInfoV1) :=
  emit (EvReadHeader path) ;;; ret (NewMassDBInfoV1FromFile env path).

Definition ReadHeaderV2 (env : Env) (path : string)
    : M (result MassDBInfoV2) :=
  emit (EvReadHeader path) ;;; ret (NewMassDBInfoV2FromFile env path).

Definition LoadKeystore (env : Env) (file : string) : M (result Keystore) :=
  emit (EvLoadKeystore file) ;;; ret (NewKeystoreFromFile env file).

Definition WriteFile (env : Env) (path data : string) : M (option error) :=
  emit (EvWriteFile path data) ;;; ret (ioutil_WriteFile env path data).

(* ================================================================== *)
(** * [getOfflineBindingListV1]: native MassDB files *)
(* ================================================================== *)

(** The state of the loop over one directory after its last file:
    either the loop fell through with the plots gathered so far, or the
    function has returned. *)
Inductive Outcome : Type :=
| Next : list BindingPlot -> Outcome
| Return : list BindingPlot * option error -> Outcome.

(** The log lines carry [LogFormat] fields, and the counters
    [dirSearched] and [totalSearched] exist only to fill them; both are
    left out.  [regexp.Compile] of a constant, well-formed pattern does
    not fail. *)

(** Lines 202-236: the loop over the entries of [dbDir]. *)
Fixpoint filesV1 (env : Env) (all : bool) (dbDir : string)
    (dirFileInfos : list string) (plots : list BindingPlot) : M Outcome :=
  match dirFileInfos with
  | [] => ret (Next plots)
  | fileName :: rest =>
      interrupted <- poll env ;;
      if interrupted then
        CPrint WARN "cancel searching plot files" ;;;
        ret (Return ([], None))
      else if skipName suffixV1 regStrV1 fileName then
        filesV1 env all dbDir rest plots
      else
        r <- ReadHeaderV1 env (filepath_Join env dbDir fileName) ;;
        match r with
        | fail err =>
            CPrint WARN "fail to read native massdb info" ;;;
            filesV1 env all dbDir rest plots
        | ok info =>
            if negb (Plotted info) && negb all then
              filesV1 env all dbDir rest plots
            else
              match GetMassDBBindingTarget env (PublicKey info)
                                           (BitLength info) with
              | fail err => ret (Return ([], Some err))
              | ok target =>
                  filesV1 env all dbDir rest
                    (plots ++ [ {| Target := target;
                                   Type_ := ProofTypeDefault;
                                   Size := uint8 (BitLength info) |} ])
              end
        end
  end.

(** Lines 193-243: the loop over the directories. *)
Fixpoint dirsV1 (env : Env) (all : bool) (dirs : list string)
    (plots : list BindingPlot) : M Outcome :=
  match dirs with
  | [] => ret (Next plots)
  | dbDir :: rest =>
      r <- ReadDir env dbDir ;;
      match r with
      | fail err => ret (Return ([], Some err))
      | ok dirFileInfos =>
          CPrint INFO "searching for native MassDB files" ;;;
          o <- filesV1 env all dbDir dirFileInfos plots ;;
          match o with
          | Return res => ret (Return res)
          | Next plots' =>
              CPrint INFO "loaded native MassDB files from directory" ;;;
              dirsV1 env all rest plots'
          end
      end
  end.

(** Lines 245-250: after the loops. *)
Definition finishV1 (o : Outcome) : M (list BindingPlot * option error) :=
  match o with
  | Return res => ret res
  | Next plots =>
      CPrint INFO "loaded native MassDB files from all directories" ;;;
      ret (plots, None)
  end.

(** Lines 193-250 from a directory boundary, with [plots] gathered. *)
Definition scanV1 (env : Env) (all : bool) (dirs : list string)
    (plots : list BindingPlot) : M (list BindingPlot * option error) :=
  o <- dirsV1 env all dirs plots ;;
  finishV1 o.

Definition getOfflineBindingListV1 (env : Env) (dirs : list string)
    (all : bool) : M (list BindingPlot * option error) :=
  scanV1 env all dirs [].

(** The function taken up again at a file boundary: the entries
    [dirFileInfos] of [dbDir] are still to do, then the directories
    [rest], and [plots] have been gathered. *)
Definition resumeV1 (env : Env) (all : bool) (dbDir : string)
    (dirFileInfos : list string) (rest : list string)
    (plots : list BindingPlot) : M (list BindingPlot * option error) :=
  o <- filesV1 env all dbDir dirFileInfos plots ;;
  match o with
  | Return res => ret res
  | Next plots' =>
      CPrint INFO "loaded native MassDB files from directory" ;;;
      scanV1 env all rest plots'
  end.

(* ================================================================== *)
(** * [getOfflineBindingListV2]: Chia plot files *)
(* ================================================================== *)

(** Lines 267-278; [None] is the nil keystore. *)
Definition ownablePlot (keystore : option Keystore) (info : MassDBInfoV2)
    : bool :=
  match keystore with
  | None => true
  | Some ks =>
      match GetPoolPrivateKey ks (PoolPublicKey info) with
      | fail _ => false
      | ok _ =>
          match GetFarmerPrivateKey ks (FarmerPublicKey info) with
          | fail _ => false
          | ok _ => true
          end
      end
  end.

(** Lines 292-325. *)
Fixpoint filesV2 (env : Env) (keystore : option Keystore) (dbDir : string)
    (dirFileInfos : list string) (plots : list BindingPlot) : M Outcome :=
  match dirFileInfos with
  | [] => ret (Next plots)
  | fileName :: rest =>
      interrupted <- poll env ;;
      if interrupted then
        CPrint WARN "cancel searching plot files" ;;;
        ret (Return ([], None))
      else if skipName suffixV2 regStrV2 fileName then
        filesV2 env keystore dbDir rest plots
      else
        r <- ReadHeaderV2 env (filepath_Join env dbDir fileName) ;;
        match r with
        | fail err =>
            CPrint WARN "fail to read chia plot info" ;;;
            filesV2 env keystore dbDir rest plots
        | ok info =>
            if negb (ownablePlot keystore info) then
              filesV2 env keystore dbDir rest plots
            else
              match GetChiaPlotBindingTarget env (PlotID info) (K info) with
              | fail err => ret (Return ([], Some err))
              | ok target =>
                  filesV2 env keystore dbDir rest
                    (plots ++ [ {| Target := target;
                                   Type_ := ProofTypeChia;
                                   Size := uint8 (K info) |} ])
              end
        end
  end.

(** Lines 283-332: the loop over the directories. *)
Fixpoint dirsV2 (env : Env) (keystore : option Keystore)
    (dirs : list string) (plots : list BindingPlot) : M Outcome :=
  match dirs with
  | [] => ret (Next plots)
  | dbDir :: rest =>
      r <- ReadDir env dbDir ;;
      match r with
      | fail err => ret (Return ([], Some err))
      | ok dirFileInfos =>
          CPrint INFO "searching for chia plot files" ;;;
          o <- filesV2 env keystore dbDir dirFileInfos plots ;;
          match o with
          | Return res => ret (Return res)
          | Next plots' =>
              CPrint INFO "loaded chia plot files from directory" ;;;
              dirsV2 env keystore rest plots'
          end
      end
  end.

(** Lines 334-339.  The [err] returned on the last line is the outer
    variable, which is nil once the pattern is compiled and the keystore
    loaded. *)
Definition finishV2 (o : Outcome) : M (list BindingPlot * option error) :=
  match o with
  | Return res => ret res
  | Next plots =>
      CPrint INFO "loaded chia plot files from all directories" ;;;
      ret (plots, None)
  end.

(** Lines 260-265: [None] when no keystore file is named. *)
Definition openKeystore (env : Env) (keystoreFile : string)
    : M (result (option Keystore)) :=
  if String.eqb keystoreFile "" then ret (ok None)
  else
    r <- LoadKeystore env keystoreFile ;;
    match r with
    | fail err => ret (fail err)
    | ok keystore => ret (ok (Some keystore))
    end.

(** Lines 283-339 from a directory boundary, with [plots] gathered. *)
Definition scanV2 (env : Env) (keystore : option Keystore)
    (dirs : list string) (plots : list BindingPlot)
    : M (list BindingPlot * option error) :=
  o <- dirsV2 env keystore dirs plots ;;
  finishV2 o.

(** The parameter [all] is not used by the function. *)
Definition getOfflineBindingListV2 (env : Env) (dirs : list string)
    (all : bool) (keystoreFile : string)
    : M (list BindingPlot * option error) :=
  k <- openKeystore env keystoreFile ;;
  match k with
  | fail err => ret ([], Some err)
  | ok keystore => scanV2 env keystore dirs []
  end.

Definition resumeV2 (env : Env) (keystore : option Keystore)
    (dbDir : string) (dirFileInfos : list string) (rest : list string)
    (plots : list BindingPlot) : M (list BindingPlot * option error) :=
  o <- filesV2 env keystore dbDir dirFileInfos plots ;;
  match o with
  | Return res => ret res
  | Next plots' =>
      CPrint INFO "loaded chia plot files from directory" ;;;
      scanV2 env keystore rest plots'
  end.

(* ================================================================== *)
(** * [getOfflineBindingList], [RemoveDuplicate], the action and [main] *)
(* ================================================================== *)

(** The package-level variables [getBindingListArgFilename] and
    [getBindingListFlag...], set once by the action. *)
Record Globals : Type :=
  { getBindingListArgFilename : string;
    getBindingListFlagOverwrite : bool;
    getBindingListFlagListAll : bool;
    getBindingListFlagKeystore : string;
    getBindingListFlagPlotType : string;
    getBindingListFlagDirectories : list string }.

(** The parsed command line, as [cli.Context] hands it to the action. *)
Record Context : Type :=
  { Args : list string;
    Bool_overwrite : bool;
    Bool_all : bool;
    String_keystore : string;
    String_type : string;
    StringSlice_dirs : list string }.

(** Lines 141-148. *)
Fixpoint absDirs (env : Env) (dirs : list string)
    (absDirectories : list string) : result (list string) :=
  match dirs with
  | [] => ok absDirectories
  | dir :: rest =>
      match filepath_Abs env dir with
      | fail err => fail err
      | ok absDir => absDirs env rest (absDirectories ++ [absDir])
      end
  end.

(** Lines 169-180, with the counts of the taken [switch] case. *)
Definition finishList (plots : list BindingPlot) (err : option error)
    (defaultCount chiaCount : Z) : M (option BindingList * option error) :=
  match err with
  | Some e =>
      CPrint ERROR "fail to get offline binding list" ;;;
      ret (None, Some e)
  | None =>
      ret (Some {| Plots := plots;
                   TotalCount := uint64 (defaultCount + chiaCount);
                   DefaultCount := defaultCount;
                   ChiaCount := chiaCount |},
           None)
  end.

Definition getOfflineBindingList (env : Env) (g : Globals)
    : M (option BindingList * option error) :=
  match absDirs env (getBindingListFlagDirectories g) [] with
  | fail err => ret (None, Some err)
  | ok absDirectories =>
      CPrint INFO "searching for plot files from disk, this may take a while (enter CTRL+C to cancel running)" ;;;
      if String.eqb (getBindingListFlagPlotType g) "m1" then
        res <- getOfflineBindingListV1 env absDirectories
                 (getBindingListFlagListAll g) ;;
        finishList (fst res) (snd res) (uint64 (len (fst res))) 0
      else if String.eqb (getBindingListFlagPlotType g) "m2" then
        res <- getOfflineBindingListV2 env absDirectories
                 (getBindingListFlagListAll g)
                 (getBindingListFlagKeystore g) ;;
        finishList (fst res) (snd res) 0 (uint64 (len (fst res)))
      else
        ret (None,
             Some (errorString "invalid --type flag, should be m1 (for native MassDB) or m2 (for Chia Plot)"))
  end.

(** Modelled from the spec: the method [RemoveDuplicate] of
    [massutil.BindingList], which is not part of this repository's source.
    The spec (4.5): deduplication removes later entries whose target
    bytes exactly equal an earlier entry's, first occurrence wins;
    [totalCount] is recomputed as the post-dedup length;
    [defaultCount] and [chiaCount] are the pre-dedup per-format tallies
    passed through. *)
Fixpoint dedup (seen : list string) (plots : list BindingPlot)
    : list BindingPlot :=
  match plots with
  | [] => []
  | p :: rest =>
      if existsb (String.eqb (Target p)) seen
      then dedup seen rest
      else p :: dedup (Target p :: seen) rest
  end.

Definition RemoveDuplicate (list : BindingList) : BindingList :=
  {| Plots := dedup [] (Plots list);
     TotalCount := uint64 (len (dedup [] (Plots list)));
     DefaultCount := DefaultCount list;
     ChiaCount := ChiaCount list |}.

(** Lines 99-104: the binding list of the run, deduplicated. *)
Definition collect (env : Env) (g : Globals)
    : M (option BindingList * option error) :=
  res <- getOfflineBindingList env g ;;
  match res with
  | (Some list, None) => ret (Some (RemoveDuplicate list), None)
  | (_, Some e) =>
      CPrint ERROR "fail to get binding list" ;;;
      ret (None, Some e)
  | (None, None) => ret (None, None)   (* does not occur *)
  end.

(** Lines 106-130. *)
Definition export (env : Env) (g : Globals) (list : BindingList)
    : M (option error) :=
  if (len (Plots list) =? 0)%Z then
    emit (EvPrint ("saved nothing in the binding list" ++ newline)) ;;;
    ret None
  else
    match json_MarshalIndent env list with
    | fail err =>
        CPrint ERROR "fail to marshal json" ;;;
        ret (Some err)
    | ok data =>
        werr <- WriteFile env (getBindingListArgFilename g) data ;;
        match werr with
        | Some err =>
            CPrint ERROR "fail to write into binding list file" ;;;
            ret (Some err)
        | None =>
            emit (EvPrint ("collected " ++ formatUint (TotalCount list)
                           ++ " plot files." ++ newline)) ;;;
            ret None
        end
    end.

(** Lines 69-97: arguments, flags and the two checks of the export
    path.  [inr err] is [return err]; [inl g] goes on to the scan with
    the package-level variables [g]. *)
Definition prepare (env : Env) (context : Context)
    : M (Globals + option error) :=
  match Args context with
  | [] => emit EvShowHelp ;;; ret (inr (ShowAppHelp env))
  | first :: _ =>
      match filepath_Abs env first with
      | fail err =>
          CPrint ERROR "wrong filename format" ;;;
          ret (inr (Some err))
      | ok abs =>
          r <- Stat env abs ;;
          if match r with ok fi => IsDir fi | fail _ => false end then
            CPrint ERROR "filename is a directory" ;;;
            ret (inr (errOf r))
          else
            let g := {| getBindingListArgFilename := abs;
                        getBindingListFlagOverwrite := Bool_overwrite context;
                        getBindingListFlagListAll := Bool_all context;
                        getBindingListFlagKeystore := String_keystore context;
                        getBindingListFlagPlotType := String_type context;
                        getBindingListFlagDirectories :=
                          StringSlice_dirs context |} in
            r' <- Stat env (getBindingListArgFilename g) ;;
            if negb (os_IsNotExist (errOf r'))
               && negb (getBindingListFlagOverwrite g) then
              CPrint ERROR "cannot overwrite existed file, try again with --overwrite" ;;;
              ret (inr (errOf r'))
            else
              ret (inl g)
      end
  end.

(** Lines 68-131: the [Action] of the [cli.App]. *)
Definition Action (env : Env) (context : Context) : M (option error) :=
  p <- prepare env context ;;
  match p with
  | inr err => ret err
  | inl g =>
      res <- collect env g ;;
      match res with
      | (_, Some err) => ret (Some err)
      | (Some list, None) => export env g list
      | (None, None) => ret None   (* does not occur *)
      end
  end.

(** Lines 134-137.  [app.Run] hands the parsed command line to the
    action and returns its error; [log.Fatal] prints and exits with
    status 1; falling off the end of [main] exits with status 0. *)
Definition main (env : Env) (context : Context) : M Z :=
  err <- Action env context ;;
  match err with
  | Some e => emit (EvFatal e) ;;; ret 1%Z
  | None => ret 0%Z
  end.

(** The run from the initial state: exit status and what was done. *)
Definition exitStatus (env : Env) (context : Context) : Z :=
  fst (main env context initial).

Definition eventsOf (env : Env) (context : Context) : list Event :=
  events (snd (main env context initial)).

(** Scanning work: listing a directory, reading a plot header, loading
    the keystore. *)
Definition isScan (e : Event) : bool :=
  match e with
  | EvReadDir _ | EvReadHeader _ | EvLoadKeystore _ => true
  | _ => false
  end.

Definition isListingOrHeader (e : Event) : bool :=
  match e with
  | EvReadDir _ | EvReadHeader _ => true
  | _ => false
  end.

(* ================================================================== *)
(** * The file-name syntax, in the words of the specification *)
(* ================================================================== *)

Definition isDigit (c : ascii) : bool := between "0" "9" c.

Definition isUpperHex (c : ascii) : bool :=
  between "A" "F" c || between "0" "9" c.

Definition digits (n : nat) (s : string) : Prop :=
  String.length s = n /\ all isDigit s = true.

Definition upperHex (n : nat) (s : string) : Prop :=
  String.length s = n /\ all isUpperHex s = true.

(** Native format: ordinal, 66-hex public key and two-digit bit length,
    then the suffix. *)
Definition ShapeV1 (u : string) : Prop :=
  exists ordinal pubKey bitLength,
    u = ordinal ++ "_" ++ pubKey ++ "_" ++ bitLength ++ ".MASSDB"
    /\ ordinal <> "" /\ all isDigit ordinal = true
    /\ upperHex 66 pubKey
    /\ digits 2 bitLength.

(** Compatible format: [PLOT-K], the size, a four-digit and four
    two-digit segments, the 64-hex plot id, then the suffix. *)
Definition ShapeV2 (u : string) : Prop :=
  exists k y mo d h mi plotID,
    u = "PLOT-K" ++ k ++ "-" ++ y ++ "-" ++ mo ++ "-" ++ d ++ "-" ++ h
        ++ "-" ++ mi ++ "-" ++ plotID ++ ".PLOT"
    /\ digits 2 k /\ digits 4 y
    /\ digits 2 mo /\ digits 2 d /\ digits 2 h /\ digits 2 mi
    /\ upperHex 64 plotID.

(** Letter case, as [strings.ToUpper] sees it.  [caseVariant s u]: the
    string [u] of ASCII bytes spells [s] in upper case.  Byte for byte
    an ASCII letter stands for its capital and any other ASCII byte for
    itself; the two bytes of a long s (U+017F, [0xC5 0xBF]) stand for
    [S], and those of a dotless i (U+0131, [0xC4 0xB1]) for [I].  A
    string with any other byte above 0x7F spells no string of ASCII
    bytes. *)
Inductive caseVariant : string -> string -> Prop :=
| cv_nil : caseVariant "" ""
| cv_byte (c : ascii) (s u : string) :
    (N_of_ascii c < 0x80)%N -> caseVariant s u ->
    caseVariant (String c s) (String (upperByte c) u)
| cv_long_s (s u : string) :
    caseVariant s u ->
    caseVariant (String "197" (String "191" s)) (String "S" u)
| cv_dotless_i (s u : string) :
    caseVariant s u ->
    caseVariant (String "196" (String "177" s)) (String "I" u).

(** What is known of Go's table of case ranges: its two entries into
    ASCII, and that it sends no other rune above 0x7F into ASCII. *)
Definition upperCaseTable (table : N -> N) : Prop :=
  table 0x17F%N = 0x53%N /\ table 0x131%N = 0x49%N
  /\ forall r, (0x7F < r)%N -> r <> 0x17F%N -> r <> 0x131%N ->
       (0x7F < table r)%N.


(* ================================================================== *)
(** * Notions used by the statements *)
(* ================================================================== *)

(** No signal ever arrives on the interrupt channel. *)
Definition neverInterrupted (env : Env) : Prop :=
  forall n, interruptCh env n = false.

(** The keystore holds the private key of a public key. *)
Definition holdsPoolKey (ks : Keystore) (pub : string) : Prop :=
  exists priv, GetPoolPrivateKey ks pub = ok priv.

Definition holdsFarmerKey (ks : Keystore) (pub : string) : Prop :=
  exists priv, GetFarmerPrivateKey ks pub = ok priv.

(** The value of [keystore] after lines 260-265. *)
Definition keystoreOf (env : Env) (keystoreFile : string)
    : result (option Keystore) :=
  if String.eqb keystoreFile "" then ok None
  else match NewKeystoreFromFile env keystoreFile with
       | fail err => fail err
       | ok keystore => ok (Some keystore)
       end.

(** The plots the two extractors append. *)
Definition plotV1 (target : string) (info : MassDBInfoV1) : BindingPlot :=
  {| Target := target; Type_ := ProofTypeDefault;
     Size := uint8 (BitLength info) |}.

Definition plotV2 (target : string) (info : MassDBInfoV2) : BindingPlot :=
  {| Target := target; Type_ := ProofTypeChia; Size := uint8 (K info) |}.

(** The run state after a header was read at this file boundary. *)
Definition afterHeader (path : string) (st : RunState) : RunState :=
  logged (EvReadHeader path) (polled st).

Definition cancelWarning : Event :=
  EvLog WARN "cancel searching plot files".

(** The run state once [dbDir] is listed and announced. *)
Definition enterDir (announce : string) (dbDir : string) (st : RunState)
    : RunState :=
  logged (EvLog INFO announce) (logged (EvReadDir dbDir) st).

Definition leaveDir (announce : string) (st : RunState) : RunState :=
  logged (EvLog INFO announce) st.

(** No two plots of different formats share a target. *)
Definition noCrossFormatDuplicates (plots : list BindingPlot) : Prop :=
  forall p q, In p plots -> In q plots ->
    Target p = Target q -> Type_ p = Type_ q.

(** The statement of the spec on the counts of a produced list. *)
Definition countsAgree (raw : BindingList) : Prop :=
  let list := RemoveDuplicate raw in
  TotalCount list = len (Plots list)
  /\ (noCrossFormatDuplicates (Plots raw) ->
      (DefaultCount list + ChiaCount list)%Z = TotalCount list).

(** The run of [getOfflineBindingListV1 env dirs all] from [st0] stands at
    a file boundary: the directories before [dbDir] are done, and so are
    the entries of [dbDir] before [files]; [plots] are gathered, the
    state is [st], and [files], then [rest], are still to do. *)
Definition boundaryV1 (env : Env) (all : bool) (dirs : list string)
    (st0 : RunState) (dbDir : string) (files rest : list string)
    (plots : list BindingPlot) (st : RunState) : Prop :=
  exists dirsBefore filesBefore plots1 st1,
    dirs = (dirsBefore ++ dbDir :: rest)%list
    /\ dirsV1 env all dirsBefore [] st0 = (Next plots1, st1)
    /\ ioutil_ReadDir env dbDir = ok (filesBefore ++ files)%list
    /\ filesV1 env all dbDir filesBefore plots1
         (enterDir "searching for native MassDB files" dbDir st1)
       = (Next plots, st).

(** The same for [getOfflineBindingListV2 env dirs all keystoreFile],
    whose keystore variable holds [keystore]. *)
Definition boundaryV2 (env : Env) (keystoreFile : string)
    (dirs : list string) (st0 : RunState) (keystore : option Keystore)
    (dbDir : string) (files rest : list string)
    (plots : list BindingPlot) (st : RunState) : Prop :=
  exists dirsBefore filesBefore plots1 stk st1,
    dirs = (dirsBefore ++ dbDir :: rest)%list
    /\ openKeystore env keystoreFile st0 = (ok keystore, stk)
    /\ dirsV2 env keystore dirsBefore [] stk = (Next plots1, st1)
    /\ ioutil_ReadDir env dbDir = ok (filesBefore ++ files)%list
    /\ filesV2 env keystore dbDir filesBefore plots1
         (enterDir "searching for chia plot files" dbDir st1)
       = (Next plots, st).

(** A directory holding one corrupt and one valid native file, in either
    order; the valid one is eligible and its target derivable. *)
Definition corruptAndValidV1 (env : Env) (all : bool) (dbDir : string)
    (corrupt valid : string) (info : MassDBInfoV1) (target : string)
    : Prop :=
  (ioutil_ReadDir env dbDir = ok [corrupt; valid]
   \/ ioutil_ReadDir env dbDir = ok [valid; corrupt])
  /\ nameMatchesV1 corrupt = true
  /\ nameMatchesV1 valid = true
  /\ (exists e,
        NewMassDBInfoV1FromFile env (filepath_Join env dbDir corrupt)
        = fail e)
  /\ NewMassDBInfoV1FromFile env (filepath_Join env dbDir valid) = ok info
  /\ Plotted info || all = true
  /\ GetMassDBBindingTarget env (PublicKey info) (BitLength info)
     = ok target.

Definition corruptAndValidV2 (env : Env) (keystore : option Keystore)
    (dbDir : string) (corrupt valid : string) (info : MassDBInfoV2)
    (target : string) : Prop :=
  (ioutil_ReadDir env dbDir = ok [corrupt; valid]
   \/ ioutil_ReadDir env dbDir = ok [valid; corrupt])
  /\ nameMatchesV2 corrupt = true
  /\ nameMatchesV2 valid = true
  /\ (exists e,
        NewMassDBInfoV2FromFile env (filepath_Join env dbDir corrupt)
        = fail e)
  /\ NewMassDBInfoV2FromFile env (filepath_Join env dbDir valid) = ok info
  /\ ownablePlot keystore info = true
  /\ GetChiaPlotBindingTarget env (PlotID info) (K info) = ok target.

Definition searchingNotice : Event :=
  EvLog INFO "searching for plot files from disk, this may take a while (enter CTRL+C to cancel running)".

(** The run of [main env context] from [stI] gets as far as calling
    [getOfflineBindingListV1 env dirs all] in state [st0]. *)
Definition runsV1 (env : Env) (context : Context) (stI : RunState)
    (all : bool) (dirs : list string) (st0 : RunState) : Prop :=
  exists g stP,
    prepare env context stI = (inl g, stP)
    /\ absDirs env (getBindingListFlagDirectories g) [] = ok dirs
    /\ getBindingListFlagPlotType g = "m1"
    /\ all = getBindingListFlagListAll g
    /\ st0 = logged searchingNotice stP.

(** The same for [getOfflineBindingListV2 env dirs all keystoreFile]. *)
Definition runsV2 (env : Env) (context : Context) (stI : RunState)
    (all : bool) (keystoreFile : string) (dirs : list string)
    (st0 : RunState) : Prop :=
  exists g stP,
    prepare env context stI = (inl g, stP)
    /\ absDirs env (getBindingListFlagDirectories g) [] = ok dirs
    /\ getBindingListFlagPlotType g = "m2"
    /\ all = getBindingListFlagListAll g
    /\ keystoreFile = getBindingListFlagKeystore g
    /\ st0 = logged searchingNotice stP.

(** The end of a run whose scan returned the error [e] in state [st]:
    two error lines, then [log.Fatal]. *)
Definition aborted (e : error) (st : RunState) : RunState :=
  logged (EvFatal e)
    (logged (EvLog ERROR "fail to get binding list")
       (logged (EvLog ERROR "fail to get offline binding list") st)).

(** All plots of a list have the format [t]. *)
Definition allOfType (t : ProofType) (plots : list BindingPlot) : Prop :=
  Forall (fun p => Type_ p = t) plots.

(* ================================================================== *)
(** * Sample worlds *)
(* ================================================================== *)

Definition massdbName : string :=
  "1_02AABBCCDDEEFF00112233445566778899AABBCCDDEEFF00112233445566778899_32.massdb".

Definition massdbName2 : string :=
  "2_03AABBCCDDEEFF00112233445566778899AABBCCDDEEFF00112233445566778899_32.MASSDB".

(** The long s, U+017F, in UTF-8, and the first name again with lower-case
    digits and its suffix written with two of them. *)
Definition longS : string := String "197" (String "191" "").

Definition massdbNameLongS : string :=
  "1_02aabbccddeeff00112233445566778899aabbccddeeff00112233445566778899_32.ma"
  ++ longS ++ longS ++ "db".


Definition chiaName : string :=
  "plot-k32-2021-06-01-12-30-0123456789abcdef0123456789abcdef0123456789abcdef0123456789abcdef.plot".

Definition chiaName2 : string :=
  "plot-k32-2021-06-02-08-15-fedcba9876543210fedcba9876543210fedcba9876543210fedcba9876543210.plot".

Definition sampleInfoV1 : MassDBInfoV1 :=
  {| PublicKey := "02AABB"; BitLength := 32; Plotted := true |}.

Definition sampleInfoV2 : MassDBInfoV2 :=
  {| PlotID := "0123"; K := 32;
     PoolPublicKey := "pool-pub"; FarmerPublicKey := "farmer-pub" |}.

Definition sampleKeystore : Keystore :=
  {| GetPoolPrivateKey := fun pub =>
       if String.eqb pub "pool-pub" then ok "pool-priv"
       else fail (errorString "pool key not found");
     GetFarmerPrivateKey := fun pub =>
       if String.eqb pub "farmer-pub" then ok "farmer-priv"
       else fail (errorString "farmer key not found") |}.

(** A world given by what varies between the samples: the export path's
    status, the directory listings, the header parsers, the target
    derivations, the keystore loader and the interrupt channel. *)
Definition world
    (stat : string -> result FileInfo)
    (listing : string -> result (list string))
    (headerV1 : string -> result MassDBInfoV1)
    (targetV1 : string -> Z -> result string)
    (headerV2 : string -> result MassDBInfoV2)
    (targetV2 : string -> Z -> result string)
    (keystore : string -> result Keystore)
    (interrupt : nat -> bool) : Env :=
  {| ShowAppHelp := None;
     filepath_Abs := fun path => ok path;
     filepath_Join := fun dir name => dir ++ "/" ++ name;
     os_Stat := stat;
     ioutil_ReadDir := listing;
     NewMassDBInfoV1FromFile := headerV1;
     GetMassDBBindingTarget := targetV1;
     NewMassDBInfoV2FromFile := headerV2;
     GetChiaPlotBindingTarget := targetV2;
     NewKeystoreFromFile := keystore;
     interruptCh := interrupt;
     json_MarshalIndent := fun _ => ok "{}";
     ioutil_WriteFile := fun _ _ => None |}.

Definition absent (path : string) : result FileInfo :=
  fail (ErrNotExist path).

Definition regularFile (path : string) : result FileInfo :=
  ok {| IsDir := false |}.

Definition directory (path : string) : result FileInfo :=
  ok {| IsDir := true |}.

Definition exportPath : string := "/out/binding_list.json".

Definition sampleContext (type : string) (dirs : list string)
    (keystore : string) : Context :=
  {| Args := [exportPath];
     Bool_overwrite := false;
     Bool_all := false;
     String_keystore := keystore;
     String_type := type;
     StringSlice_dirs := dirs |}.

Definition plotsDir : string := "/plots".
Definition backupDir : string := "/backup".

(** Listings: [plotsDir] holds [files]; in [mirrored], [backupDir] holds
    them too. *)
Definition oneDir (files : list string) (dir : string)
    : result (list string) :=
  if String.eqb dir plotsDir then ok files else fail (ErrNotExist dir).

Definition mirrored (files : list string) (dir : string)
    : result (list string) :=
  if String.eqb dir plotsDir || String.eqb dir backupDir then ok files
  else fail (ErrNotExist dir).

(** Header parsers: only the files named [massdbName] and [chiaName]
    have a readable header. *)
Definition headersV1 (path : string) : result MassDBInfoV1 :=
  if HasSuffix path massdbName then ok sampleInfoV1
  else fail (errorString "invalid massdb header").

Definition headersV2 (path : string) : result MassDBInfoV2 :=
  if HasSuffix path chiaName then ok sampleInfoV2
  else fail (errorString "invalid plot header").

Definition noHeaderV1 (path : string) : result MassDBInfoV1 :=
  fail (errorString "invalid massdb header").

Definition noHeaderV2 (path : string) : result MassDBInfoV2 :=
  fail (errorString "invalid plot header").

Definition derive (id : string) (size : Z) : result string :=
  ok ("target-of-" ++ id).

Definition underivable (id : string) (size : Z) : result string :=
  fail (errorString "invalid public key").

Definition keystoreFileName : string := "/keys/keystore.json".

Definition loadKeystore (file : string) : result Keystore :=
  if String.eqb file keystoreFileName then ok sampleKeystore
  else fail (errorString "cannot read keystore").

Definition never (n : nat) : bool := false.
Definition atPoll (k n : nat) : bool := Nat.eqb n k.

Definition nativeWorld (stat : string -> result FileInfo)
    (listing : string -> result (list string))
    (target : string -> Z -> result string) (interrupt : nat -> bool)
    : Env :=
  world stat listing headersV1 target noHeaderV2 underivable loadKeystore
        interrupt.

Definition chiaWorld (stat : string -> result FileInfo)
    (listing : string -> result (list string))
    (target : string -> Z -> result string) (interrupt : nat -> bool)
    : Env :=
  world stat listing noHeaderV1 underivable headersV2 target loadKeystore
        interrupt.

Definition samplePlotV1 : BindingPlot :=
  plotV1 "target-of-02AABB" sampleInfoV1.

Definition samplePlotV2 : BindingPlot :=
  plotV2 "target-of-0123" sampleInfoV2.

(** Samples: a signal arrives at the second file. *)
Definition cancelledNative : Env :=
  nativeWorld absent (oneDir [massdbName; massdbName2]) derive (atPoll 1).

Definition cancelledChia : Env :=
  chiaWorld absent (oneDir [chiaName; chiaName2]) derive (atPoll 1).

(** The run state at the second entry of [plotsDir], the first one's
    header read. *)
Definition afterFirstFile (announce fileName : string) : RunState :=
  afterHeader (plotsDir ++ "/" ++ fileName)
    (enterDir announce plotsDir initial).

(** Samples: [massdbName2] and [chiaName2] have a corrupt header. *)
Definition quietNative : Env :=
  nativeWorld absent (oneDir [massdbName2; massdbName]) derive never.

Definition quietChia : Env :=
  chiaWorld absent (oneDir [chiaName2; chiaName]) derive never.

(** Samples: the target of the one plot cannot be derived. *)
Definition underivableNative : Env :=
  nativeWorld absent (oneDir [massdbName]) underivable never.

Definition underivableChia : Env :=
  chiaWorld absent (oneDir [chiaName]) underivable never.

(** Sample: the same plot is found in two directories. *)
Definition mirroredNative : Env :=
  nativeWorld absent (mirrored [massdbName]) derive never.

(** Samples: the export path is a regular file, and a directory. *)
Definition existingExport : Env :=
  nativeWorld regularFile (oneDir [massdbName]) derive never.

Definition directoryExport : Env :=
  nativeWorld directory (oneDir [massdbName]) derive never.

(** Samples for the classifier, the ownership filter and the plotted
    filter. *)
Definition strayNative : Env :=
  nativeWorld absent (oneDir ["garbage.txt"; massdbName]) derive never.

Definition plottedNative : Env :=
  nativeWorld absent (oneDir [massdbName]) derive never.

Definition unplottedInfo : MassDBInfoV1 :=
  {| PublicKey := "02AABB"; BitLength := 32; Plotted := false |}.

Definition unplottedNative : Env :=
  world absent (oneDir [massdbName]) (fun _ => ok unplottedInfo) derive
        noHeaderV2 underivable loadKeystore never.

Definition ownedChia : Env :=
  chiaWorld absent (oneDir [chiaName]) derive never.

(** A keystore without the farmer key of the sample plot. *)
Definition strangerKeystore : Keystore :=
  {| GetPoolPrivateKey := fun pub =>
       if String.eqb pub "pool-pub" then ok "pool-priv"
       else fail (errorString "pool key not found");
     GetFarmerPrivateKey := fun pub =>
       fail (errorString "farmer key not found") |}.

Definition strangerChia : Env :=
  world absent (oneDir [chiaName]) noHeaderV1 underivable headersV2 derive
        (fun _ => ok strangerKeystore) never.

Definition overwriteRefusal : Event :=
  EvLog ERROR "cannot overwrite existed file, try again with --overwrite".

Definition directoryRefusal : Event :=
  EvLog ERROR "filename is a directory".

Definition sampleGlobals (dirs : list string) : Globals :=
  {| getBindingListArgFilename := exportPath;
     getBindingListFlagOverwrite := false;
     getBindingListFlagListAll := false;
     getBindingListFlagKeystore := "";
     getBindingListFlagPlotType := "m1";
     getBindingListFlagDirectories := dirs |}.

Definition singleList : BindingList :=
  {| Plots := [samplePlotV1];
     TotalCount := 1; DefaultCount := 1; ChiaCount := 0 |}.

Definition mirroredList : BindingList :=
  {| Plots := [samplePlotV1; samplePlotV1];
     TotalCount := 2; DefaultCount := 2; ChiaCount := 0 |}.

(* ================================================================== *)
(** * Notions for the further properties *)
(* ================================================================== *)

Definition isWrite (e : Event) : bool :=
  match e with
  | EvWriteFile _ _ => true
  | _ => false
  end.

(** [path] is an entry of one of the directories [dirs], as listed, whose
    name the classifier [matches] accepts. *)
Definition entryOf (env : Env) (matches : string -> bool)
    (dirs : list string) (path : string) : Prop :=
  exists dbDir files fileName,
    In dbDir dirs
    /\ ioutil_ReadDir env dbDir = ok files
    /\ In fileName files
    /\ matches fileName = true
    /\ path = filepath_Join env dbDir fileName.

(** What an extractor may do to the outside while it scans [dirs]: list
    one of them, read the header of an accepted entry of one of them,
    load the keystore file it was given, and log. *)
Definition scanEvent (env : Env) (matches : string -> bool)
    (keystoreFile : string) (dirs : list string) (e : Event) : Prop :=
  match e with
  | EvReadDir dbDir => In dbDir dirs
  | EvReadHeader path => entryOf env matches dirs path
  | EvLoadKeystore file => file = keystoreFile /\ keystoreFile <> ""
  | EvLog _ _ => True
  | _ => False
  end.

(** A plot of format [t] whose size is a byte. *)
Definition wellFormedPlot (t : ProofType) (p : BindingPlot) : Prop :=
  Type_ p = t /\ (0 <= Size p < 256)%Z.

(** The number of entries of the directories [dirs], as listed. *)
Fixpoint entries (env : Env) (dirs : list string) : nat :=
  match dirs with
  | [] => 0
  | dbDir :: rest =>
      match ioutil_ReadDir env dbDir with
      | ok files => List.length files + entries env rest
      | fail _ => entries env rest
      end
  end.

(** Two extractor results, one after the other. *)
Definition joinResults (r1 r2 : list BindingPlot * option error)
    : list BindingPlot * option error :=
  match r1, r2 with
  | (p1, None), (p2, None) => ((p1 ++ p2)%list, None)
  | (_, Some e), _ => ([], Some e)
  | (_, None), (_, Some e) => ([], Some e)
  end.

Definition invalidType : error :=
  errorString "invalid --type flag, should be m1 (for native MassDB) or m2 (for Chia Plot)".

Definition nothingSaved : Event :=
  EvPrint ("saved nothing in the binding list" ++ newline).

(** A byte other than the two capitals that a letter outside ASCII can
    stand for. *)
Definition notSI (c : ascii) : bool :=
  negb (Ascii.eqb c "S" || Ascii.eqb c "I").

(** The package-level variables the action sets from the command line. *)
Definition globalsOf (abs : string) (context : Context) : Globals :=
  {| getBindingListArgFilename := abs;
     getBindingListFlagOverwrite := Bool_overwrite context;
     getBindingListFlagListAll := Bool_all context;
     getBindingListFlagKeystore := String_keystore context;
     getBindingListFlagPlotType := String_type context;
     getBindingListFlagDirectories := StringSlice_dirs context |}.

(** Samples: the second directory cannot be listed; the export path
    cannot be examined; relative paths cannot be resolved. *)
Definition halfReadable : Env :=
  nativeWorld absent (oneDir [massdbName]) derive never.

Definition denied (path : string) : result FileInfo :=
  fail (errorString "permission denied").

Definition deniedExport : Env :=
  nativeWorld denied (oneDir [massdbName]) derive never.

Definition rootedOnly (path : string) : result string :=
  if prefix "/" path then ok path
  else fail (errorString "getwd: no such file or directory").

Definition lostWorkingDir : Env :=
  {| ShowAppHelp := None;
     filepath_Abs := rootedOnly;
     filepath_Join := fun dir name => dir ++ "/" ++ name;
     os_Stat := absent;
     ioutil_ReadDir := oneDir [massdbName];
     NewMassDBInfoV1FromFile := headersV1;
     GetMassDBBindingTarget := derive;
     NewMassDBInfoV2FromFile := noHeaderV2;
     GetChiaPlotBindingTarget := underivable;
     NewKeystoreFromFile := loadKeystore;
     interruptCh := never;
     json_MarshalIndent := fun _ => ok "{}";
     ioutil_WriteFile := fun _ _ => None |}.

(** The run state after the two checks of the export path, and at the
    call of an extractor. *)
Definition checked : RunState :=
  logged (EvStat exportPath) (logged (EvStat exportPath) initial).

Definition scanning : RunState := logged searchingNotice checked.

(* ================================================================== *)
(** * Properties *)
(* ================================================================== *)

(** ** Strings *)

Module StringFacts.

Lemma append_nil_r (s : string) : s ++ "" = s.
Proof. induction s as [|c s IH]; simpl; congruence. Qed.

Lemma append_assoc (a b c : string) : (a ++ b) ++ c = a ++ b ++ c.
Proof. induction a as [|x a IH]; simpl; congruence. Qed.

Lemma length_append (a b : string) :
  String.length (a ++ b) = String.length a + String.length b.
Proof. induction a as [|x a IH]; simpl; congruence. Qed.

Lemma append_eq_nil (a b : string) : a ++ b = "" -> a = "" /\ b = "".
Proof. destruct a; simpl; [auto | discriminate]. Qed.

Lemma length_zero (s : string) : String.length s = 0 -> s = "".
Proof. destruct s; simpl; [auto | discriminate]. Qed.

Lemma substring_all (s : string) : substring 0 (String.length s) s = s.
Proof. induction s as [|c s IH]; simpl; congruence. Qed.

Lemma substring_drop (a b : string) :
  substring (String.length a) (String.length b) (a ++ b) = b.
Proof.
  induction a as [|x a IH]; simpl; [apply substring_all | exact IH].
Qed.

Lemma HasSuffix_app (a suffix : string) :
  HasSuffix (a ++ suffix) suffix = true.
Proof.
  unfold HasSuffix. rewrite length_append.
  replace (String.length a + String.length suffix - String.length suffix)
    with (String.length a) by lia.
  rewrite substring_drop, String.eqb_refl, andb_true_r.
  apply Nat.leb_le. lia.
Qed.

Lemma all_append (p : ascii -> bool) (a b : string) :
  all p (a ++ b) = all p a && all p b.
Proof.
  induction a as [|x a IH]; simpl; [reflexivity|].
  rewrite IH. apply andb_assoc.
Qed.

Lemma all_ext (p q : ascii -> bool) (s : string) :
  (forall c, p c = q c) -> all p s = all q s.
Proof.
  intros E. induction s as [|c s IH]; simpl; [reflexivity|].
  rewrite E, IH. reflexivity.
Qed.

End StringFacts.

(** ** Upper case *)

Module UTF8Facts.
Import UTF8.

Local Open Scope N_scope.

(** The decoder and the encoder on some sequences: one to four bytes,
    an overlong form, a surrogate, a sequence cut short, a stray
    continuation byte; and [strings.ToUpper] on a malformed byte. *)
Example utf8_samples :
  DecodeRuneInString "Az" = (0x41, 1%nat)
  /\ DecodeRuneInString (bytes [0xC5; 0xBF; 0x41]) = (0x17F, 2%nat)
  /\ DecodeRuneInString (bytes [0xE2; 0x82; 0xAC]) = (0x20AC, 3%nat)
  /\ DecodeRuneInString (bytes [0xF0; 0x9F; 0x98; 0x80]) = (0x1F600, 4%nat)
  /\ DecodeRuneInString (bytes [0xC0; 0x80]) = (RuneError, 1%nat)
  /\ DecodeRuneInString (bytes [0xED; 0xA0; 0x80]) = (RuneError, 1%nat)
  /\ DecodeRuneInString (bytes [0xE2; 0x82]) = (RuneError, 1%nat)
  /\ DecodeRuneInString (bytes [0xBF; 0x41]) = (RuneError, 1%nat)
  /\ EncodeRune 0x41 = "A"
  /\ EncodeRune 0x17F = bytes [0xC5; 0xBF]
  /\ EncodeRune 0x20AC = bytes [0xE2; 0x82; 0xAC]
  /\ EncodeRune 0x1F600 = bytes [0xF0; 0x9F; 0x98; 0x80]
  /\ EncodeRune 0xD800 = bytes [0xEF; 0xBF; 0xBD]
  /\ ToUpper (bytes [0x61; 0xFF; 0x62]) = bytes [0x41; 0xEF; 0xBF; 0xBD; 0x42]
  /\ ToUpper (bytes [0x41; 0xFF; 0x42]) = bytes [0x41; 0xEF; 0xBF; 0xBD; 0x42]
  /\ ToUpper (bytes [0x6D; 0x61; 0xC5; 0xBF; 0xC4; 0xB1]) = "MASI"
  /\ ToUpper "plot-k32.Plot" = "PLOT-K32.PLOT".
Proof. vm_compute. repeat split. Qed.

(** Bits that do not overlap add up. *)
Lemma lor_disjoint (a b n : N) :
  b < 2 ^ n -> N.lor (a * 2 ^ n) b = a * 2 ^ n + b.
Proof.
  intros H. rewrite <- N.lxor_lor, <- N.add_nocarry_lxor; trivial;
    apply N.bits_inj; intro i; rewrite N.land_spec, N.bits_0;
    destruct (N.lt_ge_cases i n) as [L|L].
  all: try (rewrite N.mul_pow2_bits_low by exact L; reflexivity).
  all: destruct (N.eq_dec b 0) as [->|Z];
    [rewrite N.bits_0; apply andb_false_r|].
  all: rewrite (N.bits_above_log2 b i), andb_false_r; trivial.
  all: apply N.log2_lt_pow2; [lia|].
  all: apply N.lt_le_trans with (2 ^ n); trivial.
  all: apply N.pow_le_mono_r; lia.
Qed.

(** Linear arithmetic with division and remainder by constants. *)
Ltac dlia := zify; Z.to_euclidean_division_equations; lia.

(** The masks and shifts of the decoder, as arithmetic. *)

Lemma mask5 (x : N) : N.land x 0x1F = x mod 32.
Proof. exact (N.land_ones x 5). Qed.
Lemma mask4 (x : N) : N.land x 0x0F = x mod 16.
Proof. exact (N.land_ones x 4). Qed.
Lemma mask3 (x : N) : N.land x 0x07 = x mod 8.
Proof. exact (N.land_ones x 3). Qed.
Lemma maskx (x : N) : N.land x 0x3F = x mod 64.
Proof. exact (N.land_ones x 6). Qed.

Lemma rune2 (a b : N) :
  N.lor (N.shiftl a 6) (b mod 64) = a * 64 + b mod 64.
Proof.
  rewrite N.shiftl_mul_pow2. apply (lor_disjoint a (b mod 64) 6).
  change (2 ^ 6) with 64. dlia.
Qed.

Lemma rune3 (a b c : N) :
  N.lor (N.lor (N.shiftl a 12) (N.shiftl (b mod 64) 6)) (c mod 64)
  = a * 4096 + (b mod 64) * 64 + c mod 64.
Proof.
  rewrite <- N.lor_assoc, rune2, N.shiftl_mul_pow2.
  rewrite (lor_disjoint a _ 12); change (2 ^ 12) with 4096; dlia.
Qed.

Lemma rune4 (a b c d : N) :
  N.lor (N.lor (N.lor (N.shiftl a 18) (N.shiftl (b mod 64) 12))
               (N.shiftl (c mod 64) 6)) (d mod 64)
  = a * 262144 + (b mod 64) * 4096 + (c mod 64) * 64 + d mod 64.
Proof.
  rewrite <- !N.lor_assoc, rune2.
  rewrite (N.shiftl_mul_pow2 (b mod 64)).
  rewrite (lor_disjoint (b mod 64) _ 12) by (change (2 ^ 12) with 4096; dlia).
  rewrite N.shiftl_mul_pow2.
  rewrite (lor_disjoint a _ 18); change (2 ^ 18) with 262144;
    change (2 ^ 12) with 4096; dlia.
Qed.

(** What the decoder reads at an ASCII byte and at the two letters. *)
Lemma decode_ascii (c : ascii) (t : string) :
  N_of_ascii c < 0x80 ->
  DecodeRuneInString (String c t) = (N_of_ascii c, 1%nat).
Proof.
  intros H. unfold DecodeRuneInString, first.
  cbn [String.length Nat.ltb Nat.leb byteAt get].
  destruct (N.ltb_spec (N_of_ascii c) 0x80); [reflexivity | lia].
Qed.

Lemma decode_long_s (t : string) :
  DecodeRuneInString (String "197" (String "191" t)) = (0x17F, 2%nat).
Proof. reflexivity. Qed.

Lemma decode_dotless_i (t : string) :
  DecodeRuneInString (String "196" (String "177" t)) = (0x131, 2%nat).
Proof. reflexivity. Qed.

Lemma byte_eq (c : ascii) (n : N) : N_of_ascii c = n -> c = ascii_of_N n.
Proof. intros <-. symmetry. apply ascii_N_embedding. Qed.

(** A rune decoded at a byte above 0x7F is above 0x7F, and it is one of the
    two letters only where their two bytes stand. *)
Lemma decode_high (c : ascii) (t : string) (r : N) (w : nat) :
  0x80 <= N_of_ascii c ->
  DecodeRuneInString (String c t) = (r, w) ->
  0x80 <= r /\ w <> 0%nat
  /\ (r = 0x17F -> exists t', String c t = String "197" (String "191" t') /\ w = 2%nat)
  /\ (r = 0x131 -> exists t', String c t = String "196" (String "177" t') /\ w = 2%nat).
Proof.
  intros H. pose proof (N_ascii_bounded c) as B.
  unfold DecodeRuneInString, first.
  cbn [String.length Nat.ltb Nat.leb byteAt get].
  set (b0 := N_of_ascii c) in *.
  assert (Herr1 : (RuneError, 1%nat) = (r, w) ->
     0x80 <= r /\ w <> 0%nat
     /\ (r = 0x17F -> exists t', String c t = String "197" (String "191" t') /\ w = 2%nat)
     /\ (r = 0x131 -> exists t', String c t = String "196" (String "177" t') /\ w = 2%nat)).
  { intros E. injection E as <- <-. unfold RuneError.
    repeat split; try lia; intros; discriminate. }
  destruct t as [|c1 [|c2 [|c3 t3]]];
    cbn [String.length Nat.ltb Nat.leb byteAt get orb].
  all: repeat (match goal with
  | |- context [N.ltb ?a ?b] => destruct (N.ltb_spec a b)
  | |- context [N.eqb ?a ?b] => destruct (N.eqb_spec a b)
  end; cbn [String.length Nat.ltb Nat.leb orb]); try lia; try (apply Herr1).
  all: try pose proof (N_ascii_bounded c1) as B1.
  all: try pose proof (N_ascii_bounded c2) as B2.
  all: try pose proof (N_ascii_bounded c3) as B3.
  all: intros E; injection E as <- <-.
  all: first
    [ rewrite mask5, maskx, rune2
    | rewrite mask4, !maskx, rune3
    | rewrite mask3, !maskx, rune4 ].
  all: split; [dlia|]; split; [discriminate|]; split; intros E.
  all: try (exfalso; dlia).
  all: match type of E with
       | _ = 383 =>
           assert (b0 = 197 /\ N_of_ascii c1 = 191) as [E0 E1] by dlia
       | _ = 305 =>
           assert (b0 = 196 /\ N_of_ascii c1 = 177) as [E0 E1] by dlia
       end; apply byte_eq in E0, E1; subst c c1; eauto.
Qed.

(** The encoder writes one ASCII byte for an ASCII rune, and starts any
    other rune with a byte above 0x7F. *)
Lemma byte_small (x : N) : x < 256 -> N_of_ascii (byte x) = x.
Proof.
  intros H. unfold byte. rewrite N.mod_small by exact H.
  apply N_ascii_embedding, H.
Qed.

Lemma encode_ascii (r : N) : r <= 0x7F -> EncodeRune r = String (ascii_of_N r) "".
Proof.
  intros H. unfold EncodeRune. destruct (N.leb_spec r 0x7F); [|lia].
  cbn. unfold byte. rewrite N.mod_small by lia. reflexivity.
Qed.

Lemma encode_high (r : N) :
  0x7F < r -> exists c t, EncodeRune r = String c t /\ 0x80 <= N_of_ascii c.
Proof.
  intros H. unfold EncodeRune, MaxRune.
  repeat (match goal with
  | |- context [N.leb ?a ?b] => destruct (N.leb_spec a b)
  | |- context [N.ltb ?a ?b] => destruct (N.ltb_spec a b)
  end; cbn [orb andb]); try lia; cbn [bytes fold_right];
  eexists; eexists; (split; [reflexivity|]).
  all: try (vm_compute; discriminate).
  all: rewrite N.shiftr_div_pow2.
  all: match goal with
  | |- context [N.lor 192 _] =>
      change 192 with (3 * 2 ^ 6); rewrite lor_disjoint;
      change (2 ^ 6) with 64; [rewrite byte_small|]; dlia
  | |- context [N.lor 224 _] =>
      change 224 with (7 * 2 ^ 5); rewrite lor_disjoint;
      change (2 ^ 5) with 32; change (2 ^ 12) with 4096;
      [rewrite byte_small|]; dlia
  | |- context [N.lor 240 _] =>
      change 240 with (15 * 2 ^ 4); rewrite lor_disjoint;
      change (2 ^ 4) with 16; change (2 ^ 18) with 262144;
      [rewrite byte_small|]; dlia
  end.
Qed.

(** [unicode.ToUpper] on ASCII is [upperByte], whatever the table. *)
Lemma upper_ascii (table : N -> N) (c : ascii) :
  N_of_ascii c < 0x80 ->
  unicode_ToUpper table (N_of_ascii c) <= 0x7F
  /\ ascii_of_N (unicode_ToUpper table (N_of_ascii c)) = upperByte c
  /\ (unicode_ToUpper table (N_of_ascii c) = N_of_ascii c -> upperByte c = c).
Proof.
  destruct c as [[] [] [] [] [] [] [] []]; intros H;
    try (exfalso; vm_compute in H; discriminate);
    vm_compute; repeat split; try discriminate; congruence.
Qed.

Lemma upper_high (table : N -> N) (r : N) :
  0x80 <= r -> unicode_ToUpper table r = table r.
Proof.
  intros H. unfold unicode_ToUpper. destruct (N.leb_spec r 0x7F); [lia|reflexivity].
Qed.

Local Close Scope N_scope.

(** [strings.ToUpper] gives a string of ASCII bytes exactly on the
    names that spell one, and then the string they spell. *)
Lemma isASCII_cons (c : ascii) (s : string) :
  isASCII (String c s) = true <->
  (N_of_ascii c < 0x80)%N /\ isASCII s = true.
Proof.
  unfold isASCII. cbn [all]. rewrite andb_true_iff, N.ltb_lt. reflexivity.
Qed.

Lemma upperByte_ascii (c : ascii) :
  (N_of_ascii c < 0x80)%N -> (N_of_ascii (upperByte c) < 0x80)%N.
Proof.
  destruct c as [[] [] [] [] [] [] [] []]; intros H;
    try (exfalso; vm_compute in H; discriminate); vm_compute; reflexivity.
Qed.

Lemma upperByte_noLower (c : ascii) :
  between "a" "z" c = false -> upperByte c = c.
Proof. unfold upperByte. intros ->. reflexivity. Qed.

Lemma map_noLower (s : string) : hasLower s = false -> map upperByte s = s.
Proof.
  unfold hasLower. rewrite negb_false_iff.
  induction s as [|c s IH]; cbn [all map]; [reflexivity|].
  rewrite andb_true_iff, negb_true_iff. intros [C A].
  rewrite upperByte_noLower, IH; trivial.
Qed.

Lemma caseVariant_isASCII (s u : string) :
  caseVariant s u -> isASCII u = true.
Proof.
  induction 1; [reflexivity|..]; apply isASCII_cons; split; trivial;
    try (vm_compute; reflexivity).
  apply upperByte_ascii. assumption.
Qed.

Lemma caseVariant_of_ascii (s : string) :
  isASCII s = true -> caseVariant s (map upperByte s).
Proof.
  induction s as [|c s IH]; cbn [map]; [constructor|].
  rewrite isASCII_cons. intros [C A]. constructor; auto.
Qed.

Lemma caseVariant_ascii (s u : string) :
  caseVariant s u -> isASCII s = true -> u = map upperByte s.
Proof.
  induction 1; [reflexivity|..]; rewrite isASCII_cons; intros [C A].
  - cbn [map]. f_equal. auto.
  - vm_compute in C. discriminate.
  - vm_compute in C. discriminate.
Qed.

Lemma caseVariant_length (s u : string) :
  caseVariant s u -> (String.length u <= String.length s)%nat.
Proof. induction 1; cbn [String.length]; lia. Qed.

Section Table.

Variable table : N -> N.
Hypothesis good : upperCaseTable table.

Lemma mapLoop_nil (fuel : nat) (changed : bool) :
  mapLoop fuel (unicode_ToUpper table) changed "" = "".
Proof. destruct fuel; reflexivity. Qed.

Lemma mapLoop_byte (c : ascii) (t : string) (fuel : nat) (changed : bool) :
  (N_of_ascii c < 0x80)%N ->
  exists changed',
    mapLoop (S fuel) (unicode_ToUpper table) changed (String c t)
    = String (upperByte c) (mapLoop fuel (unicode_ToUpper table) changed' t).
Proof.
  intros H. cbn [mapLoop String.length Nat.eqb].
  rewrite decode_ascii by exact H.
  destruct (upper_ascii table c H) as (L & E & F).
  match goal with |- context [if ?b then _ else _] => destruct b eqn:C end.
  - exists false. rewrite !andb_true_iff, N.eqb_eq in C.
    destruct C as [[_ C] _]. rewrite (F C). reflexivity.
  - exists true. rewrite encode_ascii by exact L. rewrite E. reflexivity.
Qed.

Lemma mapLoop_long_s (t : string) (fuel : nat) (changed : bool) :
  mapLoop (S fuel) (unicode_ToUpper table) changed
    (String "197" (String "191" t))
  = String "S" (mapLoop fuel (unicode_ToUpper table) true t).
Proof.
  cbn [mapLoop String.length Nat.eqb]. rewrite decode_long_s.
  rewrite upper_high by (vm_compute; discriminate).
  destruct good as (-> & _). rewrite andb_false_r. reflexivity.
Qed.

Lemma mapLoop_dotless_i (t : string) (fuel : nat) (changed : bool) :
  mapLoop (S fuel) (unicode_ToUpper table) changed
    (String "196" (String "177" t))
  = String "I" (mapLoop fuel (unicode_ToUpper table) true t).
Proof.
  cbn [mapLoop String.length Nat.eqb]. rewrite decode_dotless_i.
  rewrite upper_high by (vm_compute; discriminate).
  destruct good as (_ & -> & _). rewrite andb_false_r. reflexivity.
Qed.

Lemma mapLoop_caseVariant (s u : string) :
  caseVariant s u ->
  forall fuel changed, (String.length s <= fuel)%nat ->
    mapLoop fuel (unicode_ToUpper table) changed s = u.
Proof.
  induction 1 as [|c s u C V IH|s u V IH|s u V IH]; intros fuel changed L.
  - apply mapLoop_nil.
  - destruct fuel as [|fuel]; cbn [String.length] in L; [lia|].
    destruct (mapLoop_byte c s fuel changed C) as [changed' ->].
    f_equal. apply IH. lia.
  - destruct fuel as [|fuel]; cbn [String.length] in L; [lia|].
    rewrite mapLoop_long_s. f_equal. apply IH. lia.
  - destruct fuel as [|fuel]; cbn [String.length] in L; [lia|].
    rewrite mapLoop_dotless_i. f_equal. apply IH. lia.
Qed.

Lemma mapLoop_ascii (fuel : nat) :
  forall s changed, (String.length s <= fuel)%nat ->
    isASCII (mapLoop fuel (unicode_ToUpper table) changed s) = true ->
    caseVariant s (mapLoop fuel (unicode_ToUpper table) changed s).
Proof.
  induction fuel as [|fuel IH]; intros [|c t] changed L;
    cbn [String.length] in L; try lia; try (intros; constructor).
  destruct (N.lt_ge_cases (N_of_ascii c) 0x80) as [C|C].
  - destruct (mapLoop_byte c t fuel changed C) as [changed' ->].
    rewrite isASCII_cons. intros [_ A]. constructor; [exact C|].
    apply IH; [lia | exact A].
  - cbn [mapLoop String.length Nat.eqb].
    destruct (DecodeRuneInString (String c t)) as [r w] eqn:D.
    destruct (decode_high c t r w C D) as (R & W & S1 & S2).
    match goal with |- context [if ?b then _ else _] => destruct b end.
    + destruct w as [|w]; [congruence|]. cbn [take append].
      rewrite isASCII_cons. intros [A _]. lia.
    + rewrite upper_high by exact R.
      destruct (N.eq_dec r 0x17F) as [E1|N1];
        [|destruct (N.eq_dec r 0x131) as [E2|N2]].
      * destruct (S1 E1) as (t' & Es & ->). injection Es as -> ->. subst r.
        destruct good as (-> & _). cbn [drop].
        change (EncodeRune 83) with "S". cbn [append].
        rewrite isASCII_cons. intros [_ A]. constructor.
        apply IH; [cbn [String.length] in L; lia | exact A].
      * destruct (S2 E2) as (t' & Es & ->). injection Es as -> ->. subst r.
        destruct good as (_ & -> & _). cbn [drop].
        change (EncodeRune 73) with "I". cbn [append].
        rewrite isASCII_cons. intros [_ A]. constructor.
        apply IH; [cbn [String.length] in L; lia | exact A].
      * destruct good as (_ & _ & G).
        destruct (encode_high (table r)) as (c' & t' & -> & Hc);
          [apply G; trivial; lia|].
        cbn [append]. rewrite isASCII_cons. intros [A _]. lia.
Qed.

Lemma ToUpperWith_caseVariant (s u : string) :
  caseVariant s u <-> ToUpperWith table s = u /\ isASCII u = true.
Proof.
  unfold ToUpperWith, Map. split.
  - intros V. split; [|eapply caseVariant_isASCII; eassumption].
    destruct (isASCII s) eqn:A.
    + rewrite (caseVariant_ascii s u V A).
      destruct (hasLower s) eqn:Lo; [reflexivity|].
      symmetry. apply map_noLower, Lo.
    + apply mapLoop_caseVariant; [exact V | lia].
  - intros [<- A]. destruct (isASCII s) eqn:As.
    + destruct (hasLower s) eqn:Lo.
      * apply caseVariant_of_ascii, As.
      * rewrite <- (map_noLower s Lo) at 2. apply caseVariant_of_ascii, As.
    + apply mapLoop_ascii; [lia | exact A].
Qed.

End Table.

Lemma caseRanges_good : upperCaseTable caseRanges.
Proof.
  repeat split. intros r H N1 N2. unfold caseRanges.
  destruct (N.eqb_spec r 0x17F); [contradiction|].
  destruct (N.eqb_spec r 0x131); [contradiction|]. exact H.
Qed.

Lemma ToUpper_caseVariant (s u : string) :
  caseVariant s u <-> ToUpper s = u /\ isASCII u = true.
Proof. apply ToUpperWith_caseVariant, caseRanges_good. Qed.


End UTF8Facts.

(** ** The matcher computes the language *)

Module RegexpFacts.
Import StringFacts.

Lemma nullable_lang (r : regex) : nullable r = true <-> lang r "".
Proof.
  induction r as [| | c | rs | a IHa b IHb | a IHa b IHb | a IHa];
    simpl; try (split; [discriminate | ]); try tauto.
  - intros H; discriminate H.
  - intros [c [H _]]; discriminate H.
  - rewrite andb_true_iff, IHa, IHb. split.
    + intros [Ha Hb]. exists "", "". auto.
    + intros (s1 & s2 & E & Ha & Hb).
      symmetry in E. apply append_eq_nil in E as [-> ->]. auto.
  - rewrite orb_true_iff, IHa, IHb. tauto.
  - split; [intros _; constructor | reflexivity].
Qed.

Lemma star_cons (L : string -> Prop) (c : ascii) (s : string) :
  star L (String c s) ->
  exists s1 s2, s = s1 ++ s2 /\ L (String c s1) /\ star L s2.
Proof.
  intros H. remember (String c s) as w eqn:E.
  induction H as [| s1 s2 H1 H2 IH]; [discriminate|].
  destruct s1 as [|x s1]; simpl in E.
  - apply IH, E.
  - injection E as E1 E2; subst. exists s1, s2. auto.
Qed.

Lemma deriv_lang (c : ascii) (r : regex) :
  forall s, lang (deriv c r) s <-> lang r (String c s).
Proof.
  induction r as [| | d | rs | a IHa b IHb | a IHa b IHb | a IHa];
    intros s; simpl.
  - tauto.
  - split; [tauto | discriminate].
  - destruct (Ascii.eqb_spec c d) as [-> | N]; simpl.
    + split; [intros -> | intros [= ->]]; reflexivity.
    + split; [tauto | intros [= E _]; contradiction].
  - destruct (inClass rs c) eqn:E; simpl.
    + split.
      * intros ->. exists c. auto.
      * intros (x & [= _ ->] & _). reflexivity.
    + split; [tauto|].
      intros (x & [= -> _] & H). congruence.
  - destruct (nullable a) eqn:N; simpl.
    + split.
      * intros [(s1 & s2 & -> & Ha & Hb) | Hb].
        -- exists (String c s1), s2. rewrite <- IHa. auto.
        -- exists "", (String c s). simpl.
           rewrite <- nullable_lang, <- IHb. auto.
      * intros (s1 & s2 & E & Ha & Hb).
        destruct s1 as [|x s1]; simpl in E.
        -- right. apply IHb. rewrite E. exact Hb.
        -- injection E as E1 E2; subst. left.
           exists s1, s2. rewrite IHa. auto.
    + split.
      * intros (s1 & s2 & -> & Ha & Hb).
        exists (String c s1), s2. rewrite <- IHa. auto.
      * intros (s1 & s2 & E & Ha & Hb).
        destruct s1 as [|x s1]; simpl in E.
        -- apply nullable_lang in Ha. congruence.
        -- injection E as E1 E2; subst.
           exists s1, s2. rewrite IHa. auto.
  - rewrite IHa, IHb. tauto.
  - split.
    + intros (s1 & s2 & -> & Ha & Hs).
      change (String c (s1 ++ s2)) with (String c s1 ++ s2).
      constructor; [apply IHa, Ha | exact Hs].
    + intros H. apply star_cons in H as (s1 & s2 & -> & Ha & Hs).
      exists s1, s2. rewrite IHa. auto.
Qed.

Lemma fullMatch_lang (s : string) :
  forall r, fullMatch r s = true <-> lang r s.
Proof.
  induction s as [|c s IH]; intros r; simpl.
  - apply nullable_lang.
  - rewrite IH. apply deriv_lang.
Qed.

(** *** The languages of the building blocks *)

Lemma lang_Literals (lit s : string) : lang (Literals lit) s <-> s = lit.
Proof.
  revert s. induction lit as [|c lit IH]; intros s; simpl; [tauto|].
  split.
  - intros (s1 & s2 & -> & -> & H). apply IH in H. subst. reflexivity.
  - intros ->. exists (String c ""), lit. rewrite IH. auto.
Qed.

Lemma lang_Repeat_class (rs : list (ascii * ascii)) (n : nat) :
  forall s,
    lang (Repeat n (CharClass rs)) s <->
    String.length s = n /\ all (inClass rs) s = true.
Proof.
  induction n as [|n IH]; intros s; simpl.
  - split.
    + intros ->. auto.
    + intros [H _]. apply length_zero, H.
  - split.
    + intros (s1 & s2 & -> & (c & -> & Hc) & H).
      apply IH in H as [L A]. simpl. rewrite Hc, A, L. auto.
    + destruct s as [|c s]; simpl; [intros [H _]; discriminate|].
      intros [L A]. apply andb_true_iff in A as [Hc A].
      exists (String c ""), s. split; [reflexivity|].
      split; [exists c; auto|]. apply IH. split; [lia | exact A].
Qed.

Lemma lang_Star_class (rs : list (ascii * ascii)) (s : string) :
  lang (Star (CharClass rs)) s <-> all (inClass rs) s = true.
Proof.
  simpl. split.
  - induction 1 as [| s1 s2 (c & -> & Hc) _ IH]; simpl;
      [reflexivity | rewrite Hc, IH; reflexivity].
  - induction s as [|c s IH]; simpl; [constructor|].
    intros A. apply andb_true_iff in A as [Hc A].
    change (String c s) with (String c "" ++ s).
    constructor; [exists c; auto | apply IH, A].
Qed.

Lemma lang_Plus_class (rs : list (ascii * ascii)) (s : string) :
  lang (Plus (CharClass rs)) s <->
  s <> "" /\ all (inClass rs) s = true.
Proof.
  unfold Plus. cbn [lang]. fold (lang (Star (CharClass rs))). split.
  - intros (s1 & s2 & -> & (c & -> & Hc) & H).
    apply lang_Star_class in H. simpl. rewrite Hc, H.
    split; [discriminate | reflexivity].
  - destruct s as [|c s]; [intros [N _]; contradiction|].
    simpl. intros [_ A]. apply andb_true_iff in A as [Hc A].
    exists (String c ""), s. split; [reflexivity|].
    split; [exists c; auto | apply lang_Star_class, A].
Qed.

Lemma inClass_digit (c : ascii) : inClass [("0", "9")%char] c = isDigit c.
Proof. unfold inClass, isDigit. simpl. apply orb_false_r. Qed.

Lemma inClass_upperHex (c : ascii) :
  inClass [("A", "F"); ("0", "9")]%char c = isUpperHex c.
Proof. unfold inClass, isUpperHex. simpl. rewrite orb_false_r. reflexivity. Qed.

Lemma lang_digits (n : nat) (s : string) :
  lang (Repeat n digit) s <-> digits n s.
Proof.
  unfold digit, digits. rewrite lang_Repeat_class.
  rewrite (all_ext _ _ s inClass_digit). tauto.
Qed.

Lemma lang_upperHex (n : nat) (s : string) :
  lang (Repeat n (CharClass [("A", "F"); ("0", "9")]%char)) s <->
  upperHex n s.
Proof.
  unfold upperHex. rewrite lang_Repeat_class.
  rewrite (all_ext _ _ s inClass_upperHex). tauto.
Qed.

Lemma lang_ordinal (s : string) :
  lang (Plus digit) s <-> s <> "" /\ all isDigit s = true.
Proof.
  unfold digit. rewrite lang_Plus_class.
  rewrite (all_ext _ _ s inClass_digit). tauto.
Qed.

Lemma lang_Repeat4 (r : regex) (s : string) :
  lang (Repeat 4 r) s <->
  exists a b c d,
    s = a ++ b ++ c ++ d /\ lang r a /\ lang r b /\ lang r c /\ lang r d.
Proof.
  simpl. split.
  - intros (a & ? & -> & Ha & b & ? & -> & Hb & c & ? & -> & Hc
            & d & ? & -> & Hd & ->).
    exists a, b, c, d. rewrite append_nil_r. auto.
  - intros (a & b & c & d & -> & Ha & Hb & Hc & Hd).
    exists a, (b ++ c ++ d). repeat split; auto.
    exists b, (c ++ d). repeat split; auto.
    exists c, d. repeat split; auto.
    exists d, "". rewrite append_nil_r. auto.
Qed.

Lemma lang_segment (s : string) :
  lang (Concat (Literal "-") (Repeat 2 digit)) s <->
  exists a, s = "-" ++ a /\ digits 2 a.
Proof.
  cbn [lang]. setoid_rewrite lang_digits. split.
  - intros (? & a & -> & -> & H). exists a. auto.
  - intros (a & -> & H). exists "-", a. auto.
Qed.

Lemma MatchString_V1 (u : string) :
MatchString regStrV1 u = true <-> ShapeV1 u.
Proof.
unfold MatchString. rewrite fullMatch_lang.
unfold regStrV1, ShapeV1. cbn [body lang].
setoid_rewrite lang_ordinal. setoid_rewrite lang_upperHex.
setoid_rewrite lang_digits. setoid_rewrite lang_Literals.
split.
- intros (o & ? & -> & [No Ao] & ? & ? & -> & -> & pk & ? & -> & Hpk
          & ? & ? & -> & -> & bl & ? & -> & Hbl & ->).
  exists o, pk, bl. auto.
- intros (o & pk & bl & -> & No & Ao & Hpk & Hbl).
  exists o, ("_" ++ pk ++ "_" ++ bl ++ ".MASSDB"). repeat split; auto.
  exists "_", (pk ++ "_" ++ bl ++ ".MASSDB"). repeat split; auto.
  exists pk, ("_" ++ bl ++ ".MASSDB"). repeat split; auto; try apply Hpk.
  exists "_", (bl ++ ".MASSDB"). repeat split; auto.
  exists bl, ".MASSDB". repeat split; auto; apply Hbl.
Qed.

Lemma MatchString_V2 (u : string) :
MatchString regStrV2 u = true <-> ShapeV2 u.
Proof.
unfold MatchString. rewrite fullMatch_lang.
unfold regStrV2, ShapeV2. cbn [body lang].
setoid_rewrite lang_digits. setoid_rewrite lang_upperHex.
setoid_rewrite lang_Literals.
setoid_rewrite lang_Repeat4. setoid_rewrite lang_segment.
split.
- intros (? & ? & -> & -> & k & ? & -> & Hk & ? & ? & -> & -> 
          & y & ? & -> & Hy & ? & ? & -> 
          & (? & ? & ? & ? & -> & (mo & -> & Hmo) & (d & -> & Hd)
             & (h & -> & Hh) & (mi & -> & Hmi))
          & ? & ? & -> & -> & id & ? & -> & Hid & ->).
  exists k, y, mo, d, h, mi, id. simpl.
  repeat (rewrite ?append_assoc; simpl). auto 10.
- intros (k & y & mo & d & h & mi & id & -> & Hk & Hy & Hmo & Hd & Hh & Hmi & Hid).
  exists "PLOT-K", (k ++ "-" ++ y ++ "-" ++ mo ++ "-" ++ d ++ "-" ++ h
      ++ "-" ++ mi ++ "-" ++ id ++ ".PLOT"). repeat split; auto.
  exists k, ("-" ++ y ++ "-" ++ mo ++ "-" ++ d ++ "-" ++ h
      ++ "-" ++ mi ++ "-" ++ id ++ ".PLOT"). repeat split; auto; try apply Hk.
  exists "-", (y ++ "-" ++ mo ++ "-" ++ d ++ "-" ++ h
      ++ "-" ++ mi ++ "-" ++ id ++ ".PLOT"). repeat split; auto.
  exists y, ("-" ++ mo ++ "-" ++ d ++ "-" ++ h
      ++ "-" ++ mi ++ "-" ++ id ++ ".PLOT"). repeat split; auto; try apply Hy.
  exists (("-" ++ mo) ++ ("-" ++ d) ++ ("-" ++ h) ++ ("-" ++ mi)), ("-" ++ id ++ ".PLOT").
  split; [repeat (rewrite ?append_assoc; simpl); reflexivity|].
  split.
  { exists ("-" ++ mo), ("-" ++ d), ("-" ++ h), ("-" ++ mi).
    split; [reflexivity|]. repeat split; eexists; split; try reflexivity; auto. }
  exists "-", (id ++ ".PLOT"). repeat split; auto.
  exists id, ".PLOT". repeat split; auto; apply Hid.
Qed.

End RegexpFacts.

(** ** The classifiers decide the file-name syntax *)

Module ClassifierFacts.
Import StringFacts UTF8Facts RegexpFacts.

Lemma nameMatches_and (suffixB : string) (re : Regexp) (name : string) :
nameMatches suffixB re name =
HasSuffix (ToUpper name) suffixB && MatchString re (ToUpper name).
Proof.
unfold nameMatches, skipName.
rewrite negb_orb, !negb_involutive. reflexivity.
Qed.

Lemma skipName_V1 (name : string) :
skipName suffixV1 regStrV1 name = negb (nameMatchesV1 name).
Proof. unfold nameMatchesV1, nameMatches. now rewrite negb_involutive. Qed.

Lemma skipName_V2 (name : string) :
skipName suffixV2 regStrV2 name = negb (nameMatchesV2 name).
Proof. unfold nameMatchesV2, nameMatches. now rewrite negb_involutive. Qed.

Lemma ShapeV1_suffix (u : string) : ShapeV1 u -> HasSuffix u suffixV1 = true.
Proof.
intros (o & pk & bl & -> & _).
replace (o ++ "_" ++ pk ++ "_" ++ bl ++ ".MASSDB")
  with ((o ++ "_" ++ pk ++ "_" ++ bl) ++ suffixV1).
- apply HasSuffix_app.
- unfold suffixV1. repeat (rewrite ?append_assoc; simpl). reflexivity.
Qed.

Lemma ShapeV2_suffix (u : string) : ShapeV2 u -> HasSuffix u suffixV2 = true.
Proof.
intros (k & y & mo & d & h & mi & id & -> & _).
replace ("PLOT-K" ++ k ++ "-" ++ y ++ "-" ++ mo ++ "-" ++ d ++ "-" ++ h
         ++ "-" ++ mi ++ "-" ++ id ++ ".PLOT")
  with (("PLOT-K" ++ k ++ "-" ++ y ++ "-" ++ mo ++ "-" ++ d ++ "-" ++ h
         ++ "-" ++ mi ++ "-" ++ id) ++ suffixV2).
- apply HasSuffix_app.
- unfold suffixV2. repeat (rewrite ?append_assoc; simpl). reflexivity.
Qed.

Lemma nameMatchesV1_shape (name : string) :
nameMatchesV1 name = true <-> ShapeV1 (ToUpper name).
Proof.
unfold nameMatchesV1. rewrite nameMatches_and, andb_true_iff, MatchString_V1.
split; [tauto|]. intros S. split; [apply ShapeV1_suffix, S | exact S].
Qed.

Lemma nameMatchesV2_shape (name : string) :
nameMatchesV2 name = true <-> ShapeV2 (ToUpper name).
Proof.
unfold nameMatchesV2. rewrite nameMatches_and, andb_true_iff, MatchString_V2.
split; [tauto|]. intros S. split; [apply ShapeV2_suffix, S | exact S].
Qed.


(** The two syntaxes are made of ASCII bytes. *)

Lemma all_impl (p q : ascii -> bool) (s : string) :
  (forall c, p c = true -> q c = true) -> all p s = true -> all q s = true.
Proof.
  intros I. induction s as [|c s IH]; cbn [all]; [reflexivity|].
  rewrite !andb_true_iff. intros [C A]. auto.
Qed.

Lemma isDigit_ascii (c : ascii) :
  isDigit c = true -> (N_of_ascii c <? UTF8.RuneSelf)%N = true.
Proof.
  destruct c as [[] [] [] [] [] [] [] []]; intros H;
    try (vm_compute in H; discriminate); reflexivity.
Qed.

Lemma isUpperHex_ascii (c : ascii) :
  isUpperHex c = true -> (N_of_ascii c <? UTF8.RuneSelf)%N = true.
Proof.
  destruct c as [[] [] [] [] [] [] [] []]; intros H;
    try (vm_compute in H; discriminate); reflexivity.
Qed.

Lemma isASCII_append (a b : string) :
  isASCII (a ++ b) = isASCII a && isASCII b.
Proof. apply all_append. Qed.

Lemma digits_isASCII (s : string) : all isDigit s = true -> isASCII s = true.
Proof. apply all_impl, isDigit_ascii. Qed.

Lemma upperHex_isASCII (s : string) :
  all isUpperHex s = true -> isASCII s = true.
Proof. apply all_impl, isUpperHex_ascii. Qed.

Lemma ShapeV1_isASCII (u : string) : ShapeV1 u -> isASCII u = true.
Proof.
  intros (o & pk & bl & -> & _ & A & [_ Hpk] & [_ Hbl]).
  rewrite !isASCII_append, (digits_isASCII o A), (upperHex_isASCII pk Hpk),
    (digits_isASCII bl Hbl).
  reflexivity.
Qed.

Lemma ShapeV2_isASCII (u : string) : ShapeV2 u -> isASCII u = true.
Proof.
  intros (k & y & mo & d & h & mi & id & -> & [_ Hk] & [_ Hy] & [_ Hmo]
          & [_ Hd] & [_ Hh] & [_ Hmi] & [_ Hid]).
  rewrite !isASCII_append, (digits_isASCII k Hk), (digits_isASCII y Hy),
    (digits_isASCII mo Hmo), (digits_isASCII d Hd), (digits_isASCII h Hh),
    (digits_isASCII mi Hmi), (upperHex_isASCII id Hid).
  reflexivity.
Qed.

(** A name is accepted when it spells, in whatever letter case, a
    string of the format's syntax. *)






End ClassifierFacts.

Module ScanFacts.
Import ClassifierFacts.

Ltac run :=
cbn [filesV1 filesV2 dirsV1 dirsV2 finishV1 finishV2 resumeV1 resumeV2
     getOfflineBindingListV1 getOfflineBindingListV2 openKeystore
     bind ret poll emit CPrint ReadHeaderV1 ReadHeaderV2 ReadDir
     LoadKeystore Stat WriteFile negb andb orb fst snd].

Section Boundary.
Variable env : Env.
Variable st : RunState.
Variables (dbDir fileName : string) (rest : list string).
Variable plots : list BindingPlot.

Lemma filesV1_cancel (all : bool) :
  interruptCh env (polls st) = true ->
  filesV1 env all dbDir (fileName :: rest) plots st
  = (Return ([], None), logged cancelWarning (polled st)).
Proof. intros I. run. rewrite I. reflexivity. Qed.


Lemma filesV1_corrupt (all : bool) (e : error) :
  interruptCh env (polls st) = false ->
  nameMatchesV1 fileName = true ->
  NewMassDBInfoV1FromFile env (filepath_Join env dbDir fileName) = fail e ->
  filesV1 env all dbDir (fileName :: rest) plots st
  = filesV1 env all dbDir rest plots
      (logged (EvLog WARN "fail to read native massdb info")
              (afterHeader (filepath_Join env dbDir fileName) st)).
Proof.
  intros I N P. run. rewrite I, skipName_V1, N. run.
  rewrite P. reflexivity.
Qed.

Lemma filesV1_unplotted (info : MassDBInfoV1) :
  interruptCh env (polls st) = false ->
  nameMatchesV1 fileName = true ->
  NewMassDBInfoV1FromFile env (filepath_Join env dbDir fileName) = ok info ->
  Plotted info = false ->
  filesV1 env false dbDir (fileName :: rest) plots st
  = filesV1 env false dbDir rest plots (afterHeader (filepath_Join env dbDir fileName) st).
Proof.
  intros I N P U. run. rewrite I, skipName_V1, N. run.
  rewrite P, U. reflexivity.
Qed.

Lemma filesV1_underivable (all : bool) (info : MassDBInfoV1) (e : error) :
  interruptCh env (polls st) = false ->
  nameMatchesV1 fileName = true ->
  NewMassDBInfoV1FromFile env (filepath_Join env dbDir fileName) = ok info ->
  Plotted info || all = true ->
  GetMassDBBindingTarget env (PublicKey info) (BitLength info) = fail e ->
  filesV1 env all dbDir (fileName :: rest) plots st
  = (Return ([], Some e), afterHeader (filepath_Join env dbDir fileName) st).
Proof.
  intros I N P U D. run. rewrite I, skipName_V1, N. run.
  rewrite P.
  replace (negb (Plotted info) && negb all) with false
    by (destruct (Plotted info), all; simpl in *; congruence).
  rewrite D. reflexivity.
Qed.

Lemma filesV1_include (all : bool) (info : MassDBInfoV1) (target : string) :
  interruptCh env (polls st) = false ->
  nameMatchesV1 fileName = true ->
  NewMassDBInfoV1FromFile env (filepath_Join env dbDir fileName) = ok info ->
  Plotted info || all = true ->
  GetMassDBBindingTarget env (PublicKey info) (BitLength info) = ok target ->
  filesV1 env all dbDir (fileName :: rest) plots st
  = filesV1 env all dbDir rest (plots ++ [plotV1 target info])
      (afterHeader (filepath_Join env dbDir fileName) st).
Proof.
  intros I N P U D. run. rewrite I, skipName_V1, N. run.
  rewrite P.
  replace (negb (Plotted info) && negb all) with false
    by (destruct (Plotted info), all; simpl in *; congruence).
  rewrite D. reflexivity.
Qed.

End Boundary.

Section BoundaryV2.
Variable env : Env.
Variable st : RunState.
Variable keystore : option Keystore.
Variables (dbDir fileName : string) (rest : list string).
Variable plots : list BindingPlot.

Lemma filesV2_cancel :
  interruptCh env (polls st) = true ->
  filesV2 env keystore dbDir (fileName :: rest) plots st
  = (Return ([], None), logged cancelWarning (polled st)).
Proof. intros I. run. rewrite I. reflexivity. Qed.


Lemma filesV2_corrupt (e : error) :
  interruptCh env (polls st) = false ->
  nameMatchesV2 fileName = true ->
  NewMassDBInfoV2FromFile env (filepath_Join env dbDir fileName) = fail e ->
  filesV2 env keystore dbDir (fileName :: rest) plots st
  = filesV2 env keystore dbDir rest plots
      (logged (EvLog WARN "fail to read chia plot info")
              (afterHeader (filepath_Join env dbDir fileName) st)).
Proof.
  intros I N P. run. rewrite I, skipName_V2, N. run.
  rewrite P. reflexivity.
Qed.

Lemma filesV2_unowned (info : MassDBInfoV2) :
  interruptCh env (polls st) = false ->
  nameMatchesV2 fileName = true ->
  NewMassDBInfoV2FromFile env (filepath_Join env dbDir fileName) = ok info ->
  ownablePlot keystore info = false ->
  filesV2 env keystore dbDir (fileName :: rest) plots st
  = filesV2 env keystore dbDir rest plots (afterHeader (filepath_Join env dbDir fileName) st).
Proof.
  intros I N P U. run. rewrite I, skipName_V2, N. run.
  rewrite P, U. reflexivity.
Qed.

Lemma filesV2_underivable (info : MassDBInfoV2) (e : error) :
  interruptCh env (polls st) = false ->
  nameMatchesV2 fileName = true ->
  NewMassDBInfoV2FromFile env (filepath_Join env dbDir fileName) = ok info ->
  ownablePlot keystore info = true ->
  GetChiaPlotBindingTarget env (PlotID info) (K info) = fail e ->
  filesV2 env keystore dbDir (fileName :: rest) plots st
  = (Return ([], Some e), afterHeader (filepath_Join env dbDir fileName) st).
Proof.
  intros I N P U D. run. rewrite I, skipName_V2, N. run.
  rewrite P, U, D. reflexivity.
Qed.

Lemma filesV2_include (info : MassDBInfoV2) (target : string) :
  interruptCh env (polls st) = false ->
  nameMatchesV2 fileName = true ->
  NewMassDBInfoV2FromFile env (filepath_Join env dbDir fileName) = ok info ->
  ownablePlot keystore info = true ->
  GetChiaPlotBindingTarget env (PlotID info) (K info) = ok target ->
  filesV2 env keystore dbDir (fileName :: rest) plots st
  = filesV2 env keystore dbDir rest (plots ++ [plotV2 target info])
      (afterHeader (filepath_Join env dbDir fileName) st).
Proof.
  intros I N P U D. run. rewrite I, skipName_V2, N. run.
  rewrite P, U, D. reflexivity.
Qed.

End BoundaryV2.

(** Equations of the loops over directories. *)
Lemma scanV1_nil (env : Env) (all : bool) (plots : list BindingPlot)
  (st : RunState) :
scanV1 env all [] plots st
= ((plots, None),
   leaveDir "loaded native MassDB files from all directories" st).
Proof. reflexivity. Qed.

Lemma resumeV1_eq (env : Env) (all : bool) (dbDir : string)
  (files rest : list string) (plots : list BindingPlot) (st : RunState) :
resumeV1 env all dbDir files rest plots st
= match filesV1 env all dbDir files plots st with
  | (Return res, st') => (res, st')
  | (Next plots', st') =>
      scanV1 env all rest plots'
        (leaveDir "loaded native MassDB files from directory" st')
  end.
Proof.
unfold resumeV1, bind.
destruct (filesV1 env all dbDir files plots st) as [[?|?] ?]; reflexivity.
Qed.

Lemma scanV1_cons (env : Env) (all : bool) (dbDir : string)
  (rest : list string) (plots : list BindingPlot) (st : RunState) :
scanV1 env all (dbDir :: rest) plots st
= match ioutil_ReadDir env dbDir with
  | fail err => (([], Some err), logged (EvReadDir dbDir) st)
  | ok files =>
      resumeV1 env all dbDir files rest plots
        (enterDir "searching for native MassDB files" dbDir st)
  end.
Proof.
unfold scanV1, resumeV1. cbn [dirsV1].
unfold ReadDir, CPrint, emit, ret, bind, enterDir.
destruct (ioutil_ReadDir env dbDir) as [files|e]; [|reflexivity].
destruct (filesV1 env all dbDir files plots _) as [[?|?] ?]; reflexivity.
Qed.

Lemma scanV2_nil (env : Env) (keystore : option Keystore)
  (plots : list BindingPlot) (st : RunState) :
scanV2 env keystore [] plots st
= ((plots, None),
   leaveDir "loaded chia plot files from all directories" st).
Proof. reflexivity. Qed.

Lemma resumeV2_eq (env : Env) (keystore : option Keystore) (dbDir : string)
  (files rest : list string) (plots : list BindingPlot) (st : RunState) :
resumeV2 env keystore dbDir files rest plots st
= match filesV2 env keystore dbDir files plots st with
  | (Return res, st') => (res, st')
  | (Next plots', st') =>
      scanV2 env keystore rest plots'
        (leaveDir "loaded chia plot files from directory" st')
  end.
Proof.
unfold resumeV2, bind.
destruct (filesV2 env keystore dbDir files plots st) as [[?|?] ?];
  reflexivity.
Qed.

Lemma scanV2_cons (env : Env) (keystore : option Keystore) (dbDir : string)
  (rest : list string) (plots : list BindingPlot) (st : RunState) :
scanV2 env keystore (dbDir :: rest) plots st
= match ioutil_ReadDir env dbDir with
  | fail err => (([], Some err), logged (EvReadDir dbDir) st)
  | ok files =>
      resumeV2 env keystore dbDir files rest plots
        (enterDir "searching for chia plot files" dbDir st)
  end.
Proof.
unfold scanV2, resumeV2. cbn [dirsV2].
unfold ReadDir, CPrint, emit, ret, bind, enterDir.
destruct (ioutil_ReadDir env dbDir) as [files|e]; [|reflexivity].
destruct (filesV2 env keystore dbDir files plots _) as [[?|?] ?];
  reflexivity.
Qed.

(** The loops over a list split in two: what a run does up to a file
  boundary, then [resumeV1] or [resumeV2] from there. *)
Lemma filesV1_app (env : Env) (all : bool) (dbDir : string)
  (before files : list string) :
forall plots st,
  filesV1 env all dbDir (before ++ files) plots st
  = match filesV1 env all dbDir before plots st with
    | (Next plots', st') => filesV1 env all dbDir files plots' st'
    | (Return res, st') => (Return res, st')
    end.
Proof.
induction before as [|f before IH]; intros plots st; [reflexivity|].
cbn [app]. run.
destruct (interruptCh env (polls st)); [reflexivity|].
destruct (skipName suffixV1 regStrV1 f); [apply IH|]. run.
destruct (NewMassDBInfoV1FromFile env _) as [info|e]; [|apply IH].
destruct (negb (Plotted info) && negb all); [apply IH|].
destruct (GetMassDBBindingTarget env _ _); [apply IH | reflexivity].
Qed.

Lemma filesV2_app (env : Env) (keystore : option Keystore) (dbDir : string)
  (before files : list string) :
forall plots st,
  filesV2 env keystore dbDir (before ++ files) plots st
  = match filesV2 env keystore dbDir before plots st with
    | (Next plots', st') => filesV2 env keystore dbDir files plots' st'
    | (Return res, st') => (Return res, st')
    end.
Proof.
induction before as [|f before IH]; intros plots st; [reflexivity|].
cbn [app]. run.
destruct (interruptCh env (polls st)); [reflexivity|].
destruct (skipName suffixV2 regStrV2 f); [apply IH|]. run.
destruct (NewMassDBInfoV2FromFile env _) as [info|e]; [|apply IH].
destruct (ownablePlot keystore info); run; [|apply IH].
destruct (GetChiaPlotBindingTarget env _ _); [apply IH | reflexivity].
Qed.

Lemma resumeV1_app (env : Env) (all : bool) (dbDir : string)
  (before files rest : list string) (plots plots' : list BindingPlot)
  (st st' : RunState) :
filesV1 env all dbDir before plots st = (Next plots', st') ->
resumeV1 env all dbDir (before ++ files) rest plots st
= resumeV1 env all dbDir files rest plots' st'.
Proof.
intros E. rewrite !resumeV1_eq, filesV1_app, E. reflexivity.
Qed.

Lemma resumeV2_app (env : Env) (keystore : option Keystore) (dbDir : string)
  (before files rest : list string) (plots plots' : list BindingPlot)
  (st st' : RunState) :
filesV2 env keystore dbDir before plots st = (Next plots', st') ->
resumeV2 env keystore dbDir (before ++ files) rest plots st
= resumeV2 env keystore dbDir files rest plots' st'.
Proof.
intros E. rewrite !resumeV2_eq, filesV2_app, E. reflexivity.
Qed.

Lemma scanV1_app (env : Env) (all : bool) (before more : list string) :
forall plots st plots' st',
  dirsV1 env all before plots st = (Next plots', st') ->
  scanV1 env all (before ++ more) plots st = scanV1 env all more plots' st'.
Proof.
induction before as [|d ds IH]; intros plots st plots' st'.
- intros [= <- <-]. reflexivity.
- cbn [app dirsV1]. rewrite scanV1_cons.
  unfold ReadDir, CPrint, emit, ret, bind.
  destruct (ioutil_ReadDir env d) as [files|e]; [|discriminate].
  rewrite resumeV1_eq. unfold enterDir, leaveDir.
  destruct (filesV1 env all d files plots _) as [[ps|res] st1];
    [|discriminate].
  apply IH.
Qed.

Lemma scanV2_app (env : Env) (keystore : option Keystore)
  (before more : list string) :
forall plots st plots' st',
  dirsV2 env keystore before plots st = (Next plots', st') ->
  scanV2 env keystore (before ++ more) plots st
  = scanV2 env keystore more plots' st'.
Proof.
induction before as [|d ds IH]; intros plots st plots' st'.
- intros [= <- <-]. reflexivity.
- cbn [app dirsV2]. rewrite scanV2_cons.
  unfold ReadDir, CPrint, emit, ret, bind.
  destruct (ioutil_ReadDir env d) as [files|e]; [|discriminate].
  rewrite resumeV2_eq. unfold enterDir, leaveDir.
  destruct (filesV2 env keystore d files plots _) as [[ps|res] st1];
    [|discriminate].
  apply IH.
Qed.

(** Every file boundary of a run is a [resumeV1]: after the directories
  [dirsBefore] and the entries [filesBefore] of [dbDir], the run of
  the whole function is the function taken up again there. *)
Lemma reachV1 (env : Env) (all : bool) (dirsBefore : list string)
  (dbDir : string) (filesBefore files rest : list string)
  (plots1 plots2 : list BindingPlot) (st0 st1 st2 : RunState) :
dirsV1 env all dirsBefore [] st0 = (Next plots1, st1) ->
ioutil_ReadDir env dbDir = ok (filesBefore ++ files)%list ->
filesV1 env all dbDir filesBefore plots1
  (enterDir "searching for native MassDB files" dbDir st1)
= (Next plots2, st2) ->
getOfflineBindingListV1 env (dirsBefore ++ dbDir :: rest) all st0
= resumeV1 env all dbDir files rest plots2 st2.
Proof.
intros D L F. unfold getOfflineBindingListV1.
rewrite (scanV1_app _ _ _ _ _ _ _ _ D), scanV1_cons, L.
apply resumeV1_app, F.
Qed.

Lemma reachV2 (env : Env) (keystore : option Keystore)
  (dirsBefore : list string) (dbDir : string)
  (filesBefore files rest : list string)
  (plots1 plots2 : list BindingPlot) (st0 st1 st2 : RunState) :
dirsV2 env keystore dirsBefore [] st0 = (Next plots1, st1) ->
ioutil_ReadDir env dbDir = ok (filesBefore ++ files)%list ->
filesV2 env keystore dbDir filesBefore plots1
  (enterDir "searching for chia plot files" dbDir st1)
= (Next plots2, st2) ->
scanV2 env keystore (dirsBefore ++ dbDir :: rest) [] st0
= resumeV2 env keystore dbDir files rest plots2 st2.
Proof.
intros D L F.
rewrite (scanV2_app _ _ _ _ _ _ _ _ D), scanV2_cons, L.
apply resumeV2_app, F.
Qed.

End ScanFacts.

(** ** File boundaries of a run *)

Module BoundaryFacts.
Import ScanFacts.

Lemma boundaryV1_resume (env : Env) (all : bool) (dirs : list string)
    (st0 : RunState) (dbDir : string) (files rest : list string)
    (plots : list BindingPlot) (st : RunState) :
  boundaryV1 env all dirs st0 dbDir files rest plots st ->
  getOfflineBindingListV1 env dirs all st0
  = resumeV1 env all dbDir files rest plots st.
Proof.
  intros (dirsBefore & filesBefore & plots1 & st1 & -> & D & L & F).
  exact (reachV1 _ _ _ _ _ _ _ _ _ _ _ _ D L F).
Qed.

Lemma boundaryV2_resume (env : Env) (keystoreFile : string)
    (dirs : list string) (st0 : RunState) (keystore : option Keystore)
    (dbDir : string) (files rest : list string)
    (plots : list BindingPlot) (st : RunState) (all : bool) :
  boundaryV2 env keystoreFile dirs st0 keystore dbDir files rest plots st ->
  getOfflineBindingListV2 env dirs all keystoreFile st0
  = resumeV2 env keystore dbDir files rest plots st.
Proof.
  intros (dirsBefore & filesBefore & plots1 & stk & st1
          & -> & O & D & L & F).
  unfold getOfflineBindingListV2, bind. rewrite O.
  exact (reachV2 _ _ _ _ _ _ _ _ _ _ _ _ D L F).
Qed.

(** One entry further. *)
Lemma boundaryV1_next (env : Env) (all : bool) (dirs : list string)
    (st0 : RunState) (dbDir fileName : string) (files rest : list string)
    (plots plots' : list BindingPlot) (st st' : RunState) :
  boundaryV1 env all dirs st0 dbDir (fileName :: files) rest plots st ->
  filesV1 env all dbDir [fileName] plots st = (Next plots', st') ->
  boundaryV1 env all dirs st0 dbDir files rest plots' st'.
Proof.
  intros (dirsBefore & filesBefore & plots1 & st1 & -> & D & L & F) S.
  exists dirsBefore, (filesBefore ++ [fileName])%list, plots1, st1.
  repeat split; auto.
  - rewrite L, <- List.app_assoc. reflexivity.
  - rewrite filesV1_app, F. exact S.
Qed.

Lemma boundaryV2_next (env : Env) (keystoreFile : string)
    (dirs : list string) (st0 : RunState) (keystore : option Keystore)
    (dbDir fileName : string) (files rest : list string)
    (plots plots' : list BindingPlot) (st st' : RunState) :
  boundaryV2 env keystoreFile dirs st0 keystore dbDir (fileName :: files)
    rest plots st ->
  filesV2 env keystore dbDir [fileName] plots st = (Next plots', st') ->
  boundaryV2 env keystoreFile dirs st0 keystore dbDir files rest plots' st'.
Proof.
  intros (dirsBefore & filesBefore & plots1 & stk & st1
          & -> & O & D & L & F) S.
  exists dirsBefore, (filesBefore ++ [fileName])%list, plots1, stk, st1.
  repeat split; auto.
  - rewrite L, <- List.app_assoc. reflexivity.
  - rewrite filesV2_app, F. exact S.
Qed.

(** The first entry of the first directory is a boundary. *)
Lemma boundaryV1_first (env : Env) (all : bool) (dbDir : string)
    (rest files : list string) (st0 : RunState) :
  ioutil_ReadDir env dbDir = ok files ->
  boundaryV1 env all (dbDir :: rest) st0 dbDir files rest []
    (enterDir "searching for native MassDB files" dbDir st0).
Proof.
  intros L. exists [], [], [], st0. repeat split; auto.
Qed.

Lemma boundaryV2_first (env : Env) (keystoreFile : string) (dbDir : string)
    (rest files : list string) (st0 stk : RunState)
    (keystore : option Keystore) :
  openKeystore env keystoreFile st0 = (ok keystore, stk) ->
  ioutil_ReadDir env dbDir = ok files ->
  boundaryV2 env keystoreFile (dbDir :: rest) st0 keystore dbDir files rest
    [] (enterDir "searching for chia plot files" dbDir stk).
Proof.
  intros O L. exists [], [], [], stk, stk. repeat split; auto.
Qed.

Lemma openKeystore_eq (env : Env) (keystoreFile : string) (st : RunState) :
  openKeystore env keystoreFile st
  = (keystoreOf env keystoreFile,
     if String.eqb keystoreFile "" then st
     else logged (EvLoadKeystore keystoreFile) st).
Proof.
  unfold openKeystore, keystoreOf, LoadKeystore, bind, emit, ret.
  destruct (String.eqb keystoreFile ""); [reflexivity|].
  destruct (NewKeystoreFromFile env keystoreFile); reflexivity.
Qed.

Lemma filesV1_nil (env : Env) (all : bool) (dbDir : string)
    (plots : list BindingPlot) (st : RunState) :
  filesV1 env all dbDir [] plots st = (Next plots, st).
Proof. reflexivity. Qed.

Lemma filesV2_nil (env : Env) (keystore : option Keystore) (dbDir : string)
    (plots : list BindingPlot) (st : RunState) :
  filesV2 env keystore dbDir [] plots st = (Next plots, st).
Proof. reflexivity. Qed.

Lemma scenarioV1 (env : Env) (all : bool) (dbDir corrupt valid : string)
    (info : MassDBInfoV1) (target : string) (st0 : RunState) :
  neverInterrupted env ->
  corruptAndValidV1 env all dbDir corrupt valid info target ->
  fst (getOfflineBindingListV1 env [dbDir] all st0)
  = ([plotV1 target info], None).
Proof.
  intros Q (L & Nc & Nv & (e & Pc) & Pv & El & D).
  unfold getOfflineBindingListV1. rewrite scanV1_cons.
  destruct L as [-> | ->]; rewrite resumeV1_eq.
  - rewrite (filesV1_corrupt _ _ _ _ _ _ _ e) by auto.
    rewrite (filesV1_include _ _ _ _ _ _ _ info target) by auto.
    reflexivity.
  - rewrite (filesV1_include _ _ _ _ _ _ _ info target) by auto.
    rewrite (filesV1_corrupt _ _ _ _ _ _ _ e) by auto.
    reflexivity.
Qed.

Lemma scenarioV2 (env : Env) (all : bool) (keystoreFile : string)
    (keystore : option Keystore) (dbDir corrupt valid : string)
    (info : MassDBInfoV2) (target : string) (st0 : RunState) :
  neverInterrupted env ->
  keystoreOf env keystoreFile = ok keystore ->
  corruptAndValidV2 env keystore dbDir corrupt valid info target ->
  fst (getOfflineBindingListV2 env [dbDir] all keystoreFile st0)
  = ([plotV2 target info], None).
Proof.
  intros Q Ks (L & Nc & Nv & (e & Pc) & Pv & El & D).
  unfold getOfflineBindingListV2, bind. rewrite openKeystore_eq, Ks.
  rewrite scanV2_cons.
  destruct L as [-> | ->]; rewrite resumeV2_eq.
  - rewrite (filesV2_corrupt _ _ _ _ _ _ _ e) by auto.
    rewrite (filesV2_include _ _ _ _ _ _ _ info target) by auto.
    reflexivity.
  - rewrite (filesV2_include _ _ _ _ _ _ _ info target) by auto.
    rewrite (filesV2_corrupt _ _ _ _ _ _ _ e) by auto.
    reflexivity.
Qed.

End BoundaryFacts.

(** ** From the scan to the exit status *)

Module RunFacts.
Import BoundaryFacts.

Lemma getOfflineBindingList_m1 (env : Env) (g : Globals) (st : RunState)
    (dirs : list string) :
  absDirs env (getBindingListFlagDirectories g) [] = ok dirs ->
  getBindingListFlagPlotType g = "m1" ->
  getOfflineBindingList env g st
  = let (res, st') :=
      getOfflineBindingListV1 env dirs (getBindingListFlagListAll g)
        (logged searchingNotice st) in
    finishList (fst res) (snd res) (uint64 (len (fst res))) 0 st'.
Proof.
  intros A T. unfold getOfflineBindingList. rewrite A, T. reflexivity.
Qed.

Lemma getOfflineBindingList_m2 (env : Env) (g : Globals) (st : RunState)
    (dirs : list string) :
  absDirs env (getBindingListFlagDirectories g) [] = ok dirs ->
  getBindingListFlagPlotType g = "m2" ->
  getOfflineBindingList env g st
  = let (res, st') :=
      getOfflineBindingListV2 env dirs (getBindingListFlagListAll g)
        (getBindingListFlagKeystore g) (logged searchingNotice st) in
    finishList (fst res) (snd res) 0 (uint64 (len (fst res))) st'.
Proof.
  intros A T. unfold getOfflineBindingList. rewrite A, T. reflexivity.
Qed.

Lemma main_scan_error (env : Env) (context : Context) (stI stP st : RunState)
    (g : Globals) (l : option BindingList) (e : error) :
  prepare env context stI = (inl g, stP) ->
  getOfflineBindingList env g stP = ((l, Some e), st) ->
  main env context stI
  = (1%Z, logged (EvFatal e)
            (logged (EvLog ERROR "fail to get binding list") st)).
Proof.
  intros P G. unfold main, Action, collect, bind. rewrite P, G.
  destruct l; reflexivity.
Qed.

Lemma main_V1_error (env : Env) (context : Context) (stI : RunState)
    (all : bool) (dirs : list string) (st0 st : RunState)
    (plots : list BindingPlot) (e : error) :
  runsV1 env context stI all dirs st0 ->
  getOfflineBindingListV1 env dirs all st0 = ((plots, Some e), st) ->
  main env context stI = (1%Z, aborted e st).
Proof.
  intros (g & stP & P & A & T & -> & ->) E.
  apply (main_scan_error _ _ _ stP _ g None); [exact P|].
  rewrite (getOfflineBindingList_m1 _ _ _ dirs A T), E. reflexivity.
Qed.

Lemma main_V2_error (env : Env) (context : Context) (stI : RunState)
    (all : bool) (keystoreFile : string) (dirs : list string)
    (st0 st : RunState) (plots : list BindingPlot) (e : error) :
  runsV2 env context stI all keystoreFile dirs st0 ->
  getOfflineBindingListV2 env dirs all keystoreFile st0
  = ((plots, Some e), st) ->
  main env context stI = (1%Z, aborted e st).
Proof.
  intros (g & stP & P & A & T & -> & -> & ->) E.
  apply (main_scan_error _ _ _ stP _ g None); [exact P|].
  rewrite (getOfflineBindingList_m2 _ _ _ dirs A T), E. reflexivity.
Qed.

End RunFacts.

(** ** The checks of the export path *)

Module PrepareFacts.
Import RunFacts.

(** The checks of the export path do no scanning work. *)
Lemma prepare_events (env : Env) (context : Context) (st st' : RunState)
    (r : Globals + option error) :
  prepare env context st = (r, st') ->
  exists evs, events st' = (events st ++ evs)%list
              /\ existsb isScan evs = false.
Proof.
  unfold prepare, Stat, CPrint, emit, ret, bind, logged. 
  destruct (Args context) as [|first more].
  { intros [= _ <-]. eexists. split; reflexivity. }
  destruct (filepath_Abs env first) as [abs|e].
  2:{ intros [= _ <-]. eexists. split; reflexivity. }
  cbn [getBindingListArgFilename getBindingListFlagOverwrite].
  destruct (os_Stat env abs) as [fi|e]; [destruct (IsDir fi)|].
  - intros [= _ <-]. cbn [events]. rewrite <- List.app_assoc.
    eexists. split; reflexivity.
  - cbn [errOf os_IsNotExist negb andb].
    destruct (negb (Bool_overwrite context));
      intros [= _ <-]; cbn [events]; rewrite <- ?List.app_assoc;
      eexists; split; reflexivity.
  - destruct (negb (os_IsNotExist (errOf (fail e)))
              && negb (Bool_overwrite context));
      intros [= _ <-]; cbn [events]; rewrite <- ?List.app_assoc;
      eexists; split; reflexivity.
Qed.

Lemma isListingOrHeader_isScan (evs : list Event) :
  existsb isScan evs = false -> existsb isListingOrHeader evs = false.
Proof.
  induction evs as [|e evs IH]; [reflexivity|]. cbn [existsb].
  intros H. apply orb_false_iff in H as [He Hs].
  rewrite (IH Hs), orb_false_r. destruct e; try reflexivity; discriminate.
Qed.

End PrepareFacts.

(** ** The ownership filter *)

Module OwnerFacts.
Import BoundaryFacts.

Lemma ownablePlot_Some (ks : Keystore) (info : MassDBInfoV2) :
  ownablePlot (Some ks) info = true <->
  holdsPoolKey ks (PoolPublicKey info)
  /\ holdsFarmerKey ks (FarmerPublicKey info).
Proof.
  unfold ownablePlot, holdsPoolKey, holdsFarmerKey.
  destruct (GetPoolPrivateKey ks (PoolPublicKey info)) as [p|e];
    destruct (GetFarmerPrivateKey ks (FarmerPublicKey info)) as [f|e'];
    split; try discriminate; try (intros _; split; eexists; reflexivity);
    try reflexivity.
  - intros [_ [f F]]. discriminate F.
  - intros [[p P] _]. discriminate P.
  - intros [[p P] _]. discriminate P.
Qed.

Lemma boundaryV2_keystore (env : Env) (keystoreFile : string)
    (dirs : list string) (st0 : RunState) (keystore : option Keystore)
    (dbDir : string) (files rest : list string)
    (plots : list BindingPlot) (st : RunState) :
  boundaryV2 env keystoreFile dirs st0 keystore dbDir files rest plots st ->
  keystoreOf env keystoreFile = ok keystore.
Proof.
  intros (? & ? & ? & ? & ? & _ & O & _).
  rewrite openKeystore_eq in O. congruence.
Qed.

Lemma keystoreOf_supplied (env : Env) (keystoreFile : string)
    (keystore : option Keystore) :
  keystoreOf env keystoreFile = ok keystore ->
  (keystoreFile = "" -> keystore = None)
  /\ (keystoreFile <> "" ->
      exists ks, keystore = Some ks
                 /\ NewKeystoreFromFile env keystoreFile = ok ks).
Proof.
  unfold keystoreOf.
  destruct (String.eqb_spec keystoreFile "") as [-> | N].
  - intros [= <-]. split; [reflexivity | congruence].
  - destruct (NewKeystoreFromFile env keystoreFile) as [ks|e];
      [|discriminate].
    intros [= <-]. split; [contradiction | eauto].
Qed.

End OwnerFacts.

(** ** Formats and counts of a binding list *)

Module CountFacts.
Import ScanFacts BoundaryFacts.

Lemma filesV1_types (env : Env) (all : bool) (dbDir : string)
    (files : list string) :
  forall plots st o st',
    allOfType ProofTypeDefault plots ->
    filesV1 env all dbDir files plots st = (o, st') ->
    match o with
    | Next plots' => allOfType ProofTypeDefault plots'
    | Return res => fst res = []
    end.
Proof.
  induction files as [|f files IH]; intros plots st o st' T.
  - intros [= <- _]. exact T.
  - run. destruct (interruptCh env (polls st)).
    { intros [= <- _]. reflexivity. }
    destruct (skipName suffixV1 regStrV1 f); [apply IH, T|]. run.
    destruct (NewMassDBInfoV1FromFile env _) as [info|e]; [|apply IH, T].
    destruct (negb (Plotted info) && negb all); [apply IH, T|].
    destruct (GetMassDBBindingTarget env _ _) as [target|e].
    + apply IH. apply Forall_app. split; [exact T|].
      constructor; [reflexivity | constructor].
    + intros [= <- _]. reflexivity.
Qed.

Lemma filesV2_types (env : Env) (keystore : option Keystore)
    (dbDir : string) (files : list string) :
  forall plots st o st',
    allOfType ProofTypeChia plots ->
    filesV2 env keystore dbDir files plots st = (o, st') ->
    match o with
    | Next plots' => allOfType ProofTypeChia plots'
    | Return res => fst res = []
    end.
Proof.
  induction files as [|f files IH]; intros plots st o st' T.
  - intros [= <- _]. exact T.
  - run. destruct (interruptCh env (polls st)).
    { intros [= <- _]. reflexivity. }
    destruct (skipName suffixV2 regStrV2 f); [apply IH, T|]. run.
    destruct (NewMassDBInfoV2FromFile env _) as [info|e]; [|apply IH, T].
    destruct (ownablePlot keystore info); run; [|apply IH, T].
    destruct (GetChiaPlotBindingTarget env _ _) as [target|e].
    + apply IH. apply Forall_app. split; [exact T|].
      constructor; [reflexivity | constructor].
    + intros [= <- _]. reflexivity.
Qed.

Lemma scanV1_types (env : Env) (all : bool) (dirs : list string) :
  forall plots st,
    allOfType ProofTypeDefault plots ->
    allOfType ProofTypeDefault (fst (fst (scanV1 env all dirs plots st))).
Proof.
  induction dirs as [|d dirs IH]; intros plots st T.
  - rewrite scanV1_nil. exact T.
  - rewrite scanV1_cons.
    destruct (ioutil_ReadDir env d) as [files|e]; [|constructor].
    rewrite resumeV1_eq.
    destruct (filesV1 env all d files plots _) as [[ps|res] st'] eqn:F;
      apply filesV1_types in F; auto.
    cbn [fst] in *. rewrite F. constructor.
Qed.

Lemma scanV2_types (env : Env) (keystore : option Keystore)
    (dirs : list string) :
  forall plots st,
    allOfType ProofTypeChia plots ->
    allOfType ProofTypeChia (fst (fst (scanV2 env keystore dirs plots st))).
Proof.
  induction dirs as [|d dirs IH]; intros plots st T.
  - rewrite scanV2_nil. exact T.
  - rewrite scanV2_cons.
    destruct (ioutil_ReadDir env d) as [files|e]; [|constructor].
    rewrite resumeV2_eq.
    destruct (filesV2 env keystore d files plots _) as [[ps|res] st'] eqn:F;
      apply filesV2_types in F; auto.
    cbn [fst] in *. rewrite F. constructor.
Qed.

Lemma getOfflineBindingListV2_types (env : Env) (dirs : list string)
    (all : bool) (keystoreFile : string) (st : RunState) :
  allOfType ProofTypeChia
    (fst (fst (getOfflineBindingListV2 env dirs all keystoreFile st))).
Proof.
  unfold getOfflineBindingListV2, bind. rewrite openKeystore_eq.
  destruct (keystoreOf env keystoreFile) as [keystore|e]; [|constructor].
  apply scanV2_types. constructor.
Qed.

Lemma allOfType_noCross (t : ProofType) (plots : list BindingPlot) :
  allOfType t plots -> noCrossFormatDuplicates plots.
Proof.
  intros T p q Hp Hq _. unfold allOfType in T. rewrite Forall_forall in T.
  rewrite (T p Hp), (T q Hq). reflexivity.
Qed.

(** What [getOfflineBindingList] builds when it returns a list. *)
Lemma getOfflineBindingList_list (env : Env) (g : Globals)
    (st st' : RunState) (raw : BindingList) (err : option error) :
  getOfflineBindingList env g st = ((Some raw, err), st') ->
  exists t,
    allOfType t (Plots raw)
    /\ TotalCount raw = uint64 (DefaultCount raw + ChiaCount raw)
    /\ ((DefaultCount raw = uint64 (len (Plots raw)) /\ ChiaCount raw = 0%Z)
        \/ (DefaultCount raw = 0%Z
            /\ ChiaCount raw = uint64 (len (Plots raw)))).
Proof.
  unfold getOfflineBindingList.
  destruct (absDirs env _ []) as [dirs|e]; [|discriminate].
  unfold bind, CPrint, emit, ret.
  destruct (String.eqb (getBindingListFlagPlotType g) "m1").
  - pose proof (scanV1_types env (getBindingListFlagListAll g) dirs []
                  (logged searchingNotice st) (Forall_nil _)) as T.
    fold (getOfflineBindingListV1 env dirs (getBindingListFlagListAll g)
            (logged searchingNotice st)) in T.
    unfold searchingNotice in T.
    destruct (getOfflineBindingListV1 env dirs _ _) as [[ps er] s1].
    cbn [fst snd] in *. unfold finishList, bind, CPrint, emit, ret.
    destruct er; [discriminate|]. intros [= <- _ _].
    exists ProofTypeDefault. cbn. auto.
  - destruct (String.eqb (getBindingListFlagPlotType g) "m2");
      [|discriminate].
    pose proof (getOfflineBindingListV2_types env dirs
                  (getBindingListFlagListAll g)
                  (getBindingListFlagKeystore g)
                  (logged searchingNotice st)) as T.
    unfold searchingNotice in T.
    destruct (getOfflineBindingListV2 env dirs _ _ _) as [[ps er] s1].
    cbn [fst snd] in *. unfold finishList, bind, CPrint, emit, ret.
    destruct er; [discriminate|]. intros [= <- _ _].
    exists ProofTypeChia. cbn. auto.
Qed.

(** [uint64] of a length is the length. *)
Lemma uint64_small (z : Z) : (0 <= z <= maxInt)%Z -> uint64 z = z.
Proof.
  intros H. unfold uint64, two64. apply Z.mod_small.
  unfold maxInt in H. lia.
Qed.

Lemma len_nonneg {A : Type} (l : list A) : (0 <= len l)%Z.
Proof. unfold len. lia. Qed.

(** Deduplication *)
Lemma dedup_length (plots : list BindingPlot) :
  forall seen, (len (dedup seen plots) <= len plots)%Z.
Proof.
  unfold len. induction plots as [|p plots IH]; intros seen; simpl;
    [lia|].
  destruct (existsb (String.eqb (Target p)) seen); simpl.
  - specialize (IH seen). lia.
  - specialize (IH (Target p :: seen)). lia.
Qed.

Lemma dedup_fresh (plots : list BindingPlot) :
  forall seen,
    NoDup (List.map Target plots) ->
    (forall p, In p plots -> ~ In (Target p) seen) ->
    dedup seen plots = plots.
Proof.
  induction plots as [|p plots IH]; intros seen N F; simpl; [reflexivity|].
  destruct (existsb (String.eqb (Target p)) seen) eqn:E.
  - apply existsb_exists in E as (t & Ht & Et).
    apply String.eqb_eq in Et. subst t.
    exfalso. apply (F p); [left; reflexivity | exact Ht].
  - f_equal. inversion N as [|? ? Hnot Hrest]; subst.
    apply IH; [exact Hrest|].
    intros q Hq [Eq | Hin].
    + apply Hnot. rewrite Eq. apply in_map, Hq.
    + apply (F q); [right; exact Hq | exact Hin].
Qed.

End CountFacts.

(* ================================================================== *)
(** * The claims of the specification *)
(* ================================================================== *)

Import ClassifierFacts ScanFacts BoundaryFacts RunFacts PrepareFacts
       OwnerFacts CountFacts StringFacts.

(** C1 (as amended).  For the binding list a run produces, that is the
    list of [getOfflineBindingList] after [RemoveDuplicate]: the plots
    collected are all of one format, so no two of different formats
    share a target; [TotalCount] is the number of plots of the list;
    [DefaultCount + ChiaCount] is the number of plots collected before
    deduplication, hence at least [TotalCount], and equal to it when no
    two collected plots share a target.  (The lengths are those of Go
    slices, at most [maxInt].) *)
Theorem binding_list_counts
    (env : Env) (g : Globals) (st st' : RunState) (list : BindingList) :
  collect env g st = ((Some list, None), st') ->
  exists raw,
    getOfflineBindingList env g st = ((Some raw, None), st')
    /\ list = RemoveDuplicate raw
    /\ noCrossFormatDuplicates (Plots raw)
    /\ ((len (Plots raw) <= maxInt)%Z ->
        TotalCount list = len (Plots list)
        /\ (DefaultCount list + ChiaCount list)%Z = len (Plots raw)
        /\ (TotalCount list <= DefaultCount list + ChiaCount list)%Z
        /\ (NoDup (List.map Target (Plots raw)) ->
            (DefaultCount list + ChiaCount list)%Z = TotalCount list)).
Proof.
  unfold collect, bind.
  destruct (getOfflineBindingList env g st) as [[[raw|] [e|]] s1] eqn:G;
    unfold CPrint, emit, ret; try discriminate.
  intros [= <- <-]. exists raw. split; [reflexivity|].
  split; [reflexivity|].
  apply getOfflineBindingList_list in G as (t & T & Tot & Counts).
  split; [exact (allOfType_noCross _ _ T)|].
  intros Bound.
  pose proof (len_nonneg (Plots raw)) as P0.
  pose proof (dedup_length (Plots raw) []) as DL.
  pose proof (len_nonneg (dedup [] (Plots raw))) as D0.
  assert (Sum : (DefaultCount raw + ChiaCount raw)%Z = len (Plots raw)).
  { destruct Counts as [[-> ->] | [-> ->]];
      rewrite uint64_small by lia; lia. }
  cbn [RemoveDuplicate TotalCount DefaultCount ChiaCount Plots].
  rewrite (uint64_small (len (dedup [] (Plots raw)))) by lia.
  repeat split; try lia.
  intros N. rewrite dedup_fresh; auto.
Qed.

Lemma binding_list_counts_witness :
  TotalCount (RemoveDuplicate singleList)
  = len (Plots (RemoveDuplicate singleList))
  /\ (DefaultCount (RemoveDuplicate singleList)
      + ChiaCount (RemoveDuplicate singleList))%Z
     = TotalCount (RemoveDuplicate singleList).
Proof.
  destruct (binding_list_counts plottedNative (sampleGlobals [plotsDir])
              initial _ (RemoveDuplicate singleList) eq_refl)
    as (raw & G & E & _ & C).
  pose proof (f_equal (fun x => fst (fst x)) G) as R.
  vm_compute in R. injection R as <-. clear G E.
  destruct C as (T & _ & _ & S).
  - vm_compute. discriminate.
  - split; [exact T | apply S; repeat constructor; intros []].
Defined.

(** C1 as the specification states it does not hold: when the same
    plot is found in two directories, no two plots of different formats
    share a target, yet [DefaultCount + ChiaCount] is 2 and [TotalCount]
    is 1 after deduplication. *)
Lemma duplicate_plot_breaks_counts :
  fst (getOfflineBindingList mirroredNative
         (sampleGlobals [plotsDir; backupDir]) initial)
  = (Some mirroredList, None)
  /\ ~ countsAgree mirroredList.
Proof.
  split; [vm_compute; reflexivity|].
  intros [_ C].
  assert (N : noCrossFormatDuplicates (Plots mirroredList)).
  { apply (allOfType_noCross ProofTypeDefault).
    repeat constructor. }
  specialize (C N). vm_compute in C. discriminate C.
Qed.

(** C2 at an export path that exists as a regular file, without the
    overwrite option: the refusal is logged before any scanning work,
    but the action returns the nil error of [os.Stat], and the process
    exits with status 0. *)
Theorem existing_export_file_exits_zero :
  let context := sampleContext "m1" [plotsDir] "" in
  os_Stat existingExport exportPath = ok {| IsDir := false |}
  /\ Bool_overwrite context = false
  /\ fst (Action existingExport context initial) = None
  /\ exitStatus existingExport context = 0%Z
  /\ eventsOf existingExport context
     = [EvStat exportPath; EvStat exportPath; overwriteRefusal].
Proof. vm_compute. repeat split. Qed.

(** What the overwrite check returns: the error of [os.Stat], which is
    nil when the file exists. *)
Lemma overwrite_check_returns_stat_error
    (env : Env) (context : Context) (first : string) (more : list string)
    (abs : string) (st : RunState) :
  Args context = first :: more ->
  filepath_Abs env first = ok abs ->
  match os_Stat env abs with ok fi => IsDir fi | fail _ => false end
  = false ->
  os_IsNotExist (errOf (os_Stat env abs)) = false ->
  Bool_overwrite context = false ->
  Action env context st
  = (errOf (os_Stat env abs),
     logged overwriteRefusal (logged (EvStat abs) (logged (EvStat abs) st))).
Proof.
  intros A P D X O.
  unfold Action, prepare, Stat, CPrint, emit, ret, bind.
  rewrite A, P. cbn [getBindingListArgFilename getBindingListFlagOverwrite].
  rewrite D, X, O. reflexivity.
Qed.

(** C3.  In a run of either extractor that stands at a file boundary
    with any [plots] collected, if the interrupt channel holds a signal
    at that boundary's poll, the extractor returns the empty list and no
    error; the run ends there, having only logged the cancel warning. *)
Theorem cancellation_returns_empty_list
    (env : Env) (all : bool) (keystoreFile : string)
    (keystore : option Keystore) (dirs : list string) (st0 : RunState)
    (dbDir fileName : string) (files rest : list string)
    (plots : list BindingPlot) (st : RunState) :
  interruptCh env (polls st) = true ->
  (boundaryV1 env all dirs st0 dbDir (fileName :: files) rest plots st ->
   getOfflineBindingListV1 env dirs all st0
   = (([], None), logged cancelWarning (polled st)))
  /\ (boundaryV2 env keystoreFile dirs st0 keystore dbDir
        (fileName :: files) rest plots st ->
      getOfflineBindingListV2 env dirs all keystoreFile st0
      = (([], None), logged cancelWarning (polled st))).
Proof.
  intros I. split; intros B.
  - rewrite (boundaryV1_resume _ _ _ _ _ _ _ _ _ B), resumeV1_eq.
    rewrite filesV1_cancel by exact I. reflexivity.
  - rewrite (boundaryV2_resume _ _ _ _ _ _ _ _ _ _ all B), resumeV2_eq.
    rewrite filesV2_cancel by exact I. reflexivity.
Qed.

Lemma cancellation_returns_empty_list_witness :
  fst (getOfflineBindingListV1 cancelledNative [plotsDir] false initial)
  = ([], None)
  /\ fst (getOfflineBindingListV2 cancelledChia [plotsDir] false "" initial)
     = ([], None).
Proof.
  split.
  - rewrite (proj1 (cancellation_returns_empty_list
               cancelledNative false "" None [plotsDir] initial
               plotsDir massdbName2 [] [] [samplePlotV1]
               (afterFirstFile "searching for native MassDB files"
                               massdbName)
               eq_refl)); [reflexivity|].
    exists [], [massdbName], [], initial. 
    repeat split; vm_compute; reflexivity.
  - rewrite (proj2 (cancellation_returns_empty_list
               cancelledChia false "" None [plotsDir] initial
               plotsDir chiaName2 [] [] [samplePlotV2]
               (afterFirstFile "searching for chia plot files" chiaName)
               eq_refl)); [reflexivity|].
    exists [], [chiaName], [], initial, initial.
    repeat split; vm_compute; reflexivity.
Defined.

(** C4.  In either extractor a file whose header cannot be parsed is
    skipped: the run goes on from the next entry with the plots it had.
    A directory of one corrupt and one valid file, in either order,
    yields exactly the valid file's plot and no error. *)
Theorem corrupt_file_is_skipped
    (env : Env) (all : bool) (keystoreFile : string)
    (keystore : option Keystore) (st0 : RunState) (dbDir : string) :
  (* the scan goes on from the next entry with the plots it had *)
  (forall dirs fileName files rest plots st e,
     boundaryV1 env all dirs st0 dbDir (fileName :: files) rest plots st ->
     interruptCh env (polls st) = false ->
     nameMatchesV1 fileName = true ->
     NewMassDBInfoV1FromFile env (filepath_Join env dbDir fileName)
     = fail e ->
     getOfflineBindingListV1 env dirs all st0
     = resumeV1 env all dbDir files rest plots
         (logged (EvLog WARN "fail to read native massdb info")
            (afterHeader (filepath_Join env dbDir fileName) st)))
  /\ (forall dirs fileName files rest plots st e,
     boundaryV2 env keystoreFile dirs st0 keystore dbDir
       (fileName :: files) rest plots st ->
     interruptCh env (polls st) = false ->
     nameMatchesV2 fileName = true ->
     NewMassDBInfoV2FromFile env (filepath_Join env dbDir fileName)
     = fail e ->
     getOfflineBindingListV2 env dirs all keystoreFile st0
     = resumeV2 env keystore dbDir files rest plots
         (logged (EvLog WARN "fail to read chia plot info")
            (afterHeader (filepath_Join env dbDir fileName) st)))
  (* one corrupt and one valid file: exactly the valid file's plot *)
  /\ (forall corrupt valid info target,
     neverInterrupted env ->
     corruptAndValidV1 env all dbDir corrupt valid info target ->
     fst (getOfflineBindingListV1 env [dbDir] all st0)
     = ([plotV1 target info], None))
  /\ (forall corrupt valid info target,
     neverInterrupted env ->
     keystoreOf env keystoreFile = ok keystore ->
     corruptAndValidV2 env keystore dbDir corrupt valid info target ->
     fst (getOfflineBindingListV2 env [dbDir] all keystoreFile st0)
     = ([plotV2 target info], None)).
Proof.
  repeat split.
  - intros dirs fileName files rest plots st e B I N P.
    rewrite (boundaryV1_resume _ _ _ _ _ _ _ _ _ B), !resumeV1_eq.
    rewrite (filesV1_corrupt _ _ _ _ _ _ _ e) by auto. reflexivity.
  - intros dirs fileName files rest plots st e B I N P.
    rewrite (boundaryV2_resume _ _ _ _ _ _ _ _ _ _ all B), !resumeV2_eq.
    rewrite (filesV2_corrupt _ _ _ _ _ _ _ e) by auto. reflexivity.
  - intros. eapply scenarioV1; eauto.
  - intros. eapply scenarioV2; eauto.
Qed.


Lemma corrupt_file_is_skipped_witness :
  fst (getOfflineBindingListV1 quietNative [plotsDir] false initial)
  = ([samplePlotV1], None)
  /\ fst (getOfflineBindingListV2 quietChia [plotsDir] false
            keystoreFileName initial)
     = ([samplePlotV2], None).
Proof.
  destruct (corrupt_file_is_skipped quietNative false "" None initial
              plotsDir) as (_ & _ & V1 & _).
  destruct (corrupt_file_is_skipped quietChia false keystoreFileName
              (Some sampleKeystore) initial plotsDir) as (_ & _ & _ & V2).
  split.
  - apply (V1 massdbName2 massdbName sampleInfoV1).
    + intros n. reflexivity.
    + repeat split; try (vm_compute; reflexivity).
      * left. reflexivity.
      * eexists. vm_compute. reflexivity.
  - apply (V2 chiaName2 chiaName sampleInfoV2).
    + intros n. reflexivity.
    + reflexivity.
    + repeat split; try (vm_compute; reflexivity).
      * left. reflexivity.
      * eexists. vm_compute. reflexivity.
Defined.

(** C5.  In either extractor, when the derivation of the binding target
    fails for a file that got as far as the derivation, the extractor
    returns that error and no plots at once, whatever was collected and
    whatever was still to scan; the run of [main] that called it ends
    with that error and exit status 1. *)
Theorem derivation_failure_aborts_run
    (env : Env) (all : bool) (keystoreFile : string)
    (keystore : option Keystore) (dirs : list string) (st0 : RunState)
    (dbDir fileName : string) (files rest : list string)
    (plots : list BindingPlot) (st : RunState) (e : error) :
  interruptCh env (polls st) = false ->
  (forall info,
     boundaryV1 env all dirs st0 dbDir (fileName :: files) rest plots st ->
     nameMatchesV1 fileName = true ->
     NewMassDBInfoV1FromFile env (filepath_Join env dbDir fileName)
     = ok info ->
     Plotted info || all = true ->
     GetMassDBBindingTarget env (PublicKey info) (BitLength info) = fail e ->
     getOfflineBindingListV1 env dirs all st0
     = (([], Some e), afterHeader (filepath_Join env dbDir fileName) st)
     /\ forall context stI,
          runsV1 env context stI all dirs st0 ->
          main env context stI
          = (1%Z,
             aborted e (afterHeader (filepath_Join env dbDir fileName) st)))
  /\ (forall info,
     boundaryV2 env keystoreFile dirs st0 keystore dbDir
       (fileName :: files) rest plots st ->
     nameMatchesV2 fileName = true ->
     NewMassDBInfoV2FromFile env (filepath_Join env dbDir fileName)
     = ok info ->
     ownablePlot keystore info = true ->
     GetChiaPlotBindingTarget env (PlotID info) (K info) = fail e ->
     getOfflineBindingListV2 env dirs all keystoreFile st0
     = (([], Some e), afterHeader (filepath_Join env dbDir fileName) st)
     /\ forall context stI,
          runsV2 env context stI all keystoreFile dirs st0 ->
          main env context stI
          = (1%Z,
             aborted e (afterHeader (filepath_Join env dbDir fileName) st))).
Proof.
  intros I. split; intros info B N P El D.
  - assert (E : getOfflineBindingListV1 env dirs all st0
              = (([], Some e),
                 afterHeader (filepath_Join env dbDir fileName) st)).
    { rewrite (boundaryV1_resume _ _ _ _ _ _ _ _ _ B), resumeV1_eq.
      rewrite (filesV1_underivable _ _ _ _ _ _ _ info e) by auto.
      reflexivity. }
    split; [exact E|]. intros context stI R.
    exact (main_V1_error _ _ _ _ _ _ _ _ _ R E).
  - assert (E : getOfflineBindingListV2 env dirs all keystoreFile st0
              = (([], Some e),
                 afterHeader (filepath_Join env dbDir fileName) st)).
    { rewrite (boundaryV2_resume _ _ _ _ _ _ _ _ _ _ all B), resumeV2_eq.
      rewrite (filesV2_underivable _ _ _ _ _ _ _ info e) by auto.
      reflexivity. }
    split; [exact E|]. intros context stI R.
    exact (main_V2_error _ _ _ _ _ _ _ _ _ _ R E).
Qed.

Lemma derivation_failure_aborts_run_witness :
  exitStatus underivableNative (sampleContext "m1" [plotsDir] "") = 1%Z
  /\ exitStatus underivableChia (sampleContext "m2" [plotsDir] "") = 1%Z.
Proof.
  pose (e := errorString "invalid public key").
  pose (stP := logged (EvStat exportPath)
                 (logged (EvStat exportPath) initial)).
  pose (st0 := logged searchingNotice stP).
  split; unfold exitStatus.
  - assert (B : boundaryV1 underivableNative false [plotsDir] st0 plotsDir
                  [massdbName] [] []
                  (enterDir "searching for native MassDB files"
                            plotsDir st0)).
    { exists [], [], [], st0. repeat split; vm_compute; reflexivity. }
    assert (R : runsV1 underivableNative (sampleContext "m1" [plotsDir] "")
                  initial false [plotsDir] st0).
    { eexists _, stP. repeat split; vm_compute; reflexivity. }
    rewrite (proj2 (proj1 (derivation_failure_aborts_run underivableNative
               false "" None [plotsDir] st0 plotsDir massdbName [] [] []
               (enterDir "searching for native MassDB files" plotsDir st0)
               e eq_refl)
               sampleInfoV1 B eq_refl eq_refl eq_refl eq_refl) _ _ R).
    reflexivity.
  - assert (B : boundaryV2 underivableChia "" [plotsDir] st0 None plotsDir
                  [chiaName] [] []
                  (enterDir "searching for chia plot files" plotsDir st0)).
    { exists [], [], [], st0, st0. repeat split; vm_compute; reflexivity. }
    assert (R : runsV2 underivableChia (sampleContext "m2" [plotsDir] "")
                  initial false "" [plotsDir] st0).
    { eexists _, stP. repeat split; vm_compute; reflexivity. }
    rewrite (proj2 (proj2 (derivation_failure_aborts_run underivableChia
               false "" None [plotsDir] st0 plotsDir chiaName [] [] []
               (enterDir "searching for chia plot files" plotsDir st0)
               e eq_refl)
               sampleInfoV2 B eq_refl eq_refl eq_refl eq_refl) _ _ R).
    reflexivity.
Defined.

(** C6.  In a format-B scan a file with a matching name and a readable
    header (and a derivable target) contributes its plot exactly when
    [ownablePlot] holds; without a keystore file that is always, and
    with one it is exactly when the keystore holds both the pool private
    key of the header's pool public key and the farmer private key of
    its farmer public key.  The "list all" flag plays no part. *)
Theorem ownership_decides_inclusion
    (env : Env) (all : bool) (keystoreFile : string)
    (keystore : option Keystore) (dirs : list string) (st0 : RunState)
    (dbDir fileName : string) (files rest : list string)
    (plots : list BindingPlot) (st : RunState)
    (info : MassDBInfoV2) (target : string) :
  boundaryV2 env keystoreFile dirs st0 keystore dbDir (fileName :: files)
    rest plots st ->
  interruptCh env (polls st) = false ->
  nameMatchesV2 fileName = true ->
  NewMassDBInfoV2FromFile env (filepath_Join env dbDir fileName) = ok info ->
  GetChiaPlotBindingTarget env (PlotID info) (K info) = ok target ->
  (* the file's plot is appended exactly when the plot is ownable *)
  getOfflineBindingListV2 env dirs all keystoreFile st0
  = resumeV2 env keystore dbDir files rest
      (if ownablePlot keystore info
       then plots ++ [plotV2 target info] else plots)
      (afterHeader (filepath_Join env dbDir fileName) st)
  (* without a keystore every plot is ownable *)
  /\ (keystoreFile = "" -> ownablePlot keystore info = true)
  (* with one, a plot is ownable iff both private keys are held *)
  /\ (keystoreFile <> "" ->
      exists ks,
        NewKeystoreFromFile env keystoreFile = ok ks
        /\ keystore = Some ks
        /\ (ownablePlot keystore info = true <->
            holdsPoolKey ks (PoolPublicKey info)
            /\ holdsFarmerKey ks (FarmerPublicKey info))).
Proof.
  intros B I N P D.
  pose proof (keystoreOf_supplied _ _ _ (boundaryV2_keystore _ _ _ _ _ _ _ _ _ _ B))
    as [Hnone Hsome].
  split; [|split].
  - rewrite (boundaryV2_resume _ _ _ _ _ _ _ _ _ _ all B), !resumeV2_eq.
    destruct (ownablePlot keystore info) eqn:O.
    + rewrite (filesV2_include _ _ _ _ _ _ _ info target) by auto.
      reflexivity.
    + rewrite (filesV2_unowned _ _ _ _ _ _ _ info) by auto.
      reflexivity.
  - intros E. rewrite (Hnone E). reflexivity.
  - intros E. destruct (Hsome E) as (ks & -> & L).
    exists ks. split; [exact L|]. split; [reflexivity|].
    apply ownablePlot_Some.
Qed.

Lemma ownership_decides_inclusion_witness :
  fst (getOfflineBindingListV2 ownedChia [plotsDir] false keystoreFileName
         initial)
  = ([samplePlotV2], None)
  /\ fst (getOfflineBindingListV2 strangerChia [plotsDir] true
            keystoreFileName initial)
     = ([], None).
Proof.
  pose (stk := logged (EvLoadKeystore keystoreFileName) initial).
  pose (st := enterDir "searching for chia plot files" plotsDir stk).
  split.
  - assert (B : boundaryV2 ownedChia keystoreFileName [plotsDir] initial
                  (Some sampleKeystore) plotsDir [chiaName] [] [] st).
    { exists [], [], [], stk, stk. repeat split; vm_compute; reflexivity. }
    rewrite (proj1 (ownership_decides_inclusion ownedChia false
               keystoreFileName (Some sampleKeystore) [plotsDir] initial
               plotsDir chiaName [] [] [] st sampleInfoV2 "target-of-0123"
               B eq_refl eq_refl eq_refl eq_refl)).
    reflexivity.
  - assert (B : boundaryV2 strangerChia keystoreFileName [plotsDir] initial
                  (Some strangerKeystore) plotsDir [chiaName] [] [] st).
    { exists [], [], [], stk, stk. repeat split; vm_compute; reflexivity. }
    rewrite (proj1 (ownership_decides_inclusion strangerChia true
               keystoreFileName (Some strangerKeystore) [plotsDir] initial
               plotsDir chiaName [] [] [] st sampleInfoV2 "target-of-0123"
               B eq_refl eq_refl eq_refl eq_refl)).
    reflexivity.
Defined.

(** C8.  In a format-A scan a file whose header says it is not plotted
    leaves no plot unless "list all" was requested; a plotted file, and
    any file under "list all", goes on to the derivation and gets its
    plot appended. *)
Theorem unplotted_file_needs_list_all
    (env : Env) (all : bool) (dirs : list string) (st0 : RunState)
    (dbDir fileName : string) (files rest : list string)
    (plots : list BindingPlot) (st : RunState) (info : MassDBInfoV1) :
  boundaryV1 env all dirs st0 dbDir (fileName :: files) rest plots st ->
  interruptCh env (polls st) = false ->
  nameMatchesV1 fileName = true ->
  NewMassDBInfoV1FromFile env (filepath_Join env dbDir fileName) = ok info ->
  (* not plotted and no "list all": the file leaves no plot *)
  (Plotted info = false -> all = false ->
   getOfflineBindingListV1 env dirs all st0
   = resumeV1 env all dbDir files rest plots
       (afterHeader (filepath_Join env dbDir fileName) st))
  (* plotted, or "list all": the file goes on to the derivation *)
  /\ (Plotted info = true \/ all = true ->
      forall target,
        GetMassDBBindingTarget env (PublicKey info) (BitLength info)
        = ok target ->
        getOfflineBindingListV1 env dirs all st0
        = resumeV1 env all dbDir files rest (plots ++ [plotV1 target info])
            (afterHeader (filepath_Join env dbDir fileName) st)).
Proof.
  intros B I N P. split.
  - intros U ->.
    rewrite (boundaryV1_resume _ _ _ _ _ _ _ _ _ B), !resumeV1_eq.
    rewrite (filesV1_unplotted _ _ _ _ _ _ info) by auto. reflexivity.
  - intros El target D.
    rewrite (boundaryV1_resume _ _ _ _ _ _ _ _ _ B), !resumeV1_eq.
    rewrite (filesV1_include _ _ _ _ _ _ _ info target); auto.
    destruct El as [-> | ->]; [reflexivity | apply orb_true_r].
Qed.

Lemma unplotted_file_needs_list_all_witness :
  fst (getOfflineBindingListV1 unplottedNative [plotsDir] false initial)
  = ([], None)
  /\ fst (getOfflineBindingListV1 unplottedNative [plotsDir] true initial)
     = ([plotV1 "target-of-02AABB" unplottedInfo], None)
  /\ fst (getOfflineBindingListV1 plottedNative [plotsDir] false initial)
     = ([samplePlotV1], None).
Proof.
  pose (st := enterDir "searching for native MassDB files" plotsDir initial).
  assert (B : forall env all,
             ioutil_ReadDir env plotsDir = ok [massdbName] ->
             boundaryV1 env all [plotsDir] initial plotsDir [massdbName]
               [] [] st).
  { intros env all L. exists [], [], [], initial. repeat split. exact L. }
  split; [|split].
  - rewrite (proj1 (unplotted_file_needs_list_all unplottedNative false
               [plotsDir] initial plotsDir massdbName [] [] [] st
               unplottedInfo (B unplottedNative false eq_refl) eq_refl eq_refl eq_refl)
               eq_refl eq_refl).
    reflexivity.
  - rewrite (proj2 (unplotted_file_needs_list_all unplottedNative true
               [plotsDir] initial plotsDir massdbName [] [] [] st
               unplottedInfo (B unplottedNative true eq_refl) eq_refl eq_refl eq_refl)
               (or_intror eq_refl) "target-of-02AABB" eq_refl).
    reflexivity.
  - rewrite (proj2 (unplotted_file_needs_list_all plottedNative false
               [plotsDir] initial plotsDir massdbName [] [] [] st
               sampleInfoV1 (B plottedNative false eq_refl) eq_refl eq_refl eq_refl)
               (or_introl eq_refl) "target-of-02AABB" eq_refl).
    reflexivity.
Defined.



(** Deviations from the two patterns, and names that keep to them. *)
Example classifier_samples :
  nameMatchesV1 massdbName = true
  /\ nameMatchesV1 massdbName2 = true
  /\ nameMatchesV2 chiaName = true
  /\ nameMatchesV2 (ToUpper chiaName) = true
  (* extra characters *)
  /\ nameMatchesV1 (massdbName ++ ".tmp") = false
  /\ nameMatchesV1 ("x" ++ massdbName) = false
  /\ nameMatchesV2 (chiaName ++ ".2.tmp") = false
  (* wrong hex length *)
  /\ nameMatchesV1 "1_02AABB_32.MASSDB" = false
  /\ nameMatchesV2 "plot-k32-2021-06-01-12-30-0123.plot" = false
  (* wrong segment count *)
  /\ nameMatchesV1
       "02AABBCCDDEEFF00112233445566778899AABBCCDDEEFF00112233445566778899_32.MASSDB"
     = false
  /\ nameMatchesV2
       "plot-k32-2021-06-01-12-0123456789abcdef0123456789abcdef0123456789abcdef0123456789abcdef.plot"
     = false
  (* wrong suffix, and the other format's names *)
  /\ nameMatchesV1
       "1_02AABBCCDDEEFF00112233445566778899AABBCCDDEEFF00112233445566778899_32.MASSDB2"
     = false
  /\ nameMatchesV1 chiaName = false
  /\ nameMatchesV2 massdbName = false
  (* bytes above 0x7F: the long s is a case of S, other letters and
     malformed bytes are of no case *)
  /\ nameMatchesV1 massdbNameLongS = true
  /\ nameMatchesV1 (massdbName ++ longS) = false
  /\ nameMatchesV1 (massdbName2 ++ String "233" "") = false
  /\ nameMatchesV2 (String "195" (String "169" chiaName)) = false.
Proof. vm_compute. repeat split. Qed.

(** C9.  When the export file name resolves to an existing directory,
    the action logs an error and returns nil: nothing is scanned and the
    process exits with status 0. *)
Theorem directory_as_export_file_exits_zero
    (env : Env) (context : Context) (first : string) (more : list string)
    (abs : string) (fi : FileInfo) (st : RunState) :
  Args context = first :: more ->
  filepath_Abs env first = ok abs ->
  os_Stat env abs = ok fi ->
  IsDir fi = true ->
  Action env context st
  = (None, logged directoryRefusal (logged (EvStat abs) st))
  /\ main env context st
     = (0%Z, logged directoryRefusal (logged (EvStat abs) st))
  /\ exitStatus env context = 0%Z
  /\ eventsOf env context = [EvStat abs; directoryRefusal].
Proof.
  intros A P S D.
  assert (E : Action env context st
              = (None, logged directoryRefusal (logged (EvStat abs) st))).
  { unfold Action, prepare, Stat, CPrint, emit, ret, bind.
    rewrite A, P, S, D. reflexivity. }
  assert (F : forall s, main env context s
              = (0%Z, logged directoryRefusal (logged (EvStat abs) s))).
  { intros s. unfold main, Action, prepare, Stat, CPrint, emit, ret, bind.
    rewrite A, P, S, D. reflexivity. }
  split; [exact E|]. split; [apply F|].
  unfold exitStatus, eventsOf. rewrite F. split; reflexivity.
Qed.

Lemma directory_as_export_file_exits_zero_witness :
  exitStatus directoryExport (sampleContext "m1" [plotsDir] "") = 0%Z
  /\ eventsOf directoryExport (sampleContext "m1" [plotsDir] "")
     = [EvStat exportPath; directoryRefusal].
Proof.
  exact (proj2 (proj2 (directory_as_export_file_exits_zero directoryExport
           (sampleContext "m1" [plotsDir] "") exportPath [] exportPath
           {| IsDir := true |} initial eq_refl eq_refl eq_refl eq_refl))).
Defined.

(** C10.  In a format-B run with a keystore file named, when loading
    the keystore fails the extractor returns that error having done
    nothing else, and the run ends with it and exit status 1 without
    having listed a directory or read a header. *)
Theorem keystore_failure_aborts_before_scan
    (env : Env) (all : bool) (keystoreFile : string) (dirs : list string)
    (st0 : RunState) (e : error) :
  keystoreFile <> "" ->
  NewKeystoreFromFile env keystoreFile = fail e ->
  getOfflineBindingListV2 env dirs all keystoreFile st0
  = (([], Some e), logged (EvLoadKeystore keystoreFile) st0)
  /\ (forall context stI,
        runsV2 env context stI all keystoreFile dirs st0 ->
        main env context stI
        = (1%Z, aborted e (logged (EvLoadKeystore keystoreFile) st0)))
  /\ (forall context,
        runsV2 env context initial all keystoreFile dirs st0 ->
        exitStatus env context = 1%Z
        /\ existsb isListingOrHeader (eventsOf env context) = false).
Proof.
  intros N L.
  assert (E : getOfflineBindingListV2 env dirs all keystoreFile st0
              = (([], Some e), logged (EvLoadKeystore keystoreFile) st0)).
  { unfold getOfflineBindingListV2, bind. rewrite openKeystore_eq.
    unfold keystoreOf. rewrite (proj2 (String.eqb_neq _ _) N), L.
    reflexivity. }
  assert (M : forall context stI,
            runsV2 env context stI all keystoreFile dirs st0 ->
            main env context stI
            = (1%Z, aborted e (logged (EvLoadKeystore keystoreFile) st0))).
  { intros context stI R. exact (main_V2_error _ _ _ _ _ _ _ _ _ _ R E). }
  split; [exact E|]. split; [exact M|].
  intros context R. unfold exitStatus, eventsOf. rewrite (M _ _ R).
  split; [reflexivity|].
  destruct R as (g & stP & P & _ & _ & _ & _ & ->).
  apply prepare_events in P as (evs & Ev & NoScan).
  cbn [snd aborted logged events]. rewrite Ev. cbn [initial events app].
  rewrite !existsb_app, (isListingOrHeader_isScan _ NoScan).
  reflexivity.
Qed.

Lemma keystore_failure_aborts_before_scan_witness :
  exitStatus ownedChia (sampleContext "m2" [plotsDir] "/keys/missing.json")
  = 1%Z
  /\ existsb isListingOrHeader
       (eventsOf ownedChia
          (sampleContext "m2" [plotsDir] "/keys/missing.json"))
     = false.
Proof.
  apply (proj2 (proj2 (keystore_failure_aborts_before_scan ownedChia false
           "/keys/missing.json" [plotsDir]
           (logged searchingNotice
              (logged (EvStat exportPath)
                 (logged (EvStat exportPath) initial)))
           (errorString "cannot read keystore")
           ltac:(discriminate) eq_refl))).
  eexists _, _. repeat split; vm_compute; reflexivity.
Defined.

(* ================================================================== *)
(** * Further properties of the code *)
(* ================================================================== *)

Import StringFacts UTF8Facts RegexpFacts.

(** ** File names *)

Module NameFacts.

(** Only a long s or a dotless i makes a name longer than its upper
    case. *)
Lemma caseVariant_plain (s u : string) :
  caseVariant s u -> all notSI u = true -> String.length s = String.length u.
Proof.
  induction 1 as [|c s u C V IH|s u V IH|s u V IH]; cbn [all String.length];
    [reflexivity|..]; rewrite andb_true_iff; intros [N A];
    [f_equal; auto | discriminate N | discriminate N].
Qed.

Lemma isDigit_notSI (c : ascii) : isDigit c = true -> notSI c = true.
Proof.
  destruct c as [[] [] [] [] [] [] [] []]; intros H;
    try (vm_compute in H; discriminate); reflexivity.
Qed.

Lemma isUpperHex_notSI (c : ascii) : isUpperHex c = true -> notSI c = true.
Proof.
  destruct c as [[] [] [] [] [] [] [] []]; intros H;
    try (vm_compute in H; discriminate); reflexivity.
Qed.

Lemma ShapeV2_notSI (u : string) : ShapeV2 u -> all notSI u = true.
Proof.
  intros (k & y & mo & d & h & mi & id & -> & [_ Hk] & [_ Hy] & [_ Hmo]
          & [_ Hd] & [_ Hh] & [_ Hmi] & [_ Hid]).
  rewrite !all_append.
  rewrite (all_impl _ _ k isDigit_notSI Hk), (all_impl _ _ y isDigit_notSI Hy),
    (all_impl _ _ mo isDigit_notSI Hmo), (all_impl _ _ d isDigit_notSI Hd),
    (all_impl _ _ h isDigit_notSI Hh), (all_impl _ _ mi isDigit_notSI Hmi),
    (all_impl _ _ id isUpperHex_notSI Hid).
  reflexivity.
Qed.

Lemma ToUpper_length (name : string) :
  isASCII (ToUpper name) = true ->
  String.length (ToUpper name) <= String.length name
  /\ (all notSI (ToUpper name) = true ->
      String.length name = String.length (ToUpper name)).
Proof.
  intros A.
  assert (V : caseVariant name (ToUpper name))
    by (apply ToUpper_caseVariant; auto).
  split; [apply caseVariant_length, V | apply caseVariant_plain, V].
Qed.

Lemma digits_length (n : nat) (s : string) : digits n s -> String.length s = n.
Proof. intros [L _]. exact L. Qed.

Lemma upperHex_length (n : nat) (s : string) :
  upperHex n s -> String.length s = n.
Proof. intros [L _]. exact L. Qed.

Lemma ShapeV1_head (u : string) :
  ShapeV1 u -> exists c rest, u = String c rest /\ isDigit c = true.
Proof.
  intros (o & pk & bl & -> & N & A & _).
  destruct o as [|c o]; [contradiction|].
  simpl in A. apply andb_true_iff in A as [Hc _].
  exists c. eexists. split; [reflexivity | exact Hc].
Qed.

Lemma ShapeV2_head (u : string) :
  ShapeV2 u -> exists rest, u = String "P" rest.
Proof.
  intros (k & y & mo & d & h & mi & id & -> & _).
  eexists. reflexivity.
Qed.

End NameFacts.
Import NameFacts.

(** X1.  No file name is accepted by both classifiers: a name of the
    native format is rejected by the classifier of the compatible
    format. *)
Theorem formats_are_disjoint (name : string) :
  nameMatchesV1 name = true -> nameMatchesV2 name = false.
Proof.
  intros H1. destruct (nameMatchesV2 name) eqn:H2; [|reflexivity].
  apply nameMatchesV1_shape, ShapeV1_head in H1 as (c & r1 & E1 & D).
  apply nameMatchesV2_shape, ShapeV2_head in H2 as (r2 & E2).
  rewrite E1 in E2. injection E2 as -> _. discriminate D.
Qed.

Lemma formats_are_disjoint_witness :
  nameMatchesV1 massdbName = true /\ nameMatchesV2 massdbName = false.
Proof.
  split; [reflexivity | apply (formats_are_disjoint massdbName eq_refl)].
Defined.

(** X2.  The suffix test of lines 212 and 301 never decides: a name is
    accepted exactly when the pattern matches its upper-cased form,
    since the pattern ends with the suffix. *)
Theorem suffix_test_is_implied (name : string) :
  nameMatchesV1 name = MatchString regStrV1 (ToUpper name)
  /\ nameMatchesV2 name = MatchString regStrV2 (ToUpper name).
Proof.
  unfold nameMatchesV1, nameMatchesV2. rewrite !nameMatches_and. split.
  - destruct (MatchString regStrV1 (ToUpper name)) eqn:M;
      [|apply andb_false_r].
    apply MatchString_V1, ShapeV1_suffix in M. rewrite M. reflexivity.
  - destruct (MatchString regStrV2 (ToUpper name)) eqn:M;
      [|apply andb_false_r].
    apply MatchString_V2, ShapeV2_suffix in M. rewrite M. reflexivity.
Qed.

(** X3.  An accepted native name has at least 78 bytes, and an accepted
    compatible name has exactly 95. *)
Theorem accepted_name_lengths (name : string) :
  (nameMatchesV1 name = true -> 78 <= String.length name)
  /\ (nameMatchesV2 name = true -> String.length name = 95).
Proof.
  split; intros H.
  - apply nameMatchesV1_shape in H.
    destruct (ToUpper_length name (ShapeV1_isASCII _ H)) as [L _].
    destruct H as (o & pk & bl & E & N & _ & Hpk & Hbl).
    apply (f_equal String.length) in E.
    revert E. repeat (rewrite length_append; cbn [String.length]).
    rewrite (upperHex_length _ _ Hpk), (digits_length _ _ Hbl).
    destruct o; [contradiction | cbn [String.length]; lia].
  - apply nameMatchesV2_shape in H.
    destruct (ToUpper_length name (ShapeV2_isASCII _ H)) as [_ L].
    rewrite (L (ShapeV2_notSI _ H)).
    destruct H as (k & y & mo & d & h & mi & id & E
          & Hk & Hy & Hmo & Hd & Hh & Hmi & Hid).
    rewrite E. cbn [append String.length].
    repeat (rewrite length_append; cbn [String.length]).
    rewrite (digits_length _ _ Hk), (digits_length _ _ Hy),
      (digits_length _ _ Hmo), (digits_length _ _ Hd),
      (digits_length _ _ Hh), (digits_length _ _ Hmi),
      (upperHex_length _ _ Hid).
    reflexivity.
Qed.

Lemma accepted_name_lengths_witness :
  78 <= String.length massdbName /\ String.length chiaName = 95.
Proof.
  split.
  - apply (proj1 (accepted_name_lengths massdbName)). reflexivity.
  - apply (proj2 (accepted_name_lengths chiaName)). reflexivity.
Defined.

(** ** What a scan does and returns *)

Module TraceFacts.

(** What one iteration may do at an entry of [dbDir]. *)
Lemma events_logged (e : Event) (st : RunState) :
  events (logged e st) = (events st ++ [e])%list.
Proof. reflexivity. Qed.

Lemma scanEvent_header (env : Env) (matches : string -> bool)
    (keystoreFile : string) (dirs : list string) (dbDir : string)
    (files : list string) (fileName : string) :
  In dbDir dirs -> ioutil_ReadDir env dbDir = ok files ->
  In fileName files -> matches fileName = true ->
  scanEvent env matches keystoreFile dirs
    (EvReadHeader (filepath_Join env dbDir fileName)).
Proof. intros. exists dbDir, files, fileName. auto. Qed.

(** The events of the loop over the entries [todo], a part of the
    listing [files] of [dbDir]. *)
Lemma filesV1_events (env : Env) (all : bool) (dirs : list string)
    (dbDir : string) (files : list string) :
  In dbDir dirs -> ioutil_ReadDir env dbDir = ok files ->
  forall todo plots st o st',
    incl todo files ->
    filesV1 env all dbDir todo plots st = (o, st') ->
    exists evs, events st' = (events st ++ evs)%list
                /\ Forall (scanEvent env nameMatchesV1 "" dirs) evs.
Proof.
  intros D L. induction todo as [|f todo IH]; intros plots st o st' I.
  - intros [= _ <-]. exists []. rewrite List.app_nil_r. auto.
  - assert (If : In f files) by (apply I; left; reflexivity).
    assert (It : incl todo files) by (intros x Hx; apply I; right; exact Hx).
    run. destruct (interruptCh env (polls st)).
    { intros [= _ <-]. exists [cancelWarning]. split; [reflexivity|].
      repeat constructor. }
    rewrite skipName_V1.
    destruct (nameMatchesV1 f) eqn:N; cbn [negb];
      [|intros E; apply (IH _ _ _ _ It) in E as (evs & -> & F);
        exists evs; auto].
    run.
    pose proof (scanEvent_header env nameMatchesV1 "" dirs dbDir files f
                  D L If N) as H.
    destruct (NewMassDBInfoV1FromFile env _) as [info|e].
    + destruct (negb (Plotted info) && negb all);
        [|destruct (GetMassDBBindingTarget env _ _)].
      * intros E; apply (IH _ _ _ _ It) in E as (evs & -> & F).
        exists (EvReadHeader (filepath_Join env dbDir f) :: evs).
        cbn [events logged polled]. rewrite <- List.app_assoc. auto.
      * intros E; apply (IH _ _ _ _ It) in E as (evs & -> & F).
        exists (EvReadHeader (filepath_Join env dbDir f) :: evs).
        cbn [events logged polled]. rewrite <- List.app_assoc. auto.
      * intros [= _ <-].
        exists [EvReadHeader (filepath_Join env dbDir f)]. auto.
    + intros E; apply (IH _ _ _ _ It) in E as (evs & -> & F).
      exists (EvReadHeader (filepath_Join env dbDir f)
              :: EvLog WARN "fail to read native massdb info" :: evs).
      cbn [events logged polled]. rewrite <- !List.app_assoc.
      split; [reflexivity|]. repeat constructor; auto.
Qed.

Lemma filesV2_events (env : Env) (keystore : option Keystore)
    (keystoreFile : string) (dirs : list string)
    (dbDir : string) (files : list string) :
  In dbDir dirs -> ioutil_ReadDir env dbDir = ok files ->
  forall todo plots st o st',
    incl todo files ->
    filesV2 env keystore dbDir todo plots st = (o, st') ->
    exists evs, events st' = (events st ++ evs)%list
                /\ Forall (scanEvent env nameMatchesV2 keystoreFile dirs) evs.
Proof.
  intros D L. induction todo as [|f todo IH]; intros plots st o st' I.
  - intros [= _ <-]. exists []. rewrite List.app_nil_r. auto.
  - assert (If : In f files) by (apply I; left; reflexivity).
    assert (It : incl todo files) by (intros x Hx; apply I; right; exact Hx).
    run. destruct (interruptCh env (polls st)).
    { intros [= _ <-]. exists [cancelWarning]. split; [reflexivity|].
      repeat constructor. }
    rewrite skipName_V2.
    destruct (nameMatchesV2 f) eqn:N; cbn [negb];
      [|intros E; apply (IH _ _ _ _ It) in E as (evs & -> & F);
        exists evs; auto].
    run.
    pose proof (scanEvent_header env nameMatchesV2 keystoreFile dirs dbDir
                  files f D L If N) as H.
    destruct (NewMassDBInfoV2FromFile env _) as [info|e].
    + destruct (ownablePlot keystore info); cbn [negb];
        [destruct (GetChiaPlotBindingTarget env _ _)|].
      * intros E; apply (IH _ _ _ _ It) in E as (evs & -> & F).
        exists (EvReadHeader (filepath_Join env dbDir f) :: evs).
        cbn [events logged polled]. rewrite <- List.app_assoc. auto.
      * intros [= _ <-].
        exists [EvReadHeader (filepath_Join env dbDir f)]. auto.
      * intros E; apply (IH _ _ _ _ It) in E as (evs & -> & F).
        exists (EvReadHeader (filepath_Join env dbDir f) :: evs).
        cbn [events logged polled]. rewrite <- List.app_assoc. auto.
    + intros E; apply (IH _ _ _ _ It) in E as (evs & -> & F).
      exists (EvReadHeader (filepath_Join env dbDir f)
              :: EvLog WARN "fail to read chia plot info" :: evs).
      cbn [events logged polled]. rewrite <- !List.app_assoc.
      split; [reflexivity|]. repeat constructor; auto.
Qed.

Lemma scanV1_events (env : Env) (all : bool)
    (dirs : list string) :
  forall todo plots st,
    incl todo dirs ->
    exists evs,
      events (snd (scanV1 env all todo plots st))
      = (events st ++ evs)%list
      /\ Forall (scanEvent env nameMatchesV1 "" dirs) evs.
Proof.
  induction todo as [|d todo IH]; intros plots st I.
  - rewrite scanV1_nil. eexists. split; [reflexivity|].
    repeat constructor.
  - assert (Id : In d dirs) by (apply I; left; reflexivity).
    assert (It : incl todo dirs) by (intros x Hx; apply I; right; exact Hx).
    rewrite scanV1_cons. destruct (ioutil_ReadDir env d) as [files|e] eqn:L.
    + rewrite resumeV1_eq.
      destruct (filesV1 env all d files plots _) as [[ps|res] s1] eqn:F;
        apply (filesV1_events env all dirs d files Id L) in F
        as (evs & Ev & Fa); try apply incl_refl.
      * destruct (IH ps (leaveDir "loaded native MassDB files from directory" s1) It)
          as (evs' & E' & Fa').
        rewrite E'. unfold leaveDir, enterDir in *.
        rewrite !events_logged in *. rewrite Ev.
        exists ([EvReadDir d; EvLog INFO "searching for native MassDB files"] ++ evs
                ++ [EvLog INFO "loaded native MassDB files from directory"] ++ evs')%list.
        split; [rewrite <- !List.app_assoc; reflexivity|].
        repeat (apply Forall_app; split); auto; repeat constructor; auto.
      * cbn [snd]. unfold enterDir in Ev. rewrite !events_logged in Ev.
        rewrite Ev.
        exists ([EvReadDir d; EvLog INFO "searching for native MassDB files"] ++ evs)%list.
        split; [rewrite <- !List.app_assoc; reflexivity|].
        apply Forall_app; split; auto. repeat constructor; auto.
    + cbn [snd]. exists [EvReadDir d]. split; [reflexivity|].
      repeat constructor; auto.
Qed.

Lemma scanV2_events (env : Env) (keystore : option Keystore) (keystoreFile : string)
    (dirs : list string) :
  forall todo plots st,
    incl todo dirs ->
    exists evs,
      events (snd (scanV2 env keystore todo plots st))
      = (events st ++ evs)%list
      /\ Forall (scanEvent env nameMatchesV2 keystoreFile dirs) evs.
Proof.
  induction todo as [|d todo IH]; intros plots st I.
  - rewrite scanV2_nil. eexists. split; [reflexivity|].
    repeat constructor.
  - assert (Id : In d dirs) by (apply I; left; reflexivity).
    assert (It : incl todo dirs) by (intros x Hx; apply I; right; exact Hx).
    rewrite scanV2_cons. destruct (ioutil_ReadDir env d) as [files|e] eqn:L.
    + rewrite resumeV2_eq.
      destruct (filesV2 env keystore d files plots _) as [[ps|res] s1] eqn:F;
        apply (filesV2_events env keystore keystoreFile dirs d files Id L) in F
        as (evs & Ev & Fa); try apply incl_refl.
      * destruct (IH ps (leaveDir "loaded chia plot files from directory" s1) It)
          as (evs' & E' & Fa').
        rewrite E'. unfold leaveDir, enterDir in *.
        rewrite !events_logged in *. rewrite Ev.
        exists ([EvReadDir d; EvLog INFO "searching for chia plot files"] ++ evs
                ++ [EvLog INFO "loaded chia plot files from directory"] ++ evs')%list.
        split; [rewrite <- !List.app_assoc; reflexivity|].
        repeat (apply Forall_app; split); auto; repeat constructor; auto.
      * cbn [snd]. unfold enterDir in Ev. rewrite !events_logged in Ev.
        rewrite Ev.
        exists ([EvReadDir d; EvLog INFO "searching for chia plot files"] ++ evs)%list.
        split; [rewrite <- !List.app_assoc; reflexivity|].
        apply Forall_app; split; auto. repeat constructor; auto.
    + cbn [snd]. exists [EvReadDir d]. split; [reflexivity|].
      repeat constructor; auto.
Qed.

Lemma getOfflineBindingListV2_events (env : Env) (dirs : list string)
    (all : bool) (keystoreFile : string) (st : RunState) :
  exists evs,
    events (snd (getOfflineBindingListV2 env dirs all keystoreFile st))
    = (events st ++ evs)%list
    /\ Forall (scanEvent env nameMatchesV2 keystoreFile dirs) evs.
Proof.
  unfold getOfflineBindingListV2, bind. rewrite openKeystore_eq.
  unfold keystoreOf.
  destruct (String.eqb_spec keystoreFile "") as [E | N].
  - apply scanV2_events, incl_refl.
  - destruct (NewKeystoreFromFile env keystoreFile) as [ks|e].
    + destruct (scanV2_events env (Some ks) keystoreFile dirs dirs []
                  (logged (EvLoadKeystore keystoreFile) st) (incl_refl _))
        as (evs & -> & F).
      exists (EvLoadKeystore keystoreFile :: evs).
      rewrite events_logged, <- List.app_assoc.
      split; [reflexivity|]. constructor; [split; auto | exact F].
    + exists [EvLoadKeystore keystoreFile]. split; [reflexivity|].
      repeat constructor; auto.
Qed.

End TraceFacts.
Import TraceFacts.

Module ResultFacts.

Lemma uint8_range (z : Z) : (0 <= uint8 z < 256)%Z.
Proof. unfold uint8. apply Z.mod_pos_bound. lia. Qed.

(** The loop over the entries only appends, at most one plot an entry,
    and polls the channel once an entry. *)
Lemma filesV1_result (env : Env) (all : bool) (dbDir : string)
    (files : list string) :
  forall plots st o st',
    filesV1 env all dbDir files plots st = (o, st') ->
    polls st' <= polls st + List.length files
    /\ match o with
       | Next plots' =>
           polls st' = polls st + List.length files
           /\ exists added,
                plots' = (plots ++ added)%list
                /\ List.length added <= List.length files
                /\ Forall (wellFormedPlot ProofTypeDefault) added
       | Return res => fst res = []
       end.
Proof.
  induction files as [|f files IH]; intros plots st o st'.
  - intros [= <- <-]. cbn [List.length]. split; [lia|]. split; [lia|].
    exists []. rewrite List.app_nil_r. repeat split; auto.
  - run. destruct (interruptCh env (polls st)).
    { intros [= <- <-]. cbn. split; [lia | reflexivity]. }
    assert (Keep : forall s,
              polls s = S (polls st) ->
              filesV1 env all dbDir files plots s = (o, st') ->
              polls st' <= polls st + List.length (f :: files)
              /\ match o with
                 | Next plots' =>
                     polls st' = polls st + List.length (f :: files)
                     /\ exists added,
                          plots' = (plots ++ added)%list
                          /\ List.length added <= List.length (f :: files)
                          /\ Forall (wellFormedPlot ProofTypeDefault) added
                 | Return res => fst res = []
                 end).
    { intros s Ps E. apply IH in E as [Le R]. cbn [List.length].
      split; [lia|]. destruct o as [ps|res]; [|exact R].
      destruct R as (Eq & added & -> & La & Fa).
      split; [lia|]. exists added. repeat split; auto. }
    destruct (skipName suffixV1 regStrV1 f); [apply Keep; reflexivity|].
    run. destruct (NewMassDBInfoV1FromFile env _) as [info|e];
      [|apply Keep; reflexivity].
    destruct (negb (Plotted info) && negb all); [apply Keep; reflexivity|].
    destruct (GetMassDBBindingTarget env _ _) as [target|e].
    + intros E. apply IH in E as [Le R]. cbn [List.length polls logged polled] in *.
      split; [lia|]. destruct o as [ps|res]; [|exact R].
      destruct R as (Eq & added & -> & La & Fa).
      split; [lia|]. exists (plotV1 target info :: added).
      rewrite <- List.app_assoc. cbn [List.length]. 
      repeat split; auto; try lia.
      constructor; [|exact Fa]. split; [reflexivity | apply uint8_range].
    + intros [= <- <-]. cbn. split; [lia | reflexivity].
Qed.

Lemma filesV2_result (env : Env) (keystore : option Keystore)
    (dbDir : string) (files : list string) :
  forall plots st o st',
    filesV2 env keystore dbDir files plots st = (o, st') ->
    polls st' <= polls st + List.length files
    /\ match o with
       | Next plots' =>
           polls st' = polls st + List.length files
           /\ exists added,
                plots' = (plots ++ added)%list
                /\ List.length added <= List.length files
                /\ Forall (wellFormedPlot ProofTypeChia) added
       | Return res => fst res = []
       end.
Proof.
  induction files as [|f files IH]; intros plots st o st'.
  - intros [= <- <-]. cbn [List.length]. split; [lia|]. split; [lia|].
    exists []. rewrite List.app_nil_r. repeat split; auto.
  - run. destruct (interruptCh env (polls st)).
    { intros [= <- <-]. cbn. split; [lia | reflexivity]. }
    assert (Keep : forall s,
              polls s = S (polls st) ->
              filesV2 env keystore dbDir files plots s = (o, st') ->
              polls st' <= polls st + List.length (f :: files)
              /\ match o with
                 | Next plots' =>
                     polls st' = polls st + List.length (f :: files)
                     /\ exists added,
                          plots' = (plots ++ added)%list
                          /\ List.length added <= List.length (f :: files)
                          /\ Forall (wellFormedPlot ProofTypeChia) added
                 | Return res => fst res = []
                 end).
    { intros s Ps E. apply IH in E as [Le R]. cbn [List.length].
      split; [lia|]. destruct o as [ps|res]; [|exact R].
      destruct R as (Eq & added & -> & La & Fa).
      split; [lia|]. exists added. repeat split; auto. }
    destruct (skipName suffixV2 regStrV2 f); [apply Keep; reflexivity|].
    run. destruct (NewMassDBInfoV2FromFile env _) as [info|e];
      [|apply Keep; reflexivity].
    destruct (ownablePlot keystore info); cbn [negb];
      [|apply Keep; reflexivity].
    destruct (GetChiaPlotBindingTarget env _ _) as [target|e].
    + intros E. apply IH in E as [Le R]. cbn [List.length polls logged polled] in *.
      split; [lia|]. destruct o as [ps|res]; [|exact R].
      destruct R as (Eq & added & -> & La & Fa).
      split; [lia|]. exists (plotV2 target info :: added).
      rewrite <- List.app_assoc. cbn [List.length]. 
      repeat split; auto; try lia.
      constructor; [|exact Fa]. split; [reflexivity | apply uint8_range].
    + intros [= <- <-]. cbn. split; [lia | reflexivity].
Qed.

Lemma filesV1_quiet_return (env : Env) (all : bool)
    (dbDir : string) (files : list string) :
  neverInterrupted env ->
  forall plots st res st',
    filesV1 env all dbDir files plots st = (Return res, st') ->
    snd res <> None.
Proof.
  intros Q. induction files as [|f files IH]; intros plots st res st'.
  - intros [=].
  - run. rewrite Q.
    destruct (skipName suffixV1 regStrV1 f); [apply IH|]. run.
    destruct (NewMassDBInfoV1FromFile env _) as [info|e]; [|apply IH].
    destruct (negb (Plotted info) && negb all); [apply IH|].
    destruct (GetMassDBBindingTarget env _ _) as [target|e]; [apply IH|].
    intros [= <- _]. discriminate.
Qed.

Lemma scanV1_result (env : Env) (all : bool) (dirs : list string) :
  forall plots st,
    let r := scanV1 env all dirs plots st in
    polls (snd r) <= polls st + entries env dirs
    /\ (snd (fst r) <> None -> fst (fst r) = [])
    /\ (fst (fst r) = []
        \/ exists added,
             fst (fst r) = (plots ++ added)%list
             /\ List.length added <= entries env dirs
             /\ Forall (wellFormedPlot ProofTypeDefault) added)
    /\ (neverInterrupted env -> snd (fst r) = None ->
        polls (snd r) = polls st + entries env dirs).
Proof.
  induction dirs as [|d dirs IH]; intros plots st; cbv zeta.
  - rewrite scanV1_nil. cbn [fst snd entries leaveDir logged polls].
    split; [lia|]. split; [congruence|]. split; [|lia].
    right. exists []. rewrite List.app_nil_r. auto.
  - rewrite scanV1_cons. cbn [entries].
    destruct (ioutil_ReadDir env d) as [files|e].
    + rewrite resumeV1_eq.
      destruct (filesV1 env all d files plots _) as [[ps|res] s1] eqn:F.
      * pose proof (filesV1_result _ _ _ _ _ _ _ _ F)
          as (_ & Eq & added & -> & La & Fa).
        specialize (IH (plots ++ added)%list
                      (leaveDir "loaded native MassDB files from directory" s1)).
        cbv zeta in IH. destruct IH as (Le & Er & Sh & Qe).
        cbn [enterDir leaveDir logged polls] in *.
        split; [lia|]. split; [exact Er|]. split.
        -- destruct Sh as [E | (added' & E & La' & Fa')]; [left; exact E|].
           right. exists (added ++ added')%list.
           rewrite E, List.app_assoc, length_app.
           repeat split; [lia | apply Forall_app; auto].
        -- intros Q N. rewrite (Qe Q N). lia.
      * pose proof (filesV1_result _ _ _ _ _ _ _ _ F) as (Le & R).
        cbn [fst snd enterDir logged polls] in *.
        split; [lia|]. split; [auto|]. split; [left; exact R|].
        intros Q N. exfalso.
        exact (filesV1_quiet_return _ _ _ _ Q _ _ _ _ F N).
    + cbn [fst snd logged polls]. split; [lia|]. split; [reflexivity|].
      split; [left; reflexivity|]. discriminate.
Qed.

Lemma filesV2_quiet_return (env : Env) (keystore : option Keystore)
    (dbDir : string) (files : list string) :
  neverInterrupted env ->
  forall plots st res st',
    filesV2 env keystore dbDir files plots st = (Return res, st') ->
    snd res <> None.
Proof.
  intros Q. induction files as [|f files IH]; intros plots st res st'.
  - intros [=].
  - run. rewrite Q.
    destruct (skipName suffixV2 regStrV2 f); [apply IH|]. run.
    destruct (NewMassDBInfoV2FromFile env _) as [info|e]; [|apply IH].
    destruct (ownablePlot keystore info); cbn [negb]; [|apply IH].
    destruct (GetChiaPlotBindingTarget env _ _) as [target|e]; [apply IH|].
    intros [= <- _]. discriminate.
Qed.

Lemma scanV2_result (env : Env) (keystore : option Keystore) (dirs : list string) :
  forall plots st,
    let r := scanV2 env keystore dirs plots st in
    polls (snd r) <= polls st + entries env dirs
    /\ (snd (fst r) <> None -> fst (fst r) = [])
    /\ (fst (fst r) = []
        \/ exists added,
             fst (fst r) = (plots ++ added)%list
             /\ List.length added <= entries env dirs
             /\ Forall (wellFormedPlot ProofTypeChia) added)
    /\ (neverInterrupted env -> snd (fst r) = None ->
        polls (snd r) = polls st + entries env dirs).
Proof.
  induction dirs as [|d dirs IH]; intros plots st; cbv zeta.
  - rewrite scanV2_nil. cbn [fst snd entries leaveDir logged polls].
    split; [lia|]. split; [congruence|]. split; [|lia].
    right. exists []. rewrite List.app_nil_r. auto.
  - rewrite scanV2_cons. cbn [entries].
    destruct (ioutil_ReadDir env d) as [files|e].
    + rewrite resumeV2_eq.
      destruct (filesV2 env keystore d files plots _) as [[ps|res] s1] eqn:F.
      * pose proof (filesV2_result _ _ _ _ _ _ _ _ F)
          as (_ & Eq & added & -> & La & Fa).
        specialize (IH (plots ++ added)%list
                      (leaveDir "loaded chia plot files from directory" s1)).
        cbv zeta in IH. destruct IH as (Le & Er & Sh & Qe).
        cbn [enterDir leaveDir logged polls] in *.
        split; [lia|]. split; [exact Er|]. split.
        -- destruct Sh as [E | (added' & E & La' & Fa')]; [left; exact E|].
           right. exists (added ++ added')%list.
           rewrite E, List.app_assoc, length_app.
           repeat split; [lia | apply Forall_app; auto].
        -- intros Q N. rewrite (Qe Q N). lia.
      * pose proof (filesV2_result _ _ _ _ _ _ _ _ F) as (Le & R).
        cbn [fst snd enterDir logged polls] in *.
        split; [lia|]. split; [auto|]. split; [left; exact R|].
        intros Q N. exfalso.
        exact (filesV2_quiet_return _ _ _ _ Q _ _ _ _ F N).
    + cbn [fst snd logged polls]. split; [lia|]. split; [reflexivity|].
      split; [left; reflexivity|]. discriminate.
Qed.

End ResultFacts.
Import ResultFacts.

Module QuietFacts.

(** Without signals, what the loop over the entries returns depends
    neither on the state nor, but for the prefix, on the plots so far. *)
Lemma filesV1_quiet (env : Env) (all : bool) (dbDir : string)
    (files : list string) :
  neverInterrupted env ->
  forall plots st st',
    fst (filesV1 env all dbDir files plots st)
    = match fst (filesV1 env all dbDir files [] st') with
      | Next added => Next (plots ++ added)
      | Return res => Return res
      end.
Proof.
  intros Q. induction files as [|f files IH]; intros plots st st'.
  - cbn. rewrite List.app_nil_r. reflexivity.
  - run. rewrite !Q.
    destruct (skipName suffixV1 regStrV1 f); [apply IH|]. run.
    destruct (NewMassDBInfoV1FromFile env _) as [info|e]; [|apply IH].
    destruct (negb (Plotted info) && negb all); [apply IH|].
    destruct (GetMassDBBindingTarget env _ _) as [target|e];
      [|reflexivity].
    rewrite (IH (plots ++ _)%list _ st'), (IH ([] ++ _)%list _ st').
    destruct (fst (filesV1 env all dbDir files [] st')); [|reflexivity].
    rewrite <- List.app_assoc. reflexivity.
Qed.

Lemma filesV2_quiet (env : Env) (keystore : option Keystore)
    (dbDir : string) (files : list string) :
  neverInterrupted env ->
  forall plots st st',
    fst (filesV2 env keystore dbDir files plots st)
    = match fst (filesV2 env keystore dbDir files [] st') with
      | Next added => Next (plots ++ added)
      | Return res => Return res
      end.
Proof.
  intros Q. induction files as [|f files IH]; intros plots st st'.
  - cbn. rewrite List.app_nil_r. reflexivity.
  - run. rewrite !Q.
    destruct (skipName suffixV2 regStrV2 f); [apply IH|]. run.
    destruct (NewMassDBInfoV2FromFile env _) as [info|e]; [|apply IH].
    destruct (ownablePlot keystore info); cbn [negb]; [|apply IH].
    destruct (GetChiaPlotBindingTarget env _ _) as [target|e];
      [|reflexivity].
    rewrite (IH (plots ++ _)%list _ st'), (IH ([] ++ _)%list _ st').
    destruct (fst (filesV2 env keystore dbDir files [] st')); [|reflexivity].
    rewrite <- List.app_assoc. reflexivity.
Qed.

Lemma scanV1_quiet (env : Env) (all : bool) (dirs : list string) :
  neverInterrupted env ->
  forall plots st st',
    fst (scanV1 env all dirs plots st)
    = joinResults (plots, None) (fst (scanV1 env all dirs [] st')).
Proof.
  intros Q. induction dirs as [|d dirs IH]; intros plots st st'.
  - rewrite !scanV1_nil. cbn. rewrite List.app_nil_r. reflexivity.
  - rewrite !scanV1_cons.
    destruct (ioutil_ReadDir env d) as [files|e]; [|reflexivity].
    rewrite !resumeV1_eq.
    pose proof (filesV1_quiet env all d files Q plots
                  (enterDir "searching for native MassDB files" d st)
                  (enterDir "searching for native MassDB files" d st'))
      as E.
    destruct (filesV1 env all d files plots _) as [o1 s1].
    destruct (filesV1 env all d files [] _) as [o2 s2] eqn:F2.
    cbn [fst] in E. subst o1. destruct o2 as [added|res].
    + rewrite (IH (plots ++ added)%list _ st'),
        (IH ([] ++ added)%list _ st').
      destruct (fst (scanV1 env all dirs [] st')) as [ps [e|]];
        [reflexivity|].
      cbn. rewrite List.app_assoc. reflexivity.
    + pose proof (filesV1_result _ _ _ _ _ _ _ _ F2) as [_ R].
      pose proof (filesV1_quiet_return _ _ _ _ Q _ _ _ _ F2) as N.
      destruct res as [ps [e|]]; cbn in *; [subst; reflexivity|].
      contradiction.
Qed.

Lemma scanV1_quiet_app (env : Env) (all : bool)
    (dirs1 dirs2 : list string) :
  neverInterrupted env ->
  forall plots st st1 st2,
    fst (scanV1 env all (dirs1 ++ dirs2) plots st)
    = joinResults (fst (scanV1 env all dirs1 plots st1))
                  (fst (scanV1 env all dirs2 [] st2)).
Proof.
  intros Q. induction dirs1 as [|d dirs1 IH]; intros plots st st1 st2.
  - cbn [app]. rewrite scanV1_nil. apply scanV1_quiet, Q.
  - cbn [app]. rewrite !scanV1_cons.
    destruct (ioutil_ReadDir env d) as [files|e]; [|reflexivity].
    rewrite !resumeV1_eq.
    pose proof (filesV1_quiet env all d files Q plots
                  (enterDir "searching for native MassDB files" d st)
                  (enterDir "searching for native MassDB files" d st1))
      as E.
    pose proof (filesV1_quiet env all d files Q plots
                  (enterDir "searching for native MassDB files" d st1)
                  (enterDir "searching for native MassDB files" d st1))
      as E1.
    destruct (filesV1 env all d files plots
                (enterDir "searching for native MassDB files" d st)) as [o s].
    destruct (filesV1 env all d files plots
                (enterDir "searching for native MassDB files" d st1)) as [o1 s1] eqn:F1.
    cbn [fst] in E, E1. rewrite <- E1 in E. subst o.
    destruct o1 as [ps|res]; [apply IH|].
    pose proof (filesV1_result _ _ _ _ _ _ _ _ F1) as [_ R].
    pose proof (filesV1_quiet_return _ _ _ _ Q _ _ _ _ F1) as N.
    destruct res as [ps [e|]]; cbn in *; [subst; reflexivity|].
    contradiction.
Qed.

Lemma scanV2_quiet (env : Env) (keystore : option Keystore) (dirs : list string) :
  neverInterrupted env ->
  forall plots st st',
    fst (scanV2 env keystore dirs plots st)
    = joinResults (plots, None) (fst (scanV2 env keystore dirs [] st')).
Proof.
  intros Q. induction dirs as [|d dirs IH]; intros plots st st'.
  - rewrite !scanV2_nil. cbn. rewrite List.app_nil_r. reflexivity.
  - rewrite !scanV2_cons.
    destruct (ioutil_ReadDir env d) as [files|e]; [|reflexivity].
    rewrite !resumeV2_eq.
    pose proof (filesV2_quiet env keystore d files Q plots
                  (enterDir "searching for chia plot files" d st)
                  (enterDir "searching for chia plot files" d st'))
      as E.
    destruct (filesV2 env keystore d files plots _) as [o1 s1].
    destruct (filesV2 env keystore d files [] _) as [o2 s2] eqn:F2.
    cbn [fst] in E. subst o1. destruct o2 as [added|res].
    + rewrite (IH (plots ++ added)%list _ st'),
        (IH ([] ++ added)%list _ st').
      destruct (fst (scanV2 env keystore dirs [] st')) as [ps [e|]];
        [reflexivity|].
      cbn. rewrite List.app_assoc. reflexivity.
    + pose proof (filesV2_result _ _ _ _ _ _ _ _ F2) as [_ R].
      pose proof (filesV2_quiet_return _ _ _ _ Q _ _ _ _ F2) as N.
      destruct res as [ps [e|]]; cbn in *; [subst; reflexivity|].
      contradiction.
Qed.

Lemma scanV2_quiet_app (env : Env) (keystore : option Keystore)
    (dirs1 dirs2 : list string) :
  neverInterrupted env ->
  forall plots st st1 st2,
    fst (scanV2 env keystore (dirs1 ++ dirs2) plots st)
    = joinResults (fst (scanV2 env keystore dirs1 plots st1))
                  (fst (scanV2 env keystore dirs2 [] st2)).
Proof.
  intros Q. induction dirs1 as [|d dirs1 IH]; intros plots st st1 st2.
  - cbn [app]. rewrite scanV2_nil. apply scanV2_quiet, Q.
  - cbn [app]. rewrite !scanV2_cons.
    destruct (ioutil_ReadDir env d) as [files|e]; [|reflexivity].
    rewrite !resumeV2_eq.
    pose proof (filesV2_quiet env keystore d files Q plots
                  (enterDir "searching for chia plot files" d st)
                  (enterDir "searching for chia plot files" d st1))
      as E.
    pose proof (filesV2_quiet env keystore d files Q plots
                  (enterDir "searching for chia plot files" d st1)
                  (enterDir "searching for chia plot files" d st1))
      as E1.
    destruct (filesV2 env keystore d files plots
                (enterDir "searching for chia plot files" d st)) as [o s].
    destruct (filesV2 env keystore d files plots
                (enterDir "searching for chia plot files" d st1)) as [o1 s1] eqn:F1.
    cbn [fst] in E, E1. rewrite <- E1 in E. subst o.
    destruct o1 as [ps|res]; [apply IH|].
    pose proof (filesV2_result _ _ _ _ _ _ _ _ F1) as [_ R].
    pose proof (filesV2_quiet_return _ _ _ _ Q _ _ _ _ F1) as N.
    destruct res as [ps [e|]]; cbn in *; [subst; reflexivity|].
    contradiction.
Qed.

End QuietFacts.
Import QuietFacts.

(** X4.  Whatever the file system, the signals and the state, all an
    extractor does to the outside is list directories it was given,
    read headers of entries of those directories whose name its
    classifier accepts, load the keystore file it was given (format B,
    non-empty path), and log.  It opens no other file and writes
    none. *)
Theorem extractors_touch_only_accepted_entries
    (env : Env) (dirs : list string) (all : bool) (keystoreFile : string)
    (st : RunState) :
  (exists evs,
     events (snd (getOfflineBindingListV1 env dirs all st))
     = (events st ++ evs)%list
     /\ Forall (scanEvent env nameMatchesV1 "" dirs) evs)
  /\ (exists evs,
        events (snd (getOfflineBindingListV2 env dirs all keystoreFile st))
        = (events st ++ evs)%list
        /\ Forall (scanEvent env nameMatchesV2 keystoreFile dirs) evs).
Proof.
  split.
  - apply scanV1_events, incl_refl.
  - apply getOfflineBindingListV2_events.
Qed.

(** X5.  What the extractors return: with an error come no plots; the
    plots are at most one for an entry of the listed directories, all of
    the extractor's own format, each with a size between 0 and 255. *)
Theorem extractor_results_are_well_formed
    (env : Env) (dirs : list string) (all : bool) (keystoreFile : string)
    (st : RunState) :
  let r1 := fst (getOfflineBindingListV1 env dirs all st) in
  let r2 := fst (getOfflineBindingListV2 env dirs all keystoreFile st) in
  ((snd r1 <> None -> fst r1 = [])
   /\ List.length (fst r1) <= entries env dirs
   /\ Forall (wellFormedPlot ProofTypeDefault) (fst r1))
  /\ ((snd r2 <> None -> fst r2 = [])
      /\ List.length (fst r2) <= entries env dirs
      /\ Forall (wellFormedPlot ProofTypeChia) (fst r2)).
Proof.
  cbv zeta. split.
  - unfold getOfflineBindingListV1.
    destruct (scanV1_result env all dirs [] st) as (_ & Er & Sh & _).
    cbv zeta in *. split; [exact Er|].
    destruct Sh as [-> | (added & -> & La & Fa)]; cbn; auto with arith.
  - unfold getOfflineBindingListV2, bind. rewrite openKeystore_eq.
    destruct (keystoreOf env keystoreFile) as [keystore|e].
    + match goal with
      | |- context [scanV2 env keystore dirs [] ?s] =>
          destruct (scanV2_result env keystore dirs [] s)
            as (_ & Er & Sh & _)
      end.
      cbv zeta in *. split; [exact Er|].
      destruct Sh as [-> | (added & -> & La & Fa)]; cbn; auto with arith.
    + cbn. auto with arith.
Qed.

(** X6.  An extractor polls the interrupt channel at most once for an
    entry of the listed directories, and exactly once for each when no
    signal arrives and it returns no error. *)
Theorem extractors_poll_once_per_entry
    (env : Env) (dirs : list string) (all : bool) (keystoreFile : string)
    (st : RunState) :
  let r1 := getOfflineBindingListV1 env dirs all st in
  let r2 := getOfflineBindingListV2 env dirs all keystoreFile st in
  (polls (snd r1) <= polls st + entries env dirs
   /\ (neverInterrupted env -> snd (fst r1) = None ->
       polls (snd r1) = polls st + entries env dirs))
  /\ (polls (snd r2) <= polls st + entries env dirs
      /\ (neverInterrupted env -> snd (fst r2) = None ->
          polls (snd r2) = polls st + entries env dirs)).
Proof.
  cbv zeta. split.
  - unfold getOfflineBindingListV1.
    destruct (scanV1_result env all dirs [] st) as (Le & _ & _ & Qe).
    auto.
  - unfold getOfflineBindingListV2, bind. rewrite openKeystore_eq.
    destruct (keystoreOf env keystoreFile) as [keystore|e].
    + match goal with
      | |- context [scanV2 env keystore dirs [] ?s] =>
          destruct (scanV2_result env keystore dirs [] s)
            as (Le & _ & _ & Qe); assert (Ps : polls s = polls st)
            by (destruct (String.eqb keystoreFile ""); reflexivity)
      end.
      cbv zeta in *. rewrite Ps in *. auto.
    + cbn [fst snd]. split; [|discriminate].
      destruct (String.eqb keystoreFile ""); cbn; lia.
Qed.

Lemma extractors_poll_once_per_entry_witness :
  polls (snd (getOfflineBindingListV1 quietNative [plotsDir] false initial))
  = 2
  /\ polls (snd (getOfflineBindingListV2 quietChia [plotsDir] false ""
                   initial)) = 2.
Proof.
  destruct (extractors_poll_once_per_entry quietNative [plotsDir] false ""
              initial) as [[_ E1] _].
  destruct (extractors_poll_once_per_entry quietChia [plotsDir] false ""
              initial) as [_ [_ E2]].
  split.
  - apply E1; [intros n; reflexivity | reflexivity].
  - apply E2; [intros n; reflexivity | reflexivity].
Defined.

(** X7.  Without signals, scanning the directories [dirs1 ++ dirs2]
    returns the plots of [dirs1] followed by those of [dirs2], or the
    first error of the two scans, from whatever state each starts: the
    result depends on the file system alone, and a directory given
    twice has its plots twice. *)
Theorem scanning_composes
    (env : Env) (dirs1 dirs2 : list string) (all : bool)
    (keystoreFile : string) (st st1 st2 : RunState) :
  neverInterrupted env ->
  fst (getOfflineBindingListV1 env (dirs1 ++ dirs2) all st)
  = joinResults (fst (getOfflineBindingListV1 env dirs1 all st1))
                (fst (getOfflineBindingListV1 env dirs2 all st2))
  /\ fst (getOfflineBindingListV2 env (dirs1 ++ dirs2) all keystoreFile st)
     = joinResults
         (fst (getOfflineBindingListV2 env dirs1 all keystoreFile st1))
         (fst (getOfflineBindingListV2 env dirs2 all keystoreFile st2)).
Proof.
  intros Q. split.
  - apply scanV1_quiet_app, Q.
  - unfold getOfflineBindingListV2, bind. rewrite !openKeystore_eq.
    destruct (keystoreOf env keystoreFile) as [keystore|e]; [|reflexivity].
    apply scanV2_quiet_app, Q.
Qed.

Lemma scanning_composes_witness :
  fst (getOfflineBindingListV1 mirroredNative [plotsDir; backupDir] false
         initial)
  = ([samplePlotV1; samplePlotV1], None).
Proof.
  change [plotsDir; backupDir] with ([plotsDir] ++ [backupDir])%list.
  rewrite (proj1 (scanning_composes mirroredNative [plotsDir] [backupDir]
             false "" initial initial initial (fun n => eq_refl))).
  reflexivity.
Defined.

(** ** The run around the scan *)

Module DirFacts.

Lemma absDirs_acc (env : Env) (dirs : list string) :
  forall acc l,
    absDirs env dirs acc = ok l <->
    exists l', l = (acc ++ l')%list
               /\ Forall2 (fun d a => filepath_Abs env d = ok a) dirs l'.
Proof.
  induction dirs as [|d dirs IH]; intros acc l; cbn [absDirs].
  - split.
    + intros [= <-]. exists []. rewrite List.app_nil_r. auto.
    + intros (l' & -> & F). inversion F. rewrite List.app_nil_r.
      reflexivity.
  - destruct (filepath_Abs env d) as [a|e] eqn:A.
    + rewrite IH. split.
      * intros (l' & -> & F). exists (a :: l').
        rewrite <- List.app_assoc. auto.
      * intros (l' & -> & F). inversion F as [|? b ? l'' Ab F']; subst.
        assert (b = a) by congruence. subst b.
        exists l''. rewrite <- List.app_assoc. auto.
    + split; [discriminate|].
      intros (l' & _ & F). inversion F; congruence.
Qed.

Lemma absDirs_fail (env : Env) (dirs : list string) :
  forall acc e,
    absDirs env dirs acc = fail e ->
    exists before d after,
      dirs = (before ++ d :: after)%list
      /\ filepath_Abs env d = fail e
      /\ Forall (fun d' => exists a, filepath_Abs env d' = ok a) before.
Proof.
  induction dirs as [|d dirs IH]; intros acc e; cbn [absDirs];
    [discriminate|].
  destruct (filepath_Abs env d) as [a|e'] eqn:A.
  - intros E. apply IH in E as (before & d' & after & -> & F & B).
    exists (d :: before), d', after. repeat split; eauto.
  - intros [= <-]. exists [], d, dirs. auto.
Qed.

End DirFacts.
Import DirFacts.

(** X8.  The search directories are resolved in order: resolution
    succeeds exactly with the list of their absolute paths, and
    otherwise fails with the error of the first directory that cannot
    be resolved, in which case [getOfflineBindingList] returns that
    error without a log line or any scanning. *)
Theorem directories_resolve_in_order_or_fail
    (env : Env) (g : Globals) (st : RunState) :
  let dirs := getBindingListFlagDirectories g in
  (forall l,
     absDirs env dirs [] = ok l <->
     Forall2 (fun d a => filepath_Abs env d = ok a) dirs l)
  /\ (forall e,
        absDirs env dirs [] = fail e ->
        (exists before d after,
           dirs = (before ++ d :: after)%list
           /\ filepath_Abs env d = fail e
           /\ Forall (fun d' => exists a, filepath_Abs env d' = ok a)
                before)
        /\ getOfflineBindingList env g st = ((None, Some e), st)).
Proof.
  cbv zeta. split.
  - intros l. rewrite absDirs_acc. split.
    + intros (l' & -> & F). exact F.
    + intros F. exists l. auto.
  - intros e E. split; [exact (absDirs_fail _ _ _ _ E)|].
    unfold getOfflineBindingList. rewrite E. reflexivity.
Qed.

Lemma directories_resolve_in_order_or_fail_witness :
  getOfflineBindingList lostWorkingDir (sampleGlobals [plotsDir; "plots"])
    scanning
  = ((None, Some (errorString "getwd: no such file or directory")),
     scanning).
Proof.
  apply (proj2 (directories_resolve_in_order_or_fail lostWorkingDir
           (sampleGlobals [plotsDir; "plots"]) scanning)).
  reflexivity.
Defined.

(** X9.  When a directory cannot be listed, either extractor returns
    that error and no plots at once, whatever the directories before it
    yielded, and the run of [main] ends with that error and exit
    status 1. *)
Theorem listing_failure_aborts_run
    (env : Env) (all : bool) (keystoreFile : string)
    (keystore : option Keystore) (before : list string) (dbDir : string)
    (rest : list string) (plots : list BindingPlot)
    (st0 stk st : RunState) (e : error) :
  ioutil_ReadDir env dbDir = fail e ->
  (dirsV1 env all before [] st0 = (Next plots, st) ->
   getOfflineBindingListV1 env (before ++ dbDir :: rest) all st0
   = (([], Some e), logged (EvReadDir dbDir) st)
   /\ forall context stI,
        runsV1 env context stI all (before ++ dbDir :: rest) st0 ->
        main env context stI
        = (1%Z, aborted e (logged (EvReadDir dbDir) st)))
  /\ (openKeystore env keystoreFile st0 = (ok keystore, stk) ->
      dirsV2 env keystore before [] stk = (Next plots, st) ->
      getOfflineBindingListV2 env (before ++ dbDir :: rest) all keystoreFile
        st0
      = (([], Some e), logged (EvReadDir dbDir) st)
      /\ forall context stI,
           runsV2 env context stI all keystoreFile
             (before ++ dbDir :: rest) st0 ->
           main env context stI
           = (1%Z, aborted e (logged (EvReadDir dbDir) st))).
Proof.
  intros L. split.
  - intros D.
    assert (E : getOfflineBindingListV1 env (before ++ dbDir :: rest) all st0
                = (([], Some e), logged (EvReadDir dbDir) st)).
    { unfold getOfflineBindingListV1.
      rewrite (scanV1_app _ _ _ _ _ _ _ _ D), scanV1_cons, L.
      reflexivity. }
    split; [exact E|]. intros context stI R.
    exact (main_V1_error _ _ _ _ _ _ _ _ _ R E).
  - intros O D.
    assert (E : getOfflineBindingListV2 env (before ++ dbDir :: rest) all
                  keystoreFile st0
                = (([], Some e), logged (EvReadDir dbDir) st)).
    { unfold getOfflineBindingListV2, bind. rewrite O.
      rewrite (scanV2_app _ _ _ _ _ _ _ _ D), scanV2_cons, L.
      reflexivity. }
    split; [exact E|]. intros context stI R.
    exact (main_V2_error _ _ _ _ _ _ _ _ _ _ R E).
Qed.

Lemma listing_failure_aborts_run_witness :
  exitStatus halfReadable (sampleContext "m1" [plotsDir; backupDir] "")
  = 1%Z.
Proof.
  unfold exitStatus.
  destruct (listing_failure_aborts_run halfReadable false "" None
              [plotsDir] backupDir [] [samplePlotV1] scanning scanning
              (leaveDir "loaded native MassDB files from directory"
                 (afterHeader (plotsDir ++ "/" ++ massdbName)
                    (enterDir "searching for native MassDB files" plotsDir
                       scanning)))
              (ErrNotExist backupDir) eq_refl) as [V1 _].
  destruct (V1 eq_refl) as [_ R].
  rewrite (R (sampleContext "m1" [plotsDir; backupDir] "") initial);
    [reflexivity|].
  eexists _, checked. repeat split; vm_compute; reflexivity.
Defined.

(** X10.  When the type flag is neither [m1] nor [m2] (so also when it
    is left out), [getOfflineBindingList] fails with the invalid-flag
    error after the search notice and before any scanning, and the run
    ends with exit status 1. *)
Theorem unknown_type_fails_before_scan
    (env : Env) (g : Globals) (st : RunState) (dirs : list string) :
  absDirs env (getBindingListFlagDirectories g) [] = ok dirs ->
  getBindingListFlagPlotType g <> "m1" ->
  getBindingListFlagPlotType g <> "m2" ->
  getOfflineBindingList env g st
  = ((None, Some invalidType), logged searchingNotice st)
  /\ forall context stI,
       prepare env context stI = (inl g, st) ->
       main env context stI
       = (1%Z,
          logged (EvFatal invalidType)
            (logged (EvLog ERROR "fail to get binding list")
               (logged searchingNotice st))).
Proof.
  intros A N1 N2.
  assert (E : getOfflineBindingList env g st
              = ((None, Some invalidType), logged searchingNotice st)).
  { unfold getOfflineBindingList. rewrite A.
    apply String.eqb_neq in N1, N2.
    unfold bind, CPrint, emit, ret. rewrite N1, N2. reflexivity. }
  split; [exact E|]. intros context stI P.
  exact (main_scan_error _ _ _ _ _ _ _ _ P E).
Qed.

Lemma unknown_type_fails_before_scan_witness :
  main plottedNative (sampleContext "" [plotsDir] "") initial
  = (1%Z,
     logged (EvFatal invalidType)
       (logged (EvLog ERROR "fail to get binding list") scanning)).
Proof.
  apply (proj2 (unknown_type_fails_before_scan plottedNative
                  {| getBindingListArgFilename := exportPath;
                     getBindingListFlagOverwrite := false;
                     getBindingListFlagListAll := false;
                     getBindingListFlagKeystore := "";
                     getBindingListFlagPlotType := "";
                     getBindingListFlagDirectories := [plotsDir] |}
                  checked [plotsDir] eq_refl
                  ltac:(discriminate) ltac:(discriminate))
               (sampleContext "" [plotsDir] "") initial).
  vm_compute. reflexivity.
Defined.

(** X11.  When the export path cannot be examined for a reason other
    than its absence, and the overwrite option is not set, the run ends
    before any scanning with the error of [os.Stat] and exit status
    1. *)
Theorem unreadable_export_path_stops_run
    (env : Env) (context : Context) (first : string) (more : list string)
    (abs : string) (e : error) (st : RunState) :
  Args context = first :: more ->
  filepath_Abs env first = ok abs ->
  os_Stat env abs = fail e ->
  os_IsNotExist (Some e) = false ->
  Bool_overwrite context = false ->
  main env context st
  = (1%Z,
     logged (EvFatal e)
       (logged overwriteRefusal
          (logged (EvStat abs) (logged (EvStat abs) st)))).
Proof.
  intros A P S X O.
  unfold main, Action, prepare, Stat, CPrint, emit, ret, bind.
  rewrite A, P. cbn [getBindingListArgFilename getBindingListFlagOverwrite].
  rewrite S. cbn [errOf]. rewrite X, O. reflexivity.
Qed.

Lemma unreadable_export_path_stops_run_witness :
  exitStatus deniedExport (sampleContext "m1" [plotsDir] "") = 1%Z.
Proof.
  unfold exitStatus.
  rewrite (unreadable_export_path_stops_run deniedExport
             (sampleContext "m1" [plotsDir] "") exportPath [] exportPath
             (errorString "permission denied") initial
             eq_refl eq_refl eq_refl eq_refl eq_refl).
  reflexivity.
Defined.

(** X12.  The action goes on to the scan exactly when an export file
    name is given and resolves, the path is not a directory, and it
    either does not exist or may be overwritten; the package-level
    variables then hold the resolved path and the flags of the command
    line. *)
Theorem scan_starts_iff_checks_pass
    (env : Env) (context : Context) (st : RunState) (g : Globals) :
  fst (prepare env context st) = inl g <->
  exists first more abs,
    Args context = first :: more
    /\ filepath_Abs env first = ok abs
    /\ os_Stat env abs <> ok {| IsDir := true |}
    /\ (os_IsNotExist (errOf (os_Stat env abs)) = true
        \/ Bool_overwrite context = true)
    /\ g = globalsOf abs context.
Proof.
  unfold prepare, Stat, CPrint, emit, ret, bind, globalsOf.
  destruct (Args context) as [|first more].
  { cbn. split; [discriminate | intros (? & ? & ? & [=] & _)]. }
  destruct (filepath_Abs env first) as [abs|e] eqn:A.
  2:{ cbn. split; [discriminate|].
      intros (? & ? & ? & [= <- <-] & A' & _). congruence. }
  cbn [getBindingListArgFilename getBindingListFlagOverwrite].
  destruct (os_Stat env abs) as [[[|]]|e] eqn:S; cbn [IsDir errOf fst].
  - split; [discriminate|].
    intros (f & m & a & [= <- <-] & A' & N & _).
    assert (a = abs) by congruence. subst a. congruence.
  - cbn [os_IsNotExist negb andb].
    destruct (Bool_overwrite context) eqn:O; cbn [negb fst].
    + split.
      * intros [= <-]. exists first, more, abs. rewrite S.
        repeat split; auto. discriminate.
      * intros (f & m & a & [= <- <-] & A' & _ & _ & ->).
        assert (a = abs) by congruence. subst a. reflexivity.
    + split; [discriminate|].
      intros (f & m & a & [= <- <-] & A' & _ & [X | X] & _);
        assert (a = abs) by congruence; subst a;
        rewrite ?S in X; discriminate.
  - destruct (negb (os_IsNotExist (Some e))
              && negb (Bool_overwrite context)) eqn:C; cbn [fst].
    + split; [discriminate|].
      intros (f & m & a & [= <- <-] & A' & _ & X & _).
      assert (a = abs) by congruence. subst a.
      rewrite S in X. cbn [errOf] in X.
      apply andb_true_iff in C as [C1 C2].
      destruct X as [X | X]; rewrite X in *; discriminate.
    + split.
      * intros [= <-]. exists first, more, abs. rewrite S.
        repeat split; auto; [discriminate|]. cbn [errOf].
        apply andb_false_iff in C as [C | C];
          apply negb_false_iff in C; auto.
      * intros (f & m & a & [= <- <-] & A' & _ & _ & ->).
        assert (a = abs) by congruence. subst a. reflexivity.
Qed.

Lemma scan_starts_iff_checks_pass_witness :
  fst (prepare plottedNative (sampleContext "m1" [plotsDir] "") initial)
  = inl (globalsOf exportPath (sampleContext "m1" [plotsDir] "")).
Proof.
  apply (proj2 (scan_starts_iff_checks_pass plottedNative
                  (sampleContext "m1" [plotsDir] "") initial _)).
  exists exportPath, [], exportPath.
  repeat split; [discriminate | left; reflexivity].
Defined.

Module ExportFacts.

Lemma main_empty_scan (env : Env) (context : Context) (stI stP st : RunState)
    (g : Globals) (list : BindingList) :
  prepare env context stI = (inl g, stP) ->
  getOfflineBindingList env g stP = ((Some list, None), st) ->
  Plots list = [] ->
  main env context stI = (0%Z, logged nothingSaved st).
Proof.
  intros P G E. unfold main, Action, collect, export, bind.
  rewrite P, G. unfold RemoveDuplicate. rewrite E. reflexivity.
Qed.

Lemma main_V1_empty (env : Env) (context : Context) (stI : RunState)
    (all : bool) (dirs : list string) (st0 st : RunState) :
  runsV1 env context stI all dirs st0 ->
  getOfflineBindingListV1 env dirs all st0 = (([], None), st) ->
  main env context stI = (0%Z, logged nothingSaved st).
Proof.
  intros (g & stP & P & A & T & -> & ->) E.
  eapply main_empty_scan;
    [exact P
    | rewrite (getOfflineBindingList_m1 _ _ _ dirs A T), E; reflexivity
    | reflexivity].
Qed.

Lemma main_V2_empty (env : Env) (context : Context) (stI : RunState)
    (all : bool) (keystoreFile : string) (dirs : list string)
    (st0 st : RunState) :
  runsV2 env context stI all keystoreFile dirs st0 ->
  getOfflineBindingListV2 env dirs all keystoreFile st0 = (([], None), st) ->
  main env context stI = (0%Z, logged nothingSaved st).
Proof.
  intros (g & stP & P & A & T & -> & -> & ->) E.
  eapply main_empty_scan;
    [exact P
    | rewrite (getOfflineBindingList_m2 _ _ _ dirs A T), E; reflexivity
    | reflexivity].
Qed.

End ExportFacts.
Import ExportFacts.

(** What the run of the sample world leaves on standard output. *)
Example sample_run_reports_count :
  exitStatus plottedNative (sampleContext "m1" [plotsDir] "") = 0%Z
  /\ last (eventsOf plottedNative (sampleContext "m1" [plotsDir] "")) EvShowHelp
     = EvPrint ("collected 1 plot files." ++ newline)
  /\ last (eventsOf strayNative (sampleContext "m1" [plotsDir] "")) EvShowHelp
     = EvPrint ("collected 1 plot files." ++ newline)
  /\ last (eventsOf unplottedNative (sampleContext "m1" [plotsDir] ""))
          EvShowHelp
     = nothingSaved.
Proof. vm_compute. repeat split. Qed.

(** X13.  A run whose extractor returns no plots and no error, as it
    does when cancelled at a file boundary, prints that nothing was
    saved and exits with status 0; the state shows that nothing is
    written.  (The deduplication of an empty list is empty.) *)
Theorem cancelled_or_fruitless_run_exits_zero
    (env : Env) (context : Context) (stI : RunState) (all : bool)
    (keystoreFile : string) (keystore : option Keystore)
    (dirs : list string) (st0 : RunState) :
  (runsV1 env context stI all dirs st0 ->
   (forall st,
      getOfflineBindingListV1 env dirs all st0 = (([], None), st) ->
      main env context stI = (0%Z, logged nothingSaved st))
   /\ (forall dbDir fileName files rest plots st,
         boundaryV1 env all dirs st0 dbDir (fileName :: files) rest plots st ->
         interruptCh env (polls st) = true ->
         main env context stI
         = (0%Z, logged nothingSaved (logged cancelWarning (polled st)))))
  /\ (runsV2 env context stI all keystoreFile dirs st0 ->
      (forall st,
         getOfflineBindingListV2 env dirs all keystoreFile st0
         = (([], None), st) ->
         main env context stI = (0%Z, logged nothingSaved st))
      /\ (forall dbDir fileName files rest plots st,
            boundaryV2 env keystoreFile dirs st0 keystore dbDir
              (fileName :: files) rest plots st ->
            interruptCh env (polls st) = true ->
            main env context stI
            = (0%Z, logged nothingSaved (logged cancelWarning (polled st))))).
Proof.
  split; intros R; split.
  - intros st E. exact (main_V1_empty _ _ _ _ _ _ _ R E).
  - intros dbDir fileName files rest plots st B I.
    apply (main_V1_empty _ _ _ _ _ _ _ R).
    rewrite (boundaryV1_resume _ _ _ _ _ _ _ _ _ B), resumeV1_eq.
    rewrite filesV1_cancel by exact I. reflexivity.
  - intros st E. exact (main_V2_empty _ _ _ _ _ _ _ _ R E).
  - intros dbDir fileName files rest plots st B I.
    apply (main_V2_empty _ _ _ _ _ _ _ _ R).
    rewrite (boundaryV2_resume _ _ _ _ _ _ _ _ _ _ all B), resumeV2_eq.
    rewrite filesV2_cancel by exact I. reflexivity.
Qed.

Lemma cancelled_or_fruitless_run_exits_zero_witness :
  exitStatus cancelledNative (sampleContext "m1" [plotsDir] "") = 0%Z
  /\ existsb isWrite
       (eventsOf cancelledNative (sampleContext "m1" [plotsDir] ""))
     = false.
Proof.
  assert (R : runsV1 cancelledNative (sampleContext "m1" [plotsDir] "")
                initial false [plotsDir] scanning).
  { eexists _, checked. repeat split; vm_compute; reflexivity. }
  pose (st := afterHeader (plotsDir ++ "/" ++ massdbName)
                (enterDir "searching for native MassDB files" plotsDir
                   scanning)).
  assert (B : boundaryV1 cancelledNative false [plotsDir] scanning plotsDir
                [massdbName2] [] [samplePlotV1] st).
  { exists [], [massdbName], [], scanning.
    repeat split; vm_compute; reflexivity. }
  unfold exitStatus, eventsOf.
  rewrite (proj2 (proj1 (cancelled_or_fruitless_run_exits_zero
             cancelledNative (sampleContext "m1" [plotsDir] "") initial
             false "" None [plotsDir] scanning) R)
             plotsDir massdbName2 [] [] [samplePlotV1] st B eq_refl).
  split; reflexivity.
Defined.

Module WriteFacts.

Lemma scanEvent_no_write (env : Env) (matches : string -> bool)
    (keystoreFile : string) (dirs : list string) (evs : list Event) :
  Forall (scanEvent env matches keystoreFile dirs) evs ->
  existsb isWrite evs = false.
Proof.
  induction 1 as [|e evs He _ IH]; [reflexivity|].
  cbn [existsb]. rewrite IH, orb_false_r.
  destruct e; try reflexivity. contradiction He.
Qed.

Lemma no_write_not_in (evs : list Event) (path data : string) :
  existsb isWrite evs = false -> ~ In (EvWriteFile path data) evs.
Proof.
  intros N I. assert (existsb isWrite evs = true); [|congruence].
  apply existsb_exists. exists (EvWriteFile path data). auto.
Qed.

Lemma no_write_filter (evs : list Event) :
  existsb isWrite evs = false -> filter isWrite evs = [].
Proof.
  induction evs as [|e evs IH]; [reflexivity|]. cbn [existsb filter].
  intros H. apply orb_false_iff in H as [He Hs]. rewrite He. auto.
Qed.

Lemma prepare_writes_nothing (env : Env) (context : Context)
    (st st' : RunState) (r : Globals + option error) :
  prepare env context st = (r, st') ->
  exists evs, events st' = (events st ++ evs)%list
              /\ existsb isWrite evs = false.
Proof.
  unfold prepare, Stat, CPrint, emit, ret, bind, logged. 
  destruct (Args context) as [|first more].
  { intros [= _ <-]. eexists. split; reflexivity. }
  destruct (filepath_Abs env first) as [abs|e].
  2:{ intros [= _ <-]. eexists. split; reflexivity. }
  cbn [getBindingListArgFilename getBindingListFlagOverwrite].
  destruct (os_Stat env abs) as [fi|e]; [destruct (IsDir fi)|].
  - intros [= _ <-]. cbn [events]. rewrite <- List.app_assoc.
    eexists. split; reflexivity.
  - cbn [errOf os_IsNotExist negb andb].
    destruct (negb (Bool_overwrite context));
      intros [= _ <-]; cbn [events]; rewrite <- ?List.app_assoc;
      eexists; split; reflexivity.
  - destruct (negb (os_IsNotExist (errOf (fail e)))
              && negb (Bool_overwrite context));
      intros [= _ <-]; cbn [events]; rewrite <- ?List.app_assoc;
      eexists; split; reflexivity.
Qed.

Lemma finishList_events (plots : list BindingPlot) (err : option error)
    (d c : Z) (st : RunState) :
  exists evs,
    events (snd (finishList plots err d c st)) = (events st ++ evs)%list
    /\ existsb isWrite evs = false.
Proof.
  destruct err; cbn.
  - eexists. split; reflexivity.
  - exists []. rewrite List.app_nil_r. auto.
Qed.

Lemma getOfflineBindingList_writes_nothing (env : Env) (g : Globals)
    (st : RunState) :
  exists evs,
    events (snd (getOfflineBindingList env g st)) = (events st ++ evs)%list
    /\ existsb isWrite evs = false.
Proof.
  unfold getOfflineBindingList.
  destruct (absDirs env _ []) as [dirs|e].
  2:{ exists []. rewrite List.app_nil_r. auto. }
  unfold bind, CPrint, emit, ret.
  destruct (String.eqb (getBindingListFlagPlotType g) "m1");
    [|destruct (String.eqb (getBindingListFlagPlotType g) "m2")].
  - destruct (scanV1_events env (getBindingListFlagListAll g) dirs dirs []
                (logged (EvLog INFO "searching for plot files from disk, this may take a while (enter CTRL+C to cancel running)") st)
                (incl_refl _)) as (evs & Ev & F).
    fold (getOfflineBindingListV1 env dirs (getBindingListFlagListAll g))
      in Ev.
    destruct (getOfflineBindingListV1 env dirs _ _) as [res s1].
    cbn [snd] in Ev.
    destruct (finishList_events (fst res) (snd res)
                (uint64 (len (fst res))) 0 s1) as (evs' & Ev' & F').
    rewrite Ev', Ev, events_logged, <- !List.app_assoc.
    eexists. split; [reflexivity|].
    cbn [app existsb isWrite orb]. rewrite existsb_app, F'.
    rewrite (scanEvent_no_write _ _ _ _ _ F). reflexivity.
  - destruct (getOfflineBindingListV2_events env dirs
                (getBindingListFlagListAll g) (getBindingListFlagKeystore g)
                (logged (EvLog INFO "searching for plot files from disk, this may take a while (enter CTRL+C to cancel running)") st))
      as (evs & Ev & F).
    destruct (getOfflineBindingListV2 env dirs _ _ _) as [res s1].
    cbn [snd] in Ev.
    destruct (finishList_events (fst res) (snd res) 0
                (uint64 (len (fst res))) s1) as (evs' & Ev' & F').
    rewrite Ev', Ev, events_logged, <- !List.app_assoc.
    eexists. split; [reflexivity|].
    cbn [app existsb isWrite orb]. rewrite existsb_app, F'.
    rewrite (scanEvent_no_write _ _ _ _ _ F). reflexivity.
  - eexists. split; reflexivity.
Qed.

Lemma collect_writes_nothing (env : Env) (g : Globals) (st : RunState) :
  exists evs,
    events (snd (collect env g st)) = (events st ++ evs)%list
    /\ existsb isWrite evs = false.
Proof.
  unfold collect, bind, CPrint, emit, ret.
  destruct (getOfflineBindingList_writes_nothing env g st)
    as (evs & Ev & F).
  destruct (getOfflineBindingList env g st) as [[[l|] [e|]] s1];
    cbn [snd] in *; rewrite ?events_logged, Ev, <- ?List.app_assoc;
    eexists; (split; [reflexivity|]);
    rewrite ?existsb_app, F; reflexivity.
Qed.

End WriteFacts.
Import WriteFacts.

Ltac no_write I :=
  repeat (apply in_app_or in I as [I | I]);
  try (exfalso; eapply no_write_not_in; [|exact I]; assumption);
  try (destruct I as [I | []]; discriminate I).

(** X14.  A run writes at most one file.  When it writes, the checks of
    the export path had passed, the scan had returned a list without an
    error, the list after deduplication is not empty, and what is
    written is its serialisation, to the resolved export path. *)
Theorem export_file_written_once_after_scan
    (env : Env) (context : Context) :
  List.length (filter isWrite (eventsOf env context)) <= 1
  /\ forall path data,
       In (EvWriteFile path data) (eventsOf env context) ->
       exists g stP list stC,
         prepare env context initial = (inl g, stP)
         /\ collect env g stP = ((Some list, None), stC)
         /\ Plots list <> []
         /\ json_MarshalIndent env list = ok data
         /\ path = getBindingListArgFilename g.
Proof.
  unfold eventsOf, main, Action, bind.
  destruct (prepare env context initial) as [[g|err] stP] eqn:P;
    pose proof (prepare_writes_nothing _ _ _ _ _ P) as (evsP & EvP & FP);
    cbn [initial events app] in EvP.
  - destruct (collect_writes_nothing env g stP) as (evsC & EvC & FC).
    destruct (collect env g stP) as [[[list|] [e|]] stC] eqn:C;
      cbn [snd] in EvC.
    + unfold emit, ret. cbn [snd events logged].
      rewrite EvC, EvP, !filter_app, !no_write_filter by assumption.
      split; [cbn; lia|]. intros path data I. no_write I.
    + unfold export, WriteFile, CPrint, emit, ret, bind.
      destruct (len (Plots list) =? 0)%Z eqn:Z0.
      * cbn [snd events logged].
        rewrite EvC, EvP, !filter_app, !no_write_filter by assumption.
        split; [cbn; lia|]. intros path data I. no_write I.
      * destruct (json_MarshalIndent env list) as [data'|e] eqn:J.
        -- assert (NE : Plots list <> []).
           { intros E. rewrite E in Z0. discriminate Z0. }
           destruct (ioutil_WriteFile env _ data');
             cbn [snd events logged]. all:
             rewrite EvC, EvP, !filter_app, !no_write_filter by assumption;
             (split; [cbn; lia|]); intros path data I; no_write I;
             destruct I as [I | []]; injection I as <- <-;
             exists g, stP, list, stC; auto.
        -- cbn [snd events logged].
           rewrite EvC, EvP, !filter_app, !no_write_filter by assumption.
           split; [cbn; lia|]. intros path data I. no_write I.
    + unfold emit, ret. cbn [snd events logged].
      rewrite EvC, EvP, !filter_app, !no_write_filter by assumption.
      split; [cbn; lia|]. intros path data I. no_write I.
    + unfold emit, ret. cbn [snd events logged].
      rewrite EvC, EvP, !filter_app, !no_write_filter by assumption.
      split; [cbn; lia|]. intros path data I. no_write I.
  - destruct err as [e|]; unfold emit, ret; cbn [snd events logged].
    + rewrite EvP, !filter_app, !no_write_filter by assumption.
      split; [cbn; lia|]. intros path data I. no_write I.
    + rewrite EvP, !no_write_filter by assumption.
      split; [cbn; lia|]. intros path data I. no_write I.
Qed.

Lemma export_file_written_once_after_scan_witness :
  exists g stP list stC,
    prepare plottedNative (sampleContext "m1" [plotsDir] "") initial
    = (inl g, stP)
    /\ collect plottedNative g stP = ((Some list, None), stC)
    /\ Plots list <> []
    /\ json_MarshalIndent plottedNative list = ok "{}"
    /\ exportPath = getBindingListArgFilename g.
Proof.
  apply (proj2 (export_file_written_once_after_scan plottedNative
                  (sampleContext "m1" [plotsDir] "")) exportPath "{}").
  vm_compute. repeat (try (left; reflexivity); right).
Defined.

Lemma extractor_results_are_well_formed_witness :
  fst (fst (getOfflineBindingListV1 underivableNative [plotsDir] false
              initial)) = []
  /\ fst (fst (getOfflineBindingListV2 underivableChia [plotsDir] false ""
                 initial)) = [].
Proof.
  destruct (extractor_results_are_well_formed underivableNative [plotsDir]
              false "" initial) as [[E1 _] _].
  destruct (extractor_results_are_well_formed underivableChia [plotsDir]
              false "" initial) as [_ [E2 _]].
  split; [apply E1 | apply E2]; vm_compute; discriminate.
Defined.

(** X15.  [getOfflineBindingList] returns either a list and no error, or
    an error and no list.  In a returned list the total count and the
    count of the scanned format are the number of plots (as [uint64]),
    and the count of the other format is 0. *)
Theorem binding_list_or_error
    (env : Env) (g : Globals) (st : RunState) :
  let r := fst (getOfflineBindingList env g st) in
  (exists list,
     r = (Some list, None)
     /\ TotalCount list = uint64 (len (Plots list))
     /\ ((getBindingListFlagPlotType g = "m1"
          /\ DefaultCount list = uint64 (len (Plots list))
          /\ ChiaCount list = 0%Z)
         \/ (getBindingListFlagPlotType g = "m2"
             /\ DefaultCount list = 0%Z
             /\ ChiaCount list = uint64 (len (Plots list)))))
  \/ (exists e, r = (None, Some e)).
Proof.
  assert (U : forall z, uint64 (uint64 z + 0) = uint64 z
                        /\ uint64 (0 + uint64 z) = uint64 z).
  { intros z. unfold uint64, two64.
    rewrite Z.add_0_r, Z.add_0_l, Z.mod_mod by lia. auto. }
  cbv zeta. unfold getOfflineBindingList.
  destruct (absDirs env _ []) as [dirs|e]; [|right; eexists; reflexivity].
  unfold bind, CPrint, emit, ret.
  destruct (String.eqb_spec (getBindingListFlagPlotType g) "m1") as [T1|_];
    [|destruct (String.eqb_spec (getBindingListFlagPlotType g) "m2")
        as [T2|_]].
  - destruct (getOfflineBindingListV1 env dirs _ _) as [[ps [e|]] s1];
      cbn; [right; eexists; reflexivity|].
    left. eexists. split; [reflexivity|]. cbn.
    split; [apply U | left; auto].
  - destruct (getOfflineBindingListV2 env dirs _ _ _) as [[ps [e|]] s1];
      cbn; [right; eexists; reflexivity|].
    left. eexists. split; [reflexivity|]. cbn.
    split; [apply U | right; auto].
  - right. eexists. reflexivity.
Qed.
